(** * Emby integration for Home Assistant: a shallow embedding and its properties

    The development follows the Python sources file by file:
    - [Py]          the fragment of Python's dynamic semantics the code relies on
                    (JSON values, exceptions, truthiness, [dict.get], [str], [in]);
    - [Float64]     binary64 arithmetic as used by [/], [*] and [int()], on
                    the specification of IEEE 754 in [SpecFloat];
    - [Api]         api.py: the HTTP client, its failure taxonomy, the composite fetch;
    - [Sensor]      sensor.py: the coordinator, the sensor bases, the device sensors;
    - [BinarySensor], [Button], [MediaPlayer], [MediaPlayerEntity]: the
                    remaining platforms;
    - [Snapshot], [SessionRecord], [Views], [Rounding], [Examples]: the
                    vocabulary of the statements and concrete inputs.
    - [ServerSensors], [SessionSensors], [ActivitySensors]: the sensors of
                    sensor.py, class by class; [ServerBinarySensors]: those of
                    binary_sensor.py; [MediaPlayerMedia]: the media properties
                    of media_player.py; [ConfigFlow]: config_flow.py up to the
                    first step of the setup;
    - [PyMore], [Playback], [Scenarios]: what these add to [Py], to the
                    vocabulary and to the concrete inputs.

    Logging calls are left out, they do not change any result; the one place
    where the argument of a logging call can itself raise ([len(sessions)] in
    the media player) is kept. *)

From Stdlib Require Import ZArith String Ascii List Bool Lia.
From Stdlib Require SpecFloat.
From stdpp Require Import base option list strings pretty.

Set Warnings "-register-all".
#[local] Open Scope string_scope.
#[local] Open Scope Z_scope.

(** ** Python values, exceptions and results *)

Module Py.

(** Values as [json.loads] produces them, without numbers that carry a
    fraction or an exponent. A [dict] keeps its insertion order, so it is an
    association list; [dict_lookup] reads the first binding of a key. *)
Inductive PyVal : Type :=
| PNone
| PBool (b : bool)
| PInt (z : Z)
| PStr (s : string)
| PList (xs : list PyVal)
| PDict (kvs : list (string * PyVal)).

(** The class of a raised exception. Every class listed derives from
    [Exception]. [ServerTimeoutError] is aiohttp's class that derives from
    both [aiohttp.ClientError] and [asyncio.TimeoutError]. *)
Inductive ExnClass : Type :=
| AsyncioTimeoutError
| ClientError
| ServerTimeoutError
| ClientResponseError
| TypeError
| AttributeError
| ValueError
| OverflowError
| ZeroDivisionError
| IndexError
| OtherException (name : string)
| EmbyAPIError
| EmbyAuthError
| EmbyConnectionError
| EmbyTimeoutError
| UpdateFailed.

(** An exception object: its class, its message ([str(err)]) and the
    [__cause__] set by [raise ... from err]. *)
Inductive PyExn : Type :=
| Exn (cls : ExnClass) (msg : string) (cause : option PyExn).

Definition exn_class (e : PyExn) : ExnClass := let 'Exn c _ _ := e in c.
Definition exn_msg (e : PyExn) : string := let 'Exn _ m _ := e in m.
Definition exn_cause (e : PyExn) : option PyExn := let 'Exn _ _ c := e in c.

(** [isinstance(err, asyncio.TimeoutError)] *)
Definition is_asyncio_TimeoutError (c : ExnClass) : bool :=
  match c with
  | AsyncioTimeoutError | ServerTimeoutError => true
  | _ => false
  end.

(** [isinstance(err, aiohttp.ClientError)] *)
Definition is_aiohttp_ClientError (c : ExnClass) : bool :=
  match c with
  | ClientError | ServerTimeoutError | ClientResponseError => true
  | _ => false
  end.

(** [isinstance(err, EmbyAuthError)] *)
Definition is_EmbyAuthError (c : ExnClass) : bool :=
  match c with
  | EmbyAuthError => true
  | _ => false
  end.

(** [isinstance(err, EmbyAPIError)]: the base class and its three subclasses. *)
Definition is_EmbyAPIError (c : ExnClass) : bool :=
  match c with
  | EmbyAPIError | EmbyAuthError | EmbyConnectionError | EmbyTimeoutError => true
  | _ => false
  end.

(** The outcome of evaluating an expression or awaiting a coroutine. *)
Inductive result (A : Type) : Type :=
| Ok (a : A)
| Raise (e : PyExn).
Arguments Ok {A} a.
Arguments Raise {A} e.

(** Sequencing: the first exception raised ends the computation. *)
Definition bind {A B} (m : result A) (f : A -> result B) : result B :=
  match m with
  | Ok a => f a
  | Raise e => Raise e
  end.

Definition fmap_result {A B} (f : A -> B) (m : result A) : result B :=
  match m with
  | Ok a => Ok (f a)
  | Raise e => Raise e
  end.

Definition raise {A} (c : ExnClass) (msg : string) : result A :=
  Raise (Exn c msg None).

(** [bool(v)] *)
Definition truthy (v : PyVal) : bool :=
  match v with
  | PNone => false
  | PBool b => b
  | PInt z => negb (z =? 0)
  | PStr s => negb (String.eqb s "")
  | PList xs => match xs with [] => false | _ => true end
  | PDict kvs => match kvs with [] => false | _ => true end
  end.

(** [v is None] *)
Definition is_none (v : PyVal) : bool :=
  match v with
  | PNone => true
  | _ => false
  end.

(** [a or b] *)
Definition py_or (a b : PyVal) : PyVal := if truthy a then a else b.

Fixpoint dict_lookup (kvs : list (string * PyVal)) (k : string) : option PyVal :=
  match kvs with
  | [] => None
  | (k', v) :: rest => if String.eqb k' k then Some v else dict_lookup rest k
  end.

(** [o.get(k, dflt)]: only a [dict] has the method. *)
Definition get (o : PyVal) (k : string) (dflt : PyVal) : result PyVal :=
  match o with
  | PDict kvs => Ok (default dflt (dict_lookup kvs k))
  | _ => raise AttributeError "object has no attribute 'get'"
  end.

(** [v == s] for a [str] [s]: no value of another type equals a string. *)
Definition eq_str (v : PyVal) (s : string) : bool :=
  match v with
  | PStr t => String.eqb t s
  | _ => false
  end.

(** A [str] is held as its UTF-8 encoding. A byte [10xxxxxx] continues
    the code point that the byte before it began or continued. *)
Definition is_continuation (c : ascii) : bool :=
  let n := N_of_ascii c in (128 <=? n)%N && (n <? 192)%N.

(** The code points of the suffixes of a string, from the right: the
    continuation bytes that still wait for their first byte, and the code
    points after them, each as the string of its bytes. *)
Fixpoint scan (s : string) : string * list string :=
  match s with
  | EmptyString => (EmptyString, [])
  | String c rest =>
      let '(pending, points) := scan rest in
      if is_continuation c then (String c pending, points)
      else (EmptyString, String c pending :: points)
  end.

(** The code points of a string. Continuation bytes at its start, which no
    encoding of a [str] has, are kept as one item. *)
Definition code_points (s : string) : list string :=
  let '(pending, points) := scan s in
  match pending with
  | EmptyString => points
  | _ => pending :: points
  end.

(** [len(v)]: a [str] has as many items as code points. *)
Definition len (v : PyVal) : result Z :=
  match v with
  | PStr s => Ok (Z.of_nat (length (code_points s)))
  | PList xs => Ok (Z.of_nat (length xs))
  | PDict kvs => Ok (Z.of_nat (length kvs))
  | _ => raise TypeError "object has no len()"
  end.

(** The characters of a [str], one string per code point. *)
Definition chars (s : string) : list PyVal := map PStr (code_points s).

(** The items [for x in v] runs over: the elements of a list, the keys of
    a dict, the characters of a string. *)
Definition iter (v : PyVal) : result (list PyVal) :=
  match v with
  | PList xs => Ok xs
  | PDict kvs => Ok (map (fun kv => PStr (fst kv)) kvs)
  | PStr s => Ok (chars s)
  | _ => raise TypeError "object is not iterable"
  end.

Fixpoint is_substring (needle hay : string) : bool :=
  String.prefix needle hay ||
  match hay with
  | EmptyString => false
  | String _ rest => is_substring needle rest
  end.

(** [s in v] for a [str] [s]: a key of a dict, an element of a list, a
    substring of a string. *)
Definition contains_str (s : string) (v : PyVal) : result bool :=
  match v with
  | PDict kvs => Ok (bool_decide (is_Some (dict_lookup kvs s)))
  | PList xs => Ok (existsb (fun x => eq_str x s) xs)
  | PStr t => Ok (is_substring s t)
  | _ => raise TypeError "argument is not iterable"
  end.

(** The integer a value stands for in arithmetic: [bool] is a subclass of [int]. *)
Definition as_int (v : PyVal) : option Z :=
  match v with
  | PInt z => Some z
  | PBool b => Some (Z.b2z b)
  | _ => None
  end.

(** [v > n] for an [int] [n] *)
Definition gt_int (v : PyVal) (n : Z) : result bool :=
  match as_int v with
  | Some z => Ok (n <? z)
  | None => raise TypeError "'>' not supported"
  end.

(** [a - b] *)
Definition sub (a b : PyVal) : result PyVal :=
  match as_int a, as_int b with
  | Some x, Some y => Ok (PInt (x - y))
  | _, _ => raise TypeError "unsupported operand type(s) for -"
  end.

(** *** [repr] and [str] *)

Definition hex_digit (n : N) : ascii :=
  ascii_of_N (if (n <? 10)%N then 48 + n else 87 + n)%N.

Definition quote1 : ascii := "039"%char.
Definition quote2 : ascii := "034"%char.
Definition backslash : ascii := "092"%char.

Fixpoint has_char (c : ascii) (s : string) : bool :=
  match s with
  | EmptyString => false
  | String c' rest => Ascii.eqb c c' || has_char c rest
  end.

(** One character of [repr(s)]. On ASCII this is [repr] itself. Bytes from
    128 on are copied, which is what [repr] does with every code point that
    [str.isprintable] accepts; which code points those are is a matter of
    the Unicode tables of the interpreter, and a code point above 127 that
    they reject (a no-break space, say) is copied here where [repr] writes
    an escape. *)
Definition repr_char (q c : ascii) : string :=
  let n := N_of_ascii c in
  if Ascii.eqb c q || Ascii.eqb c backslash then String backslash (String c EmptyString)
  else if (n =? 9)%N then String backslash "t"
  else if (n =? 10)%N then String backslash "n"
  else if (n =? 13)%N then String backslash "r"
  else if (n <? 32)%N || (n =? 127)%N then
    String backslash (String "x" (String (hex_digit (n / 16)) (String (hex_digit (n mod 16)) EmptyString)))
  else String c EmptyString.

Fixpoint repr_chars (q : ascii) (s : string) : string :=
  match s with
  | EmptyString => EmptyString
  | String c rest => repr_char q c +:+ repr_chars q rest
  end.

(** [repr(s)] for a [str]: single quotes, unless the string holds a single
    quote and no double quote. *)
Definition repr_str (s : string) : string :=
  let q := if has_char quote1 s && negb (has_char quote2 s) then quote2 else quote1 in
  String q (repr_chars q s) +:+ String q EmptyString.

Fixpoint join (sep : string) (parts : list string) : string :=
  match parts with
  | [] => ""
  | [p] => p
  | p :: rest => p +:+ sep +:+ join sep rest
  end.

Fixpoint repr (v : PyVal) : string :=
  match v with
  | PNone => "None"
  | PBool true => "True"
  | PBool false => "False"
  | PInt z => pretty z
  | PStr s => repr_str s
  | PList xs => "[" +:+ join ", " (map repr xs) +:+ "]"
  | PDict kvs =>
      "{" +:+ join ", " (map (fun kv => repr_str (fst kv) +:+ ": " +:+ repr (snd kv)) kvs) +:+ "}"
  end.

(** [str(v)], also what an f-string field [{v}] expands to. *)
Definition str (v : PyVal) : string :=
  match v with
  | PStr s => s
  | _ => repr v
  end.

End Py.

Notation "x <- y ; z" := (Py.bind y (fun x => z))
  (at level 20, y at level 100, z at level 200, only parsing).

(** ** Binary64 arithmetic *)

Module Float64.
Import Py.

Definition prec : Z := 53.
Definition emax : Z := 1024.

Abbreviation float := SpecFloat.spec_float.

(** [float(n)] for an [int]: rounded to nearest, ties to even. *)
Definition of_int (n : Z) : result float :=
  match SpecFloat.binary_normalize prec emax n 0 false with
  | SpecFloat.S754_infinity _ => raise OverflowError "int too large to convert to float"
  | f => Ok f
  end.

(** [a / b] for two [int]s: the quotient of the exact integers, rounded once. *)
Definition int_truediv (a b : Z) : result float :=
  if b =? 0 then raise ZeroDivisionError "division by zero"
  else
    let sign := xorb (a <? 0) (b <? 0) in
    if a =? 0 then Ok (SpecFloat.S754_zero sign)
    else
      let '(mz, ez, lz) := SpecFloat.SFdiv_core_binary prec emax (Z.abs a) 0 (Z.abs b) 0 in
      match SpecFloat.binary_round_aux prec emax sign mz ez lz with
      | SpecFloat.S754_infinity _ =>
          raise OverflowError "integer division result too large for a float"
      | f => Ok f
      end.

(** [x * n] for a [float] [x] and an [int] [n]. *)
Definition mul_int (x : float) (n : Z) : result float :=
  y <- of_int n; Ok (SpecFloat.SFmul prec emax x y).

(** [int(x)]: truncation towards zero. *)
Definition to_int (x : float) : result Z :=
  match x with
  | SpecFloat.S754_zero _ => Ok 0
  | SpecFloat.S754_infinity _ => raise OverflowError "cannot convert float infinity to integer"
  | SpecFloat.S754_nan => raise ValueError "cannot convert float NaN to integer"
  | SpecFloat.S754_finite s m e =>
      let a := if 0 <=? e then Z.shiftl (Zpos m) e else Z.shiftr (Zpos m) (- e) in
      Ok (if s then - a else a)
  end.

(** [a / b] on values. *)
Definition truediv (a b : PyVal) : result float :=
  match as_int a, as_int b with
  | Some x, Some y => int_truediv x y
  | _, _ => raise TypeError "unsupported operand type(s) for /"
  end.

End Float64.

(** ** Rounding a quotient of integers *)

Module Rounding.

(** The mantissa [m] and the location [l] are those of [N * u / D]: the
    remainder [N * u - m * D] lies in [[0, D)], and [l] says how it compares
    with half of [D]. *)
Definition located (D N u m : Z) (l : SpecFloat.location) : Prop :=
  let R := N * u - m * D in
  0 <= R < D /\
  l = if R =? 0 then SpecFloat.loc_Exact else SpecFloat.loc_Inexact (2 * R ?= D).

(** The quotient [t / D] of two positive integers as a binary64 number,
    the way [Float64.int_truediv] computes it. *)
Definition quotient (D t : Z) : SpecFloat.spec_float :=
  let '(mz, ez, lz) := SpecFloat.SFdiv_core_binary 53 1024 t 0 D 0 in
  SpecFloat.binary_round_aux 53 1024 false mz ez lz.

End Rounding.

(** ** api.py *)

Module Api.
Import Py.

(** const.py *)
Definition API_ENDPOINT_SYSTEM_INFO : string := "/System/Info".
Definition API_ENDPOINT_SYSTEM_INFO_PUBLIC : string := "/System/Info/Public".
Definition API_ENDPOINT_SYSTEM_ENDPOINT : string := "/System/Endpoint".
Definition API_ENDPOINT_ITEMS_COUNTS : string := "/Items/Counts".
Definition API_ENDPOINT_LIBRARY_FOLDERS : string := "/Library/MediaFolders".
Definition API_ENDPOINT_SESSIONS : string := "/Sessions".
Definition API_ENDPOINT_USERS : string := "/Users".
Definition API_ENDPOINT_ACTIVITY_LOG : string := "/System/ActivityLog/Entries".
Definition API_ENDPOINT_SCHEDULED_TASKS : string := "/ScheduledTasks".
Definition API_ENDPOINT_DEVICES : string := "/Devices".
Definition DEFAULT_TIMEOUT : Z := 10.
Definition ERROR_AUTH : string := "Authentication failed".
Definition ERROR_CONNECT : string := "Connection failed".
Definition ERROR_TIMEOUT : string := "Request timeout".
Definition ERROR_UNKNOWN : string := "Unknown error".

(** What [session.request] is called with. *)
Record Request : Type := {
  req_method : string;
  req_url : string;
  req_headers : list (string * string);
  req_json : option PyVal;
  req_params : option (list (string * PyVal));
  req_timeout : Z
}.

(** What the client sees of a response: the status line, the content type
    and the outcome of reading the body with [response.json()] or with
    [response.text()]; either read can raise. *)
Record Response : Type := {
  status : Z;
  content_type : string;
  json : result PyVal;
  text : result string
}.

(** One exchange under [async_timeout.timeout]: the request raised before
    a response was there (a timeout, a transport error, anything else), or
    the server responded. *)
Inductive Exchange : Type :=
| Failed (err : PyExn)
| Responded (r : Response).

(** The aiohttp session together with the server behind it. The outcome
    of a request depends on the request only, not on the order in which
    concurrent requests are served. *)
Definition ClientSession : Type := Request -> Exchange.

Record EmbyAPIClient : Type := {
  host : string;
  port : Z;
  api_key : string;
  session : ClientSession;
  use_ssl : bool;
  base_url : string
}.

(** [EmbyAPIClient.__init__] *)
Definition init (host : string) (port : Z) (api_key : string)
    (session : ClientSession) (use_ssl : bool) : EmbyAPIClient :=
  {| host := host; port := port; api_key := api_key; session := session;
     use_ssl := use_ssl;
     base_url := (if use_ssl then "https" else "http") +:+ "://" +:+ host +:+ ":" +:+ pretty port |}.

(** aiohttp's [response.raise_for_status()]: a status from 400 on raises
    [ClientResponseError]. *)
Definition raise_for_status (r : Response) : result unit :=
  if 400 <=? status r then raise ClientResponseError "bad status" else Ok tt.

(** The body of the [try] block of [_request]. *)
Definition request_try (x : Exchange) : result PyVal :=
  match x with
  | Failed err => Raise err
  | Responded response =>
      if status response =? 401 then raise EmbyAuthError ERROR_AUTH
      else if status response =? 404 then Ok PNone
      else
        _ <- raise_for_status response;
        if String.eqb (content_type response) "application/json" then json response
        else fmap_result PStr (text response)
  end.

(** The [except] clauses of [_request], tried in the order they are written. *)
Definition request_except (err : PyExn) : result PyVal :=
  if is_asyncio_TimeoutError (exn_class err) then
    Raise (Exn EmbyTimeoutError ERROR_TIMEOUT (Some err))
  else if is_aiohttp_ClientError (exn_class err) then
    Raise (Exn EmbyConnectionError ERROR_CONNECT (Some err))
  else if is_EmbyAuthError (exn_class err) then
    Raise err
  else
    Raise (Exn EmbyAPIError ERROR_UNKNOWN (Some err)).

Definition make_request (self : EmbyAPIClient) (method endpoint : string)
    (data : option PyVal) (params : option (list (string * PyVal))) (timeout : Z) : Request :=
  {| req_method := method;
     req_url := base_url self +:+ endpoint;
     req_headers := [("X-Emby-Token", api_key self); ("Accept", "application/json")];
     req_json := data;
     req_params := params;
     req_timeout := timeout |}.

Definition _request (self : EmbyAPIClient) (method endpoint : string)
    (data : option PyVal) (params : option (list (string * PyVal))) (timeout : Z) : result PyVal :=
  match request_try (session self (make_request self method endpoint data params timeout)) with
  | Ok v => Ok v
  | Raise err => request_except err
  end.

Definition get_system_info (self : EmbyAPIClient) : result PyVal :=
  _request self "GET" API_ENDPOINT_SYSTEM_INFO None None DEFAULT_TIMEOUT.

Definition get_system_info_public (self : EmbyAPIClient) : result PyVal :=
  _request self "GET" API_ENDPOINT_SYSTEM_INFO_PUBLIC None None DEFAULT_TIMEOUT.

Definition get_system_endpoint (self : EmbyAPIClient) : result PyVal :=
  _request self "GET" API_ENDPOINT_SYSTEM_ENDPOINT None None DEFAULT_TIMEOUT.

Definition get_items_counts (self : EmbyAPIClient) : result PyVal :=
  _request self "GET" API_ENDPOINT_ITEMS_COUNTS None None DEFAULT_TIMEOUT.

Definition get_library_folders (self : EmbyAPIClient) : result PyVal :=
  _request self "GET" API_ENDPOINT_LIBRARY_FOLDERS None None DEFAULT_TIMEOUT.

Definition get_sessions (self : EmbyAPIClient) : result PyVal :=
  _request self "GET" API_ENDPOINT_SESSIONS None None DEFAULT_TIMEOUT.

Definition get_users (self : EmbyAPIClient) : result PyVal :=
  _request self "GET" API_ENDPOINT_USERS None None DEFAULT_TIMEOUT.

Definition get_activity_log (self : EmbyAPIClient) (limit : Z) : result PyVal :=
  _request self "GET" API_ENDPOINT_ACTIVITY_LOG None (Some [("limit", PInt limit)]) DEFAULT_TIMEOUT.

Definition get_scheduled_tasks (self : EmbyAPIClient) : result PyVal :=
  _request self "GET" API_ENDPOINT_SCHEDULED_TASKS None None DEFAULT_TIMEOUT.

Definition get_devices (self : EmbyAPIClient) : result PyVal :=
  _request self "GET" API_ENDPOINT_DEVICES None None DEFAULT_TIMEOUT.

(** [asyncio.gather(..., return_exceptions=True)]: every awaitable runs to
    its own outcome, and an exception it raised is put in the result list
    at its position instead of being raised. An entry [Raise err] of the
    list is the exception object [err]. *)
Definition gather_return_exceptions (aws : list (result PyVal)) : result (list (result PyVal)) :=
  Ok aws.

(** [results[i]] *)
Definition index (results : list (result PyVal)) (i : nat) : result (result PyVal) :=
  match results !! i with
  | Some r => Ok r
  | None => raise IndexError "list index out of range"
  end.

(** [results[i] if not isinstance(results[i], Exception) else fallback] *)
Definition value_or (results : list (result PyVal)) (i : nat) (fallback : PyVal) : result PyVal :=
  r <- index results i;
  match r with
  | Raise _ => Ok fallback
  | Ok v => Ok v
  end.

Definition get_dashboard_overview (self : EmbyAPIClient) : result PyVal :=
  results <- gather_return_exceptions
    [ get_system_info self;
      get_system_endpoint self;
      get_items_counts self;
      get_library_folders self;
      get_sessions self;
      get_users self;
      get_activity_log self 10;
      get_scheduled_tasks self;
      get_devices self ];
  system_info <- value_or results 0 (PDict []);
  endpoint_info <- value_or results 1 (PDict []);
  items_counts <- value_or results 2 (PDict []);
  library_folders <- value_or results 3 (PDict []);
  sessions <- value_or results 4 (PList []);
  users <- value_or results 5 (PList []);
  activity_log <- value_or results 6 (PDict []);
  scheduled_tasks <- value_or results 7 (PList []);
  devices <- value_or results 8 (PDict []);
  Ok (PDict
    [ ("system_info", system_info);
      ("endpoint_info", endpoint_info);
      ("items_counts", items_counts);
      ("library_folders", library_folders);
      ("sessions", sessions);
      ("users", users);
      ("activity_log", activity_log);
      ("scheduled_tasks", scheduled_tasks);
      ("devices", devices) ]).

(** [info is not None and "ServerName" in info] *)
Definition has_server_name (info : PyVal) : result bool :=
  if is_none info then Ok false else contains_str "ServerName" info.

Definition test_connection (self : EmbyAPIClient) : result bool :=
  match (info <- get_system_info_public self; has_server_name info) with
  | Ok b => Ok b
  | Raise err => Ok false
  end.

End Api.

(** ** sensor.py *)

Module Sensor.
Import Py Float64.

(** The coordinator as the entities read it: [coordinator.client],
    [coordinator.data] ([None] until a snapshot is stored) and
    [coordinator.last_update_success]. [last_exception] and [notified] keep
    the error recorded by a failed cycle and the number of notifications
    sent to the subscribed entities. *)
Record Coordinator : Type := {
  client : Api.EmbyAPIClient;
  data : PyVal;
  last_update_success : bool;
  last_exception : option PyExn;
  notified : nat
}.

(** [EmbyDataUpdateCoordinator._async_update_data]; [overview] is the
    outcome of awaiting [self.client.get_dashboard_overview()]. *)
Definition _async_update_data (overview : result PyVal) : result PyVal :=
  match overview with
  | Ok data => Ok data
  | Raise err =>
      if is_EmbyAPIError (exn_class err) then
        Raise (Exn UpdateFailed ("Error fetching Emby data: " +:+ exn_msg err) (Some err))
      else Raise err
  end.

(** Modelled from the spec: the refresh cycle of the coordinator, which
    [EmbyDataUpdateCoordinator] inherits from the host framework's
    [DataUpdateCoordinator] and which is not among the sources. Following
    section 4.2: on success the returned structure is stored and the flag
    set; on failure the snapshot is kept, the flag cleared and the error
    recorded; the subscribed entities are notified once either way. *)
Definition refresh_cycle (c : Coordinator) (overview : result PyVal) : Coordinator :=
  match _async_update_data overview with
  | Ok snapshot =>
      {| client := client c; data := snapshot; last_update_success := true;
         last_exception := None; notified := S (notified c) |}
  | Raise err =>
      {| client := client c; data := data c; last_update_success := false;
         last_exception := Some err; notified := S (notified c) |}
  end.

(** One cycle against the coordinator's own client. *)
Definition refresh (c : Coordinator) : Coordinator :=
  refresh_cycle c (Api.get_dashboard_overview (client c)).

(** Modelled from the spec: the read accessors of section 6. *)
Definition current_snapshot (c : Coordinator) : PyVal := data c.
Definition last_refresh_succeeded (c : Coordinator) : bool := last_update_success c.

(** [available] of [EmbySensorBase] and of [EmbyDeviceSensorBase]. *)
Module EmbySensorBase.
Definition available (c : Coordinator) : bool :=
  last_update_success c && negb (is_none (data c)).
End EmbySensorBase.

Module EmbyDeviceSensorBase.
Definition available (c : Coordinator) : bool :=
  last_update_success c && negb (is_none (data c)).
End EmbyDeviceSensorBase.

(** [not self._device_filter or self._device_filter == "all"]; the filter
    is [None] or a [str]. *)
Definition filter_matches_all (device_filter : option string) : bool :=
  match device_filter with
  | None => true
  | Some f => String.eqb f "" || String.eqb f "all"
  end.

(** [_should_include_session], written out the same way in every sensor
    class that filters sessions. *)
Definition _should_include_session (device_filter : option string) (session : PyVal) : result bool :=
  match device_filter with
  | None => Ok true
  | Some f =>
      if String.eqb f "" || String.eqb f "all" then Ok true
      else
        session_device_id <- get session "DeviceId" PNone;
        internal <- get session "InternalDeviceId" (PStr "");
        let session_internal_id := str internal in
        Ok (eq_str session_device_id f || String.eqb session_internal_id f)
  end.

(** [int(ticks / 10000000)], the conversion of ticks to seconds wherever
    it occurs. *)
Definition ticks_to_seconds (ticks : PyVal) : result Z :=
  q <- truediv ticks (PInt 10000000); to_int q.

(** [int((position_ticks / runtime_ticks) * 100)] *)
Definition percent (position_ticks runtime_ticks : PyVal) : result Z :=
  q <- truediv position_ticks runtime_ticks;
  p <- mul_int q 100;
  to_int p.

(** [f"{n:02d}"] *)
Definition fmt_02d (n : Z) : string :=
  if n <? 0 then pretty n
  else if n <? 10 then "0" +:+ pretty n
  else pretty n.

(** The [HH:MM:SS] or [MM:SS] rendering of a number of seconds. *)
Definition clock (total_seconds : Z) : string :=
  let hours := total_seconds / 3600 in
  let minutes := (total_seconds mod 3600) / 60 in
  let seconds := total_seconds mod 60 in
  if 0 <? hours then fmt_02d hours +:+ ":" +:+ fmt_02d minutes +:+ ":" +:+ fmt_02d seconds
  else fmt_02d minutes +:+ ":" +:+ fmt_02d seconds.

Module EmbyProgressPercentSensor.

(** The [for] loop of [native_value]. *)
Fixpoint native_value_loop (device_filter : option string) (sessions : list PyVal) : result Z :=
  match sessions with
  | [] => Ok 0
  | session :: rest =>
      included <- _should_include_session device_filter session;
      if negb included then native_value_loop device_filter rest
      else
        now_playing <- get session "NowPlayingItem" PNone;
        if truthy now_playing then
          play_state <- get session "PlayState" (PDict []);
          position_ticks <- get play_state "PositionTicks" (PInt 0);
          runtime_ticks <- get now_playing "RunTimeTicks" (PInt 0);
          runtime_positive <- gt_int runtime_ticks 0;
          if runtime_positive then percent position_ticks runtime_ticks
          else native_value_loop device_filter rest
        else native_value_loop device_filter rest
  end.

Definition native_value (c : Coordinator) (device_filter : option string) : result Z :=
  sessions <- get (data c) "sessions" (PList []);
  items <- iter sessions;
  native_value_loop device_filter items.

End EmbyProgressPercentSensor.

Module EmbyPlaybackRemainingSensor.

(** The [for] loop shared by [native_value] and [extra_state_attributes]:
    the remaining seconds of the first included session that is playing
    with positive runtime and position, if there is one. *)
Fixpoint remaining_loop (device_filter : option string) (sessions : list PyVal) : result (option Z) :=
  match sessions with
  | [] => Ok None
  | session :: rest =>
      included <- _should_include_session device_filter session;
      if negb included then remaining_loop device_filter rest
      else
        now_playing <- get session "NowPlayingItem" PNone;
        if truthy now_playing then
          play_state <- get session "PlayState" (PDict []);
          position_ticks <- get play_state "PositionTicks" (PInt 0);
          runtime_ticks <- get now_playing "RunTimeTicks" (PInt 0);
          runtime_positive <- gt_int runtime_ticks 0;
          if runtime_positive then
            position_positive <- gt_int position_ticks 0;
            if position_positive then
              remaining_ticks <- sub runtime_ticks position_ticks;
              remaining_seconds <- ticks_to_seconds remaining_ticks;
              Ok (Some remaining_seconds)
            else remaining_loop device_filter rest
          else remaining_loop device_filter rest
        else remaining_loop device_filter rest
  end.

Definition native_value (c : Coordinator) (device_filter : option string) : result string :=
  sessions <- get (data c) "sessions" (PList []);
  items <- iter sessions;
  found <- remaining_loop device_filter items;
  match found with
  | Some remaining_seconds => Ok (clock remaining_seconds)
  | None => Ok "00:00"
  end.

Definition extra_state_attributes (c : Coordinator) (device_filter : option string) : result PyVal :=
  sessions <- get (data c) "sessions" (PList []);
  items <- iter sessions;
  found <- remaining_loop device_filter items;
  match found with
  | Some remaining_seconds =>
      Ok (PDict [("remaining_seconds", PInt remaining_seconds);
                 ("remaining_minutes", PInt (remaining_seconds / 60))])
  | None => Ok (PDict [])
  end.

End EmbyPlaybackRemainingSensor.

End Sensor.

(** ** binary_sensor.py *)

Module BinarySensor.
Import Py Sensor.

Module EmbyBinarySensorBase.
Definition available (c : Coordinator) : bool :=
  last_update_success c && negb (is_none (data c)).
End EmbyBinarySensorBase.

Module EmbyOnlineBinarySensor.
(** Overrides the base class: the online status is always shown. *)
Definition available (c : Coordinator) : bool := true.
End EmbyOnlineBinarySensor.

End BinarySensor.

(** ** button.py *)

Module Button.
Import Py Sensor.

Module EmbyButtonBase.
Definition available (c : Coordinator) : bool :=
  last_update_success c && negb (is_none (data c)).
End EmbyButtonBase.

End Button.

(** ** media_player.py *)

Module MediaPlayer.
Import Py Float64 Sensor.

Inductive MediaPlayerState : Type := IDLE | PAUSED | PLAYING.

(** The fields of an [EmbyMediaPlayer] that its methods read and assign.
    The entity keeps a reference to the coordinator; the coordinator is
    passed to each method that reads it. A cached field holds whatever the
    session carried under the key, not only strings. *)
Record EmbyMediaPlayer : Type := {
  device_id : string;
  device_name : string;
  user_name : string;
  _session_data : PyVal;
  _cached_user : PyVal;
  _cached_device : PyVal;
  _cached_client : PyVal
}.

(** A method that assigns to fields of [self] and may raise: the entity
    as the method leaves it comes with the outcome. *)
Definition M (A : Type) : Type := EmbyMediaPlayer -> result A * EmbyMediaPlayer.

Definition mret {A} (a : A) : M A := fun self => (Ok a, self).

Definition mbind {A B} (m : M A) (f : A -> M B) : M B := fun self =>
  match m self with
  | (Ok a, self') => f a self'
  | (Raise e, self') => (Raise e, self')
  end.

Definition lift {A} (r : result A) : M A := fun self => (r, self).

Definition read {A} (field : EmbyMediaPlayer -> A) : M A := fun self => (Ok (field self), self).

Definition set_session_data (v : PyVal) : M unit := fun self =>
  (Ok tt,
   {| device_id := device_id self; device_name := device_name self; user_name := user_name self;
      _session_data := v; _cached_user := _cached_user self;
      _cached_device := _cached_device self; _cached_client := _cached_client self |}).

Definition set_cached_user (v : PyVal) : M unit := fun self =>
  (Ok tt,
   {| device_id := device_id self; device_name := device_name self; user_name := user_name self;
      _session_data := _session_data self; _cached_user := v;
      _cached_device := _cached_device self; _cached_client := _cached_client self |}).

Definition set_cached_device (v : PyVal) : M unit := fun self =>
  (Ok tt,
   {| device_id := device_id self; device_name := device_name self; user_name := user_name self;
      _session_data := _session_data self; _cached_user := _cached_user self;
      _cached_device := v; _cached_client := _cached_client self |}).

Definition set_cached_client (v : PyVal) : M unit := fun self =>
  (Ok tt,
   {| device_id := device_id self; device_name := device_name self; user_name := user_name self;
      _session_data := _session_data self; _cached_user := _cached_user self;
      _cached_device := _cached_device self; _cached_client := v |}).

End MediaPlayer.

Notation "x <~ y ; z" := (MediaPlayer.mbind y (fun x => z))
  (at level 20, y at level 100, z at level 200, only parsing).

Module MediaPlayerEntity.
Import Py Float64 Sensor MediaPlayer.

(** [session_device_id == self.device_id or session_internal_id == self.device_id],
    with the two reads of the session that precede it. *)
Definition session_matches (device_id : string) (session : PyVal) : result bool :=
  session_device_id <- get session "DeviceId" PNone;
  internal <- get session "InternalDeviceId" (PStr "");
  let session_internal_id := str internal in
  Ok (eq_str session_device_id device_id || String.eqb session_internal_id device_id).

(** The [for] loop of [_update_session_data] and the assignment after it. *)
Fixpoint update_loop (sessions : list PyVal) : M unit :=
  match sessions with
  | [] => set_session_data PNone
  | session :: rest =>
      device_id <~ read device_id;
      matched <~ lift (session_matches device_id session);
      if matched then
        _ <~ set_session_data session;
        cached_user <~ read _cached_user;
        user <~ lift (get session "UserName" cached_user);
        _ <~ set_cached_user user;
        cached_device <~ read _cached_device;
        device <~ lift (get session "DeviceName" cached_device);
        _ <~ set_cached_device device;
        cached_client <~ read _cached_client;
        client <~ lift (get session "Client" cached_client);
        set_cached_client client
      else update_loop rest
  end.

Definition _update_session_data (c : Coordinator) : M unit :=
  if negb (truthy (data c)) then set_session_data PNone
  else
    sessions <~ lift (get (data c) "sessions" (PList []));
    _ <~ lift (len sessions);
    items <~ lift (iter sessions);
    update_loop items.

(** [EmbyMediaPlayer.__init__]: the fields are set, then
    [_update_session_data] runs once. *)
Definition init (c : Coordinator) (device_id device_name user_name : string)
    : result unit * EmbyMediaPlayer :=
  _update_session_data c
    {| device_id := device_id; device_name := device_name; user_name := user_name;
       _session_data := PNone;
       _cached_user := PStr user_name;
       _cached_device := PStr device_name;
       _cached_client := PStr "Unknown" |}.

Definition _handle_coordinator_update (c : Coordinator) : M unit :=
  _update_session_data c.

Definition available (c : Coordinator) : bool := last_update_success c.

Definition name (self : EmbyMediaPlayer) : result string :=
  let user := py_or (_cached_user self) (PStr (user_name self)) in
  let device := py_or (_cached_device self) (PStr (device_name self)) in
  if truthy (_session_data self) then
    user' <- get (_session_data self) "UserName" user;
    device' <- get (_session_data self) "DeviceName" device;
    Ok ("Emby " +:+ str user' +:+ " - " +:+ str device')
  else Ok ("Emby " +:+ str user +:+ " - " +:+ str device).

Definition state (self : EmbyMediaPlayer) : result MediaPlayerState :=
  if negb (truthy (_session_data self)) then Ok IDLE
  else
    now_playing <- get (_session_data self) "NowPlayingItem" PNone;
    if negb (truthy now_playing) then Ok IDLE
    else
      play_state <- get (_session_data self) "PlayState" (PDict []);
      is_paused <- get play_state "IsPaused" (PBool false);
      if truthy is_paused then Ok PAUSED else Ok PLAYING.

Definition media_duration (self : EmbyMediaPlayer) : result PyVal :=
  if negb (truthy (_session_data self)) then Ok PNone
  else
    now_playing <- get (_session_data self) "NowPlayingItem" (PDict []);
    run_time_ticks <- get now_playing "RunTimeTicks" PNone;
    if truthy run_time_ticks then fmap_result PInt (ticks_to_seconds run_time_ticks)
    else Ok PNone.

Definition media_position (self : EmbyMediaPlayer) : result PyVal :=
  if negb (truthy (_session_data self)) then Ok PNone
  else
    play_state <- get (_session_data self) "PlayState" (PDict []);
    position_ticks <- get play_state "PositionTicks" PNone;
    if truthy position_ticks then fmap_result PInt (ticks_to_seconds position_ticks)
    else Ok PNone.

(** [attrs[k] = v]: an existing key keeps its place. *)
Fixpoint dict_set (kvs : list (string * PyVal)) (k : string) (v : PyVal) : list (string * PyVal) :=
  match kvs with
  | [] => [(k, v)]
  | (k', v') :: rest =>
      if String.eqb k' k then (k, v) :: rest else (k', v') :: dict_set rest k v
  end.

(** [attrs.update(other)] *)
Definition dict_update (kvs other : list (string * PyVal)) : list (string * PyVal) :=
  fold_left (fun acc kv => dict_set acc (fst kv) (snd kv)) other kvs.

Definition extra_state_attributes (self : EmbyMediaPlayer) : result PyVal :=
  let attrs :=
    [ ("device_id", PStr (device_id self));
      ("client", _cached_client self);
      ("device_name", _cached_device self);
      ("user_name", _cached_user self) ] in
  if negb (truthy (_session_data self)) then
    Ok (PDict (dict_set attrs "status" (PStr "空闲")))
  else
    play_state <- get (_session_data self) "PlayState" (PDict []);
    now_playing <- get (_session_data self) "NowPlayingItem" (PDict []);
    session_id <- get (_session_data self) "Id" PNone;
    client <- get (_session_data self) "Client" PNone;
    device_name <- get (_session_data self) "DeviceName" PNone;
    user_name <- get (_session_data self) "UserName" PNone;
    remote_endpoint <- get (_session_data self) "RemoteEndPoint" PNone;
    is_muted <- get play_state "IsMuted" (PBool false);
    can_seek <- get play_state "CanSeek" (PBool false);
    repeat_mode <- get play_state "RepeatMode" PNone;
    let attrs := dict_update attrs
      [ ("session_id", session_id);
        ("client", client);
        ("device_name", device_name);
        ("user_name", user_name);
        ("remote_endpoint", remote_endpoint);
        ("is_muted", is_muted);
        ("can_seek", can_seek);
        ("repeat_mode", repeat_mode) ] in
    if truthy now_playing then
      media_type <- get now_playing "Type" PNone;
      media_id <- get now_playing "Id" PNone;
      production_year <- get now_playing "ProductionYear" PNone;
      Ok (PDict (dict_update attrs
        [ ("media_type", media_type);
          ("media_id", media_id);
          ("production_year", production_year) ]))
    else Ok (PDict attrs).

End MediaPlayerEntity.

(** ** The entities as the host sees them *)

Module Views.
Import Py Sensor.

(** One constructor per class that defines [available]; every other
    entity class inherits the property from one of these. *)
Inductive View : Type :=
| EmbySensorBase
| EmbyDeviceSensorBase
| EmbyBinarySensorBase
| EmbyOnlineBinarySensor
| EmbyButtonBase
| EmbyMediaPlayer.

Definition available (v : View) (c : Coordinator) : bool :=
  match v with
  | EmbySensorBase => Sensor.EmbySensorBase.available c
  | EmbyDeviceSensorBase => Sensor.EmbyDeviceSensorBase.available c
  | EmbyBinarySensorBase => BinarySensor.EmbyBinarySensorBase.available c
  | EmbyOnlineBinarySensor => BinarySensor.EmbyOnlineBinarySensor.available c
  | EmbyButtonBase => Button.EmbyButtonBase.available c
  | EmbyMediaPlayer => MediaPlayerEntity.available c
  end.

(** The availability contract of section 4.2. *)
Definition availability_contract (c : Coordinator) : bool :=
  last_refresh_succeeded c && negb (is_none (current_snapshot c)).


End Views.

(** ** The nine sections of a snapshot *)

Module Snapshot.
Import Py Api.

Inductive Section : Type :=
| system_info
| endpoint_info
| items_counts
| library_folders
| sessions
| users
| activity_log
| scheduled_tasks
| devices.

Definition all : list Section :=
  [ system_info; endpoint_info; items_counts; library_folders; sessions;
    users; activity_log; scheduled_tasks; devices ].

(** The key of a section in the dict [get_dashboard_overview] returns. *)
Definition key (s : Section) : string :=
  match s with
  | system_info => "system_info"
  | endpoint_info => "endpoint_info"
  | items_counts => "items_counts"
  | library_folders => "library_folders"
  | sessions => "sessions"
  | users => "users"
  | activity_log => "activity_log"
  | scheduled_tasks => "scheduled_tasks"
  | devices => "devices"
  end.

(** The sub-fetch [get_dashboard_overview] awaits for a section. *)
Definition fetch (s : Section) (self : EmbyAPIClient) : result PyVal :=
  match s with
  | system_info => get_system_info self
  | endpoint_info => get_system_endpoint self
  | items_counts => get_items_counts self
  | library_folders => get_library_folders self
  | sessions => get_sessions self
  | users => get_users self
  | activity_log => get_activity_log self 10
  | scheduled_tasks => get_scheduled_tasks self
  | devices => get_devices self
  end.

(** The request that sub-fetch sends. *)
Definition request (s : Section) (self : EmbyAPIClient) : Request :=
  match s with
  | system_info => make_request self "GET" API_ENDPOINT_SYSTEM_INFO None None DEFAULT_TIMEOUT
  | endpoint_info => make_request self "GET" API_ENDPOINT_SYSTEM_ENDPOINT None None DEFAULT_TIMEOUT
  | items_counts => make_request self "GET" API_ENDPOINT_ITEMS_COUNTS None None DEFAULT_TIMEOUT
  | library_folders => make_request self "GET" API_ENDPOINT_LIBRARY_FOLDERS None None DEFAULT_TIMEOUT
  | sessions => make_request self "GET" API_ENDPOINT_SESSIONS None None DEFAULT_TIMEOUT
  | users => make_request self "GET" API_ENDPOINT_USERS None None DEFAULT_TIMEOUT
  | activity_log =>
      make_request self "GET" API_ENDPOINT_ACTIVITY_LOG None (Some [("limit", PInt 10)]) DEFAULT_TIMEOUT
  | scheduled_tasks => make_request self "GET" API_ENDPOINT_SCHEDULED_TASKS None None DEFAULT_TIMEOUT
  | devices => make_request self "GET" API_ENDPOINT_DEVICES None None DEFAULT_TIMEOUT
  end.

(** The value [get_dashboard_overview] puts in place of an exception. *)
Definition fallback (s : Section) : PyVal :=
  match s with
  | sessions | users | scheduled_tasks => PList []
  | _ => PDict []
  end.

Definition is_mapping (v : PyVal) : bool :=
  match v with
  | PDict _ => true
  | _ => false
  end.

Definition is_sequence (v : PyVal) : bool :=
  match v with
  | PList _ => true
  | _ => false
  end.

(** A value has the shape of a section when it is of the type of the
    section's fallback. *)
Definition well_shaped (s : Section) (v : PyVal) : bool :=
  if is_mapping (fallback s) then is_mapping v else is_sequence v.

(** What ends up in a section, given the outcome of its sub-fetch. *)
Definition recover (s : Section) (r : result PyVal) : PyVal :=
  match r with
  | Ok v => v
  | Raise _ => fallback s
  end.

End Snapshot.

(** ** Session records *)

Module SessionRecord.
Import Py Sensor MediaPlayer.

(** The two identifier fields of a session record as the matching code
    reads them: [session.get("DeviceId")] and
    [session.get("InternalDeviceId", "")]. *)
Definition DeviceId (kvs : list (string * PyVal)) : PyVal :=
  default PNone (dict_lookup kvs "DeviceId").

Definition InternalDeviceId (kvs : list (string * PyVal)) : PyVal :=
  default (PStr "") (dict_lookup kvs "InternalDeviceId").

(** The sessions of the coordinator's snapshot as a [for] loop over
    [data.get("sessions", [])] visits them. *)
Definition sessions_of (c : Coordinator) : result (list PyVal) :=
  sessions <- get (data c) "sessions" (PList []);
  iter sessions.

(** No session of the snapshot matches the device: there is no snapshot
    to look into, or its sessions are a list of which no element matches. *)
Definition no_matching_session (device_id : string) (c : Coordinator) : Prop :=
  truthy (data c) = false \/
  exists kvs sessions,
    data c = PDict kvs /\
    default (PList []) (dict_lookup kvs "sessions") = PList sessions /\
    Forall (fun session => MediaPlayerEntity.session_matches device_id session = Ok false) sessions.

(** The identity an entity shows while it has no session: the cached
    user and device, or the configured ones where the cache is empty. *)
Definition cached_name (self : EmbyMediaPlayer) : string :=
  "Emby " +:+ str (py_or (_cached_user self) (PStr (user_name self)))
    +:+ " - " +:+ str (py_or (_cached_device self) (PStr (device_name self))).

(** Under [key], the session [session] that an entity holds shows what
    the cache holds: the session has no value under the key, or it has the
    cached value and that value is truthy. *)
Definition shows_cached (session : list (string * PyVal)) (key : string) (cached : PyVal) : Prop :=
  match dict_lookup session key with
  | None => True
  | Some v => v = cached /\ truthy v = true
  end.

(** [self'] carries the configuration and the cached identity of [self]. *)
Definition same_identity (self self' : EmbyMediaPlayer) : Prop :=
  device_id self' = device_id self /\
  device_name self' = device_name self /\
  user_name self' = user_name self /\
  _cached_user self' = _cached_user self /\
  _cached_device self' = _cached_device self /\
  _cached_client self' = _cached_client self.

(** The cached identity of [self'] was read off the session record [kvs],
    falling back on the cache of [self] field by field. *)
Definition identity_from (kvs : list (string * PyVal)) (self self' : EmbyMediaPlayer) : Prop :=
  device_id self' = device_id self /\
  device_name self' = device_name self /\
  user_name self' = user_name self /\
  _cached_user self' = default (_cached_user self) (dict_lookup kvs "UserName") /\
  _cached_device self' = default (_cached_device self) (dict_lookup kvs "DeviceName") /\
  _cached_client self' = default (_cached_client self) (dict_lookup kvs "Client").

End SessionRecord.

(** ** Concrete servers, sessions and entities *)

Module Examples.
Import Py Api Sensor MediaPlayer.

Definition json_response (v : PyVal) : Exchange :=
  Responded {| status := 200; content_type := "application/json"; json := Ok v; text := Ok "" |}.

Definition status_response (code : Z) : Exchange :=
  Responded {| status := code; content_type := "text/plain";
               json := raise (OtherException "ContentTypeError") "unexpected mimetype";
               text := Ok "" |}.

Definition timed_out : Exchange := Failed (Exn AsyncioTimeoutError "" None).

(** A session of device [dev1] (internal id 7), playing. *)
Definition playing_session (position_ticks runtime_ticks : Z) : PyVal :=
  PDict
    [ ("Id", PStr "s1");
      ("DeviceId", PStr "dev1");
      ("InternalDeviceId", PInt 7);
      ("UserName", PStr "bob");
      ("DeviceName", PStr "Living room");
      ("Client", PStr "Infuse");
      ("NowPlayingItem", PDict [("Name", PStr "Film"); ("Type", PStr "Movie");
                                ("RunTimeTicks", PInt runtime_ticks)]);
      ("PlayState", PDict [("PositionTicks", PInt position_ticks); ("IsPaused", PBool false)]) ].

Definition base : string := "http://emby.local:8096".

(** A server on which every endpoint answers with a body of its usual shape. *)
Definition home_server : ClientSession := fun r =>
  let url := req_url r in
  if String.eqb url (base +:+ API_ENDPOINT_SYSTEM_INFO) then
    json_response (PDict [("ServerName", PStr "Home"); ("Id", PStr "abc"); ("Version", PStr "4.8")])
  else if String.eqb url (base +:+ API_ENDPOINT_SYSTEM_INFO_PUBLIC) then
    json_response (PDict [("ServerName", PStr "Home"); ("Id", PStr "abc")])
  else if String.eqb url (base +:+ API_ENDPOINT_SYSTEM_ENDPOINT) then
    json_response (PDict [("IsLocal", PBool true); ("IsInNetwork", PBool true)])
  else if String.eqb url (base +:+ API_ENDPOINT_ITEMS_COUNTS) then
    json_response (PDict [("MovieCount", PInt 3); ("SeriesCount", PInt 1)])
  else if String.eqb url (base +:+ API_ENDPOINT_SESSIONS) then
    json_response (PList [playing_session 150000000 600000000])
  else if String.eqb url (base +:+ API_ENDPOINT_USERS) then
    json_response (PList [PDict [("Name", PStr "bob")]])
  else if String.eqb url (base +:+ API_ENDPOINT_SCHEDULED_TASKS) then
    json_response (PList [PDict [("Name", PStr "Scan"); ("State", PStr "Idle")]])
  else json_response (PDict [("Items", PList [])]).

(** [server], except that the endpoint [endpoint] goes as [x] says. *)
Definition override (server : ClientSession) (endpoint : string) (x : Exchange) : ClientSession :=
  fun r => if String.eqb (req_url r) (base +:+ endpoint) then x else server r.

(** A server that answers the users endpoint with the JSON body [null]. *)
Definition null_body_server : ClientSession :=
  override home_server API_ENDPOINT_USERS (json_response PNone).

Definition client_of (server : ClientSession) : EmbyAPIClient :=
  Api.init "emby.local" 8096 "secret" server false.

Definition coordinator_with (snapshot : PyVal) (success : bool) : Coordinator :=
  {| client := client_of home_server; data := snapshot; last_update_success := success;
     last_exception := None; notified := 0 |}.

Definition snapshot_of (sessions : PyVal) : PyVal :=
  PDict [("system_info", PDict [("ServerName", PStr "Home")]); ("sessions", sessions)].

(** The entity of device [dev1] before its first update. *)
Definition fresh_player : EmbyMediaPlayer :=
  {| device_id := "dev1"; device_name := "TV"; user_name := "alice";
     _session_data := PNone;
     _cached_user := PStr "alice"; _cached_device := PStr "TV"; _cached_client := PStr "Unknown" |}.

(** The entity of device [dev1] once it has picked up a session. *)
Definition player_at (position_ticks runtime_ticks : Z) : EmbyMediaPlayer :=
  snd (MediaPlayerEntity._update_session_data
         (coordinator_with (snapshot_of (PList [playing_session position_ticks runtime_ticks])) true)
         fresh_player).

End Examples.

(** ** More of Python: addition, subscripts, comprehensions *)

Module PyMore.
Import Py.

(** [a + b]: integers (a [bool] counts as one) add, strings and lists
    concatenate. *)
Definition add (a b : PyVal) : result PyVal :=
  match as_int a, as_int b with
  | Some x, Some y => Ok (PInt (x + y))
  | _, _ =>
      match a, b with
      | PStr s, PStr t => Ok (PStr (s +:+ t))
      | PList xs, PList ys => Ok (PList (xs ++ ys))
      | _, _ => raise TypeError "unsupported operand type(s) for +"
      end
  end.

(** [o[k]] for a [str] [k]: a missing key of a dict raises [KeyError]. *)
Definition getitem (o : PyVal) (k : string) : result PyVal :=
  match o with
  | PDict kvs =>
      match dict_lookup kvs k with
      | Some v => Ok v
      | None => raise (OtherException "KeyError") (repr_str k)
      end
  | PStr _ | PList _ => raise TypeError "indices must be integers"
  | _ => raise TypeError "object is not subscriptable"
  end.

(** [[f(x) for x in xs]]: the elements are computed in order, the first
    exception ends the comprehension. *)
Fixpoint comprehension {A B : Type} (f : A -> result B) (xs : list A) : result (list B) :=
  match xs with
  | [] => Ok []
  | x :: rest =>
      y <- f x;
      ys <- comprehension f rest;
      Ok (y :: ys)
  end.

(** The dict display [{k1: item.get(K1), k2: item.get(K2), ...}], for the
    pairs [(k, K)] of [fields]. *)
Definition record_of (fields : list (string * string)) (item : PyVal) : result PyVal :=
  fmap_result PDict
    (comprehension (fun kK => fmap_result (pair (fst kK)) (get item (snd kK) PNone)) fields).

(** [s.lower()] on the ASCII letters of [s]. The results are only tested
    for membership in lists of ASCII words. *)
Definition lower_char (c : ascii) : ascii :=
  let n := N_of_ascii c in
  if (65 <=? n)%N && (n <=? 90)%N then ascii_of_N (n + 32) else c.

Fixpoint lower (s : string) : string :=
  match s with
  | EmptyString => EmptyString
  | String c rest => String (lower_char c) (lower rest)
  end.

(** [v.lower()] *)
Definition lower_method (v : PyVal) : result string :=
  match v with
  | PStr s => Ok (lower s)
  | _ => raise AttributeError "object has no attribute 'lower'"
  end.

(** [s in words] for a [str] [s] and a list of [str]. *)
Definition in_words (s : string) (words : list string) : bool :=
  existsb (String.eqb s) words.

End PyMore.

(** ** sensor.py: the sensors of the server *)

Module ServerSensors.
Import Py PyMore Sensor.

Definition ATTR_SERVER_ID : string := "server_id".
Definition ATTR_OPERATING_SYSTEM : string := "operating_system".
Definition ATTR_FOLDERS : string := "folders".
Definition ATTR_USERS : string := "users".
Definition ATTR_DEVICES : string := "devices".
Definition ATTR_ACTIVITIES : string := "activities".
Definition ATTR_TASKS : string := "tasks".
Definition ATTR_SESSIONS : string := "sessions".
Definition ATTR_MOVIE_COUNT : string := "movie_count".
Definition ATTR_SERIES_COUNT : string := "series_count".
Definition ATTR_EPISODE_COUNT : string := "episode_count".
Definition ATTR_GAME_COUNT : string := "game_count".
Definition ATTR_ARTIST_COUNT : string := "artist_count".
Definition ATTR_SONG_COUNT : string := "song_count".
Definition ATTR_ALBUM_COUNT : string := "album_count".

Module EmbyVersionSensor.
Definition native_value (c : Coordinator) : result PyVal :=
  system_info <- get (data c) "system_info" (PDict []);
  get system_info "Version" PNone.

Definition extra_state_attributes (c : Coordinator) : result PyVal :=
  system_info <- get (data c) "system_info" (PDict []);
  server_id <- get system_info "Id" PNone;
  operating_system <- get system_info "OperatingSystem" PNone;
  Ok (PDict [(ATTR_SERVER_ID, server_id); (ATTR_OPERATING_SYSTEM, operating_system)]).
End EmbyVersionSensor.

Module EmbyServerNameSensor.
Definition native_value (c : Coordinator) : result PyVal :=
  system_info <- get (data c) "system_info" (PDict []);
  get system_info "ServerName" PNone.
End EmbyServerNameSensor.

Module EmbyMovieCountSensor.
Definition native_value (c : Coordinator) : result PyVal :=
  items_counts <- get (data c) "items_counts" (PDict []);
  get items_counts "MovieCount" (PInt 0).
End EmbyMovieCountSensor.

Module EmbySeriesCountSensor.
Definition native_value (c : Coordinator) : result PyVal :=
  items_counts <- get (data c) "items_counts" (PDict []);
  get items_counts "SeriesCount" (PInt 0).
End EmbySeriesCountSensor.

Module EmbyEpisodeCountSensor.
Definition native_value (c : Coordinator) : result PyVal :=
  items_counts <- get (data c) "items_counts" (PDict []);
  get items_counts "EpisodeCount" (PInt 0).
End EmbyEpisodeCountSensor.

Module EmbyTotalItemsSensor.
Definition native_value (c : Coordinator) : result PyVal :=
  items_counts <- get (data c) "items_counts" (PDict []);
  movie_count <- get items_counts "MovieCount" (PInt 0);
  series_count <- get items_counts "SeriesCount" (PInt 0);
  episode_count <- get items_counts "EpisodeCount" (PInt 0);
  partial <- add movie_count series_count;
  add partial episode_count.

Definition extra_state_attributes (c : Coordinator) : result PyVal :=
  items_counts <- get (data c) "items_counts" (PDict []);
  movie_count <- get items_counts "MovieCount" (PInt 0);
  series_count <- get items_counts "SeriesCount" (PInt 0);
  episode_count <- get items_counts "EpisodeCount" (PInt 0);
  game_count <- get items_counts "GameCount" (PInt 0);
  artist_count <- get items_counts "ArtistCount" (PInt 0);
  song_count <- get items_counts "SongCount" (PInt 0);
  album_count <- get items_counts "AlbumCount" (PInt 0);
  Ok (PDict
    [ (ATTR_MOVIE_COUNT, movie_count);
      (ATTR_SERIES_COUNT, series_count);
      (ATTR_EPISODE_COUNT, episode_count);
      (ATTR_GAME_COUNT, game_count);
      (ATTR_ARTIST_COUNT, artist_count);
      (ATTR_SONG_COUNT, song_count);
      (ATTR_ALBUM_COUNT, album_count) ]).
End EmbyTotalItemsSensor.

Module EmbyLibraryFoldersSensor.
Definition native_value (c : Coordinator) : result Z :=
  library_folders <- get (data c) "library_folders" (PDict []);
  items <- get library_folders "Items" (PList []);
  len items.

Definition extra_state_attributes (c : Coordinator) : result PyVal :=
  library_folders <- get (data c) "library_folders" (PDict []);
  items <- get library_folders "Items" (PList []);
  elements <- iter items;
  folders <- comprehension (record_of [("name", "Name"); ("id", "Id"); ("type", "Type")]) elements;
  Ok (PDict [(ATTR_FOLDERS, PList folders)]).
End EmbyLibraryFoldersSensor.

Module EmbyTotalUsersSensor.
Definition native_value (c : Coordinator) : result Z :=
  users <- get (data c) "users" (PList []);
  len users.

Definition extra_state_attributes (c : Coordinator) : result PyVal :=
  users <- get (data c) "users" (PList []);
  elements <- iter users;
  user_list <- comprehension
    (record_of [("name", "Name"); ("id", "Id"); ("last_login", "LastLoginDate")]) elements;
  Ok (PDict [(ATTR_USERS, PList user_list)]).
End EmbyTotalUsersSensor.

Module EmbyActiveSessionsSensor.
Definition native_value (c : Coordinator) : result Z :=
  sessions <- get (data c) "sessions" (PList []);
  len sessions.

Definition extra_state_attributes (c : Coordinator) : result PyVal :=
  sessions <- get (data c) "sessions" (PList []);
  elements <- iter sessions;
  session_list <- comprehension
    (record_of [("client", "Client"); ("device", "DeviceName"); ("user", "UserName"); ("id", "Id")])
    elements;
  Ok (PDict [(ATTR_SESSIONS, PList session_list)]).
End EmbyActiveSessionsSensor.

Module EmbyDeviceCountSensor.
Definition native_value (c : Coordinator) : result Z :=
  devices <- get (data c) "devices" (PDict []);
  items <- get devices "Items" (PList []);
  len items.

Definition extra_state_attributes (c : Coordinator) : result PyVal :=
  devices <- get (data c) "devices" (PDict []);
  items <- get devices "Items" (PList []);
  elements <- iter items;
  device_list <- comprehension
    (record_of [("name", "Name"); ("app", "AppName"); ("last_activity", "DateLastActivity")])
    elements;
  Ok (PDict [(ATTR_DEVICES, PList device_list)]).
End EmbyDeviceCountSensor.

Module EmbyRecentActivitiesSensor.
Definition native_value (c : Coordinator) : result Z :=
  activity_log <- get (data c) "activity_log" (PDict []);
  items <- get activity_log "Items" (PList []);
  len items.

Definition extra_state_attributes (c : Coordinator) : result PyVal :=
  activity_log <- get (data c) "activity_log" (PDict []);
  items <- get activity_log "Items" (PList []);
  elements <- iter items;
  activities <- comprehension
    (record_of [("name", "Name"); ("type", "Type"); ("date", "Date"); ("severity", "Severity")])
    elements;
  Ok (PDict [(ATTR_ACTIVITIES, PList activities)]).
End EmbyRecentActivitiesSensor.

Module EmbyScheduledTasksSensor.
Definition native_value (c : Coordinator) : result Z :=
  scheduled_tasks <- get (data c) "scheduled_tasks" (PList []);
  len scheduled_tasks.

Definition extra_state_attributes (c : Coordinator) : result PyVal :=
  scheduled_tasks <- get (data c) "scheduled_tasks" (PList []);
  elements <- iter scheduled_tasks;
  tasks <- comprehension
    (record_of [("name", "Name"); ("state", "State"); ("category", "Category")]) elements;
  Ok (PDict [(ATTR_TASKS, PList tasks)]).
End EmbyScheduledTasksSensor.

End ServerSensors.

(** ** sensor.py and binary_sensor.py: the sensors of a playback session *)

Module SessionSensors.
Import Py PyMore Float64 Sensor.

(** [format(v, "02d")]: defined on integers only. *)
Definition format_02d (v : PyVal) : result string :=
  match as_int v with
  | Some z => Ok (fmt_02d z)
  | None =>
      match v with
      | PStr _ => raise ValueError "Unknown format code 'd' for object of type 'str'"
      | _ => raise TypeError "unsupported format string"
      end
  end.

Module EmbyNowPlayingSensor.

(** What [native_value] returns for the session it settles on. *)
Definition title_of (now_playing : PyVal) : result PyVal :=
  media_name <- get now_playing "Name" (PStr "Unknown");
  media_type <- get now_playing "Type" (PStr "");
  if eq_str media_type "Episode" then
    series_name <- get now_playing "SeriesName" (PStr "");
    season <- get now_playing "ParentIndexNumber" PNone;
    episode <- get now_playing "IndexNumber" PNone;
    if truthy series_name && truthy season && truthy episode then
      s <- format_02d season;
      e <- format_02d episode;
      Ok (PStr (str series_name +:+ " S" +:+ s +:+ "E" +:+ e))
    else Ok media_name
  else Ok media_name.

Fixpoint native_value_loop (device_filter : option string) (sessions : list PyVal) : result PyVal :=
  match sessions with
  | [] => Ok (PStr "无播放")
  | session :: rest =>
      included <- _should_include_session device_filter session;
      if negb included then native_value_loop device_filter rest
      else
        now_playing <- get session "NowPlayingItem" PNone;
        if truthy now_playing then title_of now_playing
        else native_value_loop device_filter rest
  end.

Definition native_value (c : Coordinator) (device_filter : option string) : result PyVal :=
  sessions <- get (data c) "sessions" (PList []);
  items <- iter sessions;
  native_value_loop device_filter items.

End EmbyNowPlayingSensor.

Module EmbyPlaybackStateSensor.

Fixpoint native_value_loop (device_filter : option string) (sessions : list PyVal) : result string :=
  match sessions with
  | [] => Ok "空闲"
  | session :: rest =>
      included <- _should_include_session device_filter session;
      if negb included then native_value_loop device_filter rest
      else
        now_playing <- get session "NowPlayingItem" PNone;
        if truthy now_playing then
          play_state <- get session "PlayState" (PDict []);
          is_paused <- get play_state "IsPaused" (PBool false);
          Ok (if truthy is_paused then "暂停" else "播放中")
        else native_value_loop device_filter rest
  end.

Definition native_value (c : Coordinator) (device_filter : option string) : result string :=
  sessions <- get (data c) "sessions" (PList []);
  items <- iter sessions;
  native_value_loop device_filter items.

Fixpoint attributes_loop (device_filter : option string) (sessions : list PyVal) : result PyVal :=
  match sessions with
  | [] => Ok (PDict [("status", PStr "无活动播放")])
  | session :: rest =>
      included <- _should_include_session device_filter session;
      if negb included then attributes_loop device_filter rest
      else
        now_playing <- get session "NowPlayingItem" PNone;
        if truthy now_playing then
          play_state <- get session "PlayState" (PDict []);
          is_paused <- get play_state "IsPaused" (PBool false);
          is_muted <- get play_state "IsMuted" (PBool false);
          can_seek <- get play_state "CanSeek" (PBool false);
          device <- get session "DeviceName" PNone;
          user <- get session "UserName" PNone;
          Ok (PDict [("is_paused", is_paused); ("is_muted", is_muted); ("can_seek", can_seek);
                     ("device", device); ("user", user)])
        else attributes_loop device_filter rest
  end.

Definition extra_state_attributes (c : Coordinator) (device_filter : option string) : result PyVal :=
  sessions <- get (data c) "sessions" (PList []);
  items <- iter sessions;
  attributes_loop device_filter items.

End EmbyPlaybackStateSensor.

Module EmbyPlaybackPositionSensor.

(** The loop of [native_value]: a session whose position is not positive
    is passed over. *)
Fixpoint native_value_loop (device_filter : option string) (sessions : list PyVal) : result string :=
  match sessions with
  | [] => Ok "00:00"
  | session :: rest =>
      included <- _should_include_session device_filter session;
      if negb included then native_value_loop device_filter rest
      else
        now_playing <- get session "NowPlayingItem" PNone;
        if truthy now_playing then
          play_state <- get session "PlayState" (PDict []);
          position_ticks <- get play_state "PositionTicks" (PInt 0);
          position_positive <- gt_int position_ticks 0;
          if position_positive then
            position_seconds <- ticks_to_seconds position_ticks;
            Ok (clock position_seconds)
          else native_value_loop device_filter rest
        else native_value_loop device_filter rest
  end.

Definition native_value (c : Coordinator) (device_filter : option string) : result string :=
  sessions <- get (data c) "sessions" (PList []);
  items <- iter sessions;
  native_value_loop device_filter items.

Fixpoint attributes_loop (device_filter : option string) (sessions : list PyVal) : result PyVal :=
  match sessions with
  | [] => Ok (PDict [])
  | session :: rest =>
      included <- _should_include_session device_filter session;
      if negb included then attributes_loop device_filter rest
      else
        now_playing <- get session "NowPlayingItem" PNone;
        if truthy now_playing then
          play_state <- get session "PlayState" (PDict []);
          position_ticks <- get play_state "PositionTicks" (PInt 0);
          position_seconds <- ticks_to_seconds position_ticks;
          Ok (PDict [("position_seconds", PInt position_seconds);
                     ("position_minutes", PInt (position_seconds / 60))])
        else attributes_loop device_filter rest
  end.

Definition extra_state_attributes (c : Coordinator) (device_filter : option string) : result PyVal :=
  sessions <- get (data c) "sessions" (PList []);
  items <- iter sessions;
  attributes_loop device_filter items.

End EmbyPlaybackPositionSensor.

(** binary_sensor.py *)
Module EmbyActiveStreamsBinarySensor.

Fixpoint is_on_loop (device_filter : option string) (sessions : list PyVal) : result bool :=
  match sessions with
  | [] => Ok false
  | session :: rest =>
      included <- _should_include_session device_filter session;
      if negb included then is_on_loop device_filter rest
      else
        now_playing <- get session "NowPlayingItem" PNone;
        if truthy now_playing then Ok true
        else is_on_loop device_filter rest
  end.

Definition is_on (c : Coordinator) (device_filter : option string) : result bool :=
  sessions <- get (data c) "sessions" (PList []);
  items <- iter sessions;
  is_on_loop device_filter items.

(** The loop of [extra_state_attributes], which appends one entry per
    included session that is playing. *)
Fixpoint active_streams (device_filter : option string) (sessions : list PyVal) : result (list PyVal) :=
  match sessions with
  | [] => Ok []
  | session :: rest =>
      included <- _should_include_session device_filter session;
      if negb included then active_streams device_filter rest
      else
        now_playing <- get session "NowPlayingItem" PNone;
        if truthy now_playing then
          client <- get session "Client" PNone;
          device <- get session "DeviceName" PNone;
          user <- get session "UserName" PNone;
          content <- get now_playing "Name" PNone;
          type <- get now_playing "Type" PNone;
          more <- active_streams device_filter rest;
          Ok (PDict [("client", client); ("device", device); ("user", user);
                     ("content", content); ("type", type)] :: more)
        else active_streams device_filter rest
  end.

Definition extra_state_attributes (c : Coordinator) (device_filter : option string) : result PyVal :=
  sessions <- get (data c) "sessions" (PList []);
  items <- iter sessions;
  streams <- active_streams device_filter items;
  let result := [("active_streams", PList streams)] in
  match device_filter with
  | Some f =>
      if negb (String.eqb f "") && negb (String.eqb f "all") then
        Ok (PDict (result ++ [("device_filter", PStr f); ("device_filter_enabled", PBool true)]))
      else
        Ok (PDict (result ++ [("device_filter", PStr "所有设备"); ("device_filter_enabled", PBool false)]))
  | None =>
      Ok (PDict (result ++ [("device_filter", PStr "所有设备"); ("device_filter_enabled", PBool false)]))
  end.

End EmbyActiveStreamsBinarySensor.

End SessionSensors.

(** ** binary_sensor.py: the sensors of the server *)

Module ServerBinarySensors.
Import Py PyMore Sensor.

Definition TASK_STATE_RUNNING : string := "Running".

Module EmbyOnlineBinarySensor.
Definition is_on (c : Coordinator) : result bool :=
  system_info <- get (data c) "system_info" (PDict []);
  server_name <- get system_info "ServerName" PNone;
  Ok (truthy server_name).
End EmbyOnlineBinarySensor.

Module EmbyTasksRunningBinarySensor.

Fixpoint is_on_loop (tasks : list PyVal) : result bool :=
  match tasks with
  | [] => Ok false
  | task :: rest =>
      state <- get task "State" PNone;
      if eq_str state TASK_STATE_RUNNING then Ok true else is_on_loop rest
  end.

Definition is_on (c : Coordinator) : result bool :=
  scheduled_tasks <- get (data c) "scheduled_tasks" (PList []);
  items <- iter scheduled_tasks;
  is_on_loop items.

(** The comprehension of [extra_state_attributes]: the filter is evaluated
    first, the entry only for a task that passes it. *)
Fixpoint running_tasks (tasks : list PyVal) : result (list PyVal) :=
  match tasks with
  | [] => Ok []
  | task :: rest =>
      state <- get task "State" PNone;
      if eq_str state TASK_STATE_RUNNING then
        entry <- record_of [("name", "Name"); ("category", "Category")] task;
        more <- running_tasks rest;
        Ok (entry :: more)
      else running_tasks rest
  end.

Definition extra_state_attributes (c : Coordinator) : result PyVal :=
  scheduled_tasks <- get (data c) "scheduled_tasks" (PList []);
  items <- iter scheduled_tasks;
  running <- running_tasks items;
  Ok (PDict [("running_tasks", PList running)]).

End EmbyTasksRunningBinarySensor.

Module EmbyPendingRestartBinarySensor.
Definition is_on (c : Coordinator) : result PyVal :=
  system_info <- get (data c) "system_info" (PDict []);
  get system_info "HasPendingRestart" (PBool false).
End EmbyPendingRestartBinarySensor.

Module EmbyInNetworkBinarySensor.
Definition is_on (c : Coordinator) : result PyVal :=
  endpoint_info <- get (data c) "endpoint_info" (PDict []);
  get endpoint_info "IsInNetwork" (PBool false).

Definition extra_state_attributes (c : Coordinator) : result PyVal :=
  endpoint_info <- get (data c) "endpoint_info" (PDict []);
  is_local <- get endpoint_info "IsLocal" (PBool false);
  Ok (PDict [("is_local", is_local)]).
End EmbyInNetworkBinarySensor.

Module EmbyLibraryScanningBinarySensor.

Definition library_scan_keywords : list string :=
  ["库"; "Library"; "Scan"; "扫描"; "媒体库"].

(** [any(keyword in task_name for keyword in keywords)]: the keywords are
    tried in order up to the first that is found. *)
Fixpoint any_keyword_in (keywords : list string) (task_name : PyVal) : result bool :=
  match keywords with
  | [] => Ok false
  | keyword :: rest =>
      found <- contains_str keyword task_name;
      if found then Ok true else any_keyword_in rest task_name
  end.

Fixpoint is_on_loop (tasks : list PyVal) : result bool :=
  match tasks with
  | [] => Ok false
  | task :: rest =>
      task_name <- get task "Name" (PStr "");
      task_state <- get task "State" (PStr "");
      if eq_str task_state TASK_STATE_RUNNING then
        found <- any_keyword_in library_scan_keywords task_name;
        if found then Ok true else is_on_loop rest
      else is_on_loop rest
  end.

Definition is_on (c : Coordinator) : result bool :=
  scheduled_tasks <- get (data c) "scheduled_tasks" (PList []);
  items <- iter scheduled_tasks;
  is_on_loop items.

End EmbyLibraryScanningBinarySensor.

End ServerBinarySensors.

(** ** sensor.py: the sensors of today's activity *)

Module ActivitySensors.
Import Py PyMore Sensor.

(** [s.replace("Z", "+00:00")] *)
Fixpoint replace_Z (s : string) : string :=
  match s with
  | EmptyString => EmptyString
  | String c rest =>
      if Ascii.eqb c "Z"%char then "+00:00" +:+ replace_Z rest
      else String c (replace_Z rest)
  end.

(** In what follows [is_today s] stands for
    [datetime.fromisoformat(s).date() == today] on the day the sensor is
    read: the parse of the standard library may raise, and the date it
    yields and the current day are those of the environment. *)

(** ["Playback" in item_type or item_type == "PlaybackStart"] *)
Definition is_playback (item_type : PyVal) : result bool :=
  found <- contains_str "Playback" item_type;
  Ok (found || eq_str item_type "PlaybackStart").

(** The [try] block on the date of an item, with its
    [except (ValueError, AttributeError): pass]: whether the item counts. *)
Definition counts_today (is_today : string -> result bool) (date_str : PyVal) : result bool :=
  let attempt :=
    match date_str with
    | PStr s => is_today (replace_Z s)
    | _ => raise AttributeError "object has no attribute 'replace'"
    end in
  match attempt with
  | Ok b => Ok b
  | Raise err =>
      match exn_class err with
      | ValueError | AttributeError => Ok false
      | _ => Raise err
      end
  end.

(** The counting loop, which the play-count sensor and the watch-time
    sensor both run. *)
Fixpoint count_playbacks (is_today : string -> result bool) (items : list PyVal)
    (play_count : Z) : result Z :=
  match items with
  | [] => Ok play_count
  | item :: rest =>
      item_type <- get item "Type" (PStr "");
      playback <- is_playback item_type;
      if playback then
        date_str <- get item "Date" (PStr "");
        if truthy date_str then
          today <- counts_today is_today date_str;
          count_playbacks is_today rest (if today then play_count + 1 else play_count)
        else count_playbacks is_today rest play_count
      else count_playbacks is_today rest play_count
  end.

Module EmbyTodayPlayCountSensor.
Definition native_value (is_today : string -> result bool) (c : Coordinator) : result Z :=
  activity_log <- get (data c) "activity_log" (PDict []);
  items <- get activity_log "Items" (PList []);
  elements <- iter items;
  count_playbacks is_today elements 0.
End EmbyTodayPlayCountSensor.

Module EmbyTodayWatchTimeSensor.
Definition native_value (is_today : string -> result bool) (c : Coordinator) : result Z :=
  activity_log <- get (data c) "activity_log" (PDict []);
  items <- get activity_log "Items" (PList []);
  elements <- iter items;
  playback_count <- count_playbacks is_today elements 0;
  let estimated_minutes := playback_count * 30 in
  Ok estimated_minutes.

Definition extra_state_attributes (is_today : string -> result bool) (c : Coordinator)
    : result PyVal :=
  activity_log <- get (data c) "activity_log" (PDict []);
  items <- get activity_log "Items" (PList []);
  elements <- iter items;
  playback_count <- count_playbacks is_today elements 0;
  let estimated_minutes := playback_count * 30 in
  let hours := estimated_minutes / 60 in
  let minutes := estimated_minutes mod 60 in
  Ok (PDict
    [ ("playback_count", PInt playback_count);
      ("estimated_hours", PInt hours);
      ("estimated_minutes", PInt minutes);
      ("formatted_time", PStr (pretty hours +:+ "小时" +:+ pretty minutes +:+ "分钟"));
      ("note", PStr "基于播放次数估算（平均30分钟/次），非实际观看时长");
      ("warning", PStr "需要实现会话跟踪才能获得准确的观看时长") ]).
End EmbyTodayWatchTimeSensor.

End ActivitySensors.

(** ** media_player.py: what is playing *)

Module MediaPlayerMedia.
Import Py PyMore Float64 Sensor MediaPlayer.

(** [MediaType.VIDEO] and [MediaType.MUSIC], string enumeration members of
    the host framework. *)
Definition MediaType_VIDEO : PyVal := PStr "video".
Definition MediaType_MUSIC : PyVal := PStr "music".

Definition media_content_type (self : EmbyMediaPlayer) : result PyVal :=
  if negb (truthy (_session_data self)) then Ok PNone
  else
    now_playing <- get (_session_data self) "NowPlayingItem" (PDict []);
    type <- get now_playing "Type" (PStr "");
    item_type <- lower_method type;
    if in_words item_type ["movie"; "episode"; "video"] then Ok MediaType_VIDEO
    else if in_words item_type ["audio"; "music"; "song"] then Ok MediaType_MUSIC
    else Ok PNone.

Definition media_title (self : EmbyMediaPlayer) : result PyVal :=
  if negb (truthy (_session_data self)) then Ok PNone
  else
    now_playing <- get (_session_data self) "NowPlayingItem" (PDict []);
    get now_playing "Name" PNone.

Definition media_series_title (self : EmbyMediaPlayer) : result PyVal :=
  if negb (truthy (_session_data self)) then Ok PNone
  else
    now_playing <- get (_session_data self) "NowPlayingItem" (PDict []);
    type <- get now_playing "Type" PNone;
    if eq_str type "Episode" then get now_playing "SeriesName" PNone
    else Ok PNone.

Definition media_season (self : EmbyMediaPlayer) : result PyVal :=
  if negb (truthy (_session_data self)) then Ok PNone
  else
    now_playing <- get (_session_data self) "NowPlayingItem" (PDict []);
    type <- get now_playing "Type" PNone;
    if eq_str type "Episode" then
      season <- get now_playing "ParentIndexNumber" PNone;
      if truthy season then Ok (PStr ("S" +:+ str season)) else Ok PNone
    else Ok PNone.

Definition media_episode (self : EmbyMediaPlayer) : result PyVal :=
  if negb (truthy (_session_data self)) then Ok PNone
  else
    now_playing <- get (_session_data self) "NowPlayingItem" (PDict []);
    type <- get now_playing "Type" PNone;
    if eq_str type "Episode" then
      episode <- get now_playing "IndexNumber" PNone;
      if truthy episode then Ok (PStr ("E" +:+ str episode)) else Ok PNone
    else Ok PNone.

Definition media_image_url (self : EmbyMediaPlayer) (c : Coordinator) : result PyVal :=
  if negb (truthy (_session_data self)) then Ok PNone
  else
    now_playing <- get (_session_data self) "NowPlayingItem" (PDict []);
    item_id <- get now_playing "Id" PNone;
    if truthy item_id then
      let base_url := Api.base_url (client c) in
      let api_key := Api.api_key (client c) in
      Ok (PStr (base_url +:+ "/Items/" +:+ str item_id +:+ "/Images/Primary?api_key=" +:+ api_key))
    else Ok PNone.

End MediaPlayerMedia.

(** ** config_flow.py: the first step of the setup *)

Module ConfigFlow.
Import Py PyMore.

Definition DEFAULT_NAME : string := "Emby".
Definition DEFAULT_PORT : Z := 8096.

(** The user input once it passed [STEP_USER_DATA_SCHEMA]: a host, a port
    and an API key of the types the schema asks for. *)
Record UserInput : Type := {
  input_host : string;
  input_port : Z;
  input_api_key : string
}.

(** The [try] block of [validate_input]. *)
Definition validate_try (client : Api.EmbyAPIClient) : result PyVal :=
  info <- Api.get_system_info_public client;
  if negb (truthy info) then raise EmbyAPIError "Invalid response from server"
  else
    found <- contains_str "ServerName" info;
    if negb found then raise EmbyAPIError "Invalid response from server"
    else Ok info.

(** [validate_input]; [session] is the client session the host hands out. *)
Definition validate_input (session : Api.ClientSession) (data : UserInput) : result PyVal :=
  let client := Api.init (input_host data) (input_port data) (input_api_key data) session false in
  match validate_try client with
  | Raise err =>
      if is_EmbyAuthError (exn_class err) then
        Raise (Exn ValueError "authentication_failed" (Some err))
      else if is_EmbyAPIError (exn_class err) then
        Raise (Exn ValueError "cannot_connect" (Some err))
      else Raise err
  | Ok info =>
      title <- get info "ServerName" (PStr DEFAULT_NAME);
      server_id <- get info "Id" PNone;
      version <- get info "Version" PNone;
      Ok (PDict [("title", title); ("server_id", server_id); ("version", version)])
  end.

(** What a step of the flow hands back to the host: an entry to create,
    or the form to show again with its errors. *)
Inductive FlowResult : Type :=
| CreateEntry (title : PyVal) (data : UserInput)
| ShowForm (step_id : string) (errors : list (string * string)).

(** The error key [async_step_user] files an exception of [validate_input]
    under. *)
Definition error_key (err : PyExn) : string :=
  match exn_class err with
  | ValueError =>
      let error_str := exn_msg err in
      if is_substring "authentication_failed" error_str then "invalid_auth"
      else if is_substring "cannot_connect" error_str then "cannot_connect"
      else "unknown"
  | _ => "unknown"
  end.

Section Host.

(** [self.async_set_unique_id(server_id)] followed by
    [self._abort_if_unique_id_configured()], which belong to the host: they
    return, or raise to abort the flow. *)
Variable claim_unique_id : PyVal -> result unit.

Definition async_step_user (session : Api.ClientSession) (user_input : option UserInput)
    : result FlowResult :=
  match user_input with
  | Some input =>
      match validate_input session input with
      | Raise err => Ok (ShowForm "user" [("base", error_key err)])
      | Ok info =>
          server_id <- getitem info "server_id";
          _ <- claim_unique_id server_id;
          title <- getitem info "title";
          Ok (CreateEntry title input)
      end
  | None => Ok (ShowForm "user" [])
  end.

End Host.

End ConfigFlow.

(** ** The session a time sensor settles on *)

Module Playback.
Import Py Sensor.

(** The first session of the snapshot passes the device filter and plays
    an item of [runtime_ticks] ticks at position [position_ticks]. *)
Definition plays_first (c : Coordinator) (device_filter : option string)
    (position_ticks runtime_ticks : Z) : Prop :=
  exists snapshot session rest now_playing play_state,
    data c = PDict snapshot /\
    dict_lookup snapshot "sessions" = Some (PList (PDict session :: rest)) /\
    _should_include_session device_filter (PDict session) = Ok true /\
    dict_lookup session "NowPlayingItem" = Some (PDict now_playing) /\
    dict_lookup session "PlayState" = Some (PDict play_state) /\
    dict_lookup play_state "PositionTicks" = Some (PInt position_ticks) /\
    dict_lookup now_playing "RunTimeTicks" = Some (PInt runtime_ticks).

End Playback.

(** ** More servers, snapshots and entities *)

Module Scenarios.
Import Py Api Sensor MediaPlayer Examples.

(** A server that answers one endpoint with a page of text. *)
Definition text_response (code : Z) (body : string) : Exchange :=
  Responded {| status := code; content_type := "text/html";
               json := raise (OtherException "ContentTypeError") "unexpected mimetype";
               text := Ok body |}.

(** A server behind which nothing answers: every request times out. *)
Definition unreachable : ClientSession := fun _ => timed_out.

(** The user input that leads to [client_of]. *)
Definition input : ConfigFlow.UserInput :=
  {| ConfigFlow.input_host := "emby.local"; ConfigFlow.input_port := 8096;
     ConfigFlow.input_api_key := "secret" |}.

(** A coordinator that holds the snapshot of one update against [server]. *)
Definition updated (server : ClientSession) : Coordinator :=
  refresh {| client := client_of server; data := PNone; last_update_success := false;
             last_exception := None; notified := 0 |}.

(** A session of device [dev1] that plays nothing. *)
Definition idle_session : PyVal :=
  PDict [("Id", PStr "s0"); ("DeviceId", PStr "dev1"); ("UserName", PStr "bob")].

(** A session of device [dev1] whose user name is empty. *)
Definition anonymous_session : PyVal :=
  PDict [ ("Id", PStr "s3"); ("DeviceId", PStr "dev1"); ("UserName", PStr "");
          ("DeviceName", PStr "Living room");
          ("NowPlayingItem", PDict [("Name", PStr "Film"); ("Type", PStr "Movie")]) ].

(** A session of another device, paused. *)
Definition paused_session : PyVal :=
  PDict
    [ ("Id", PStr "s2");
      ("DeviceId", PStr "dev2");
      ("UserName", PStr "eve");
      ("NowPlayingItem", PDict [("Name", PStr "Pilot"); ("Type", PStr "Episode");
                                ("SeriesName", PStr "Show"); ("ParentIndexNumber", PInt 1);
                                ("IndexNumber", PInt 2); ("RunTimeTicks", PInt 600000000)]);
      ("PlayState", PDict [("PositionTicks", PInt 700000000); ("IsPaused", PBool true)]) ].

(** The scheduled tasks of a server that scans its library. *)
Definition scanning_tasks : PyVal :=
  PList [ PDict [("Name", PStr "Refresh Guide"); ("State", PStr "Idle")];
          PDict [("Name", PStr "Scan media library"); ("State", PStr "Running");
                 ("Category", PStr "Library")] ].

(** An activity log of three entries, two of them playbacks. *)
Definition sample_log : PyVal :=
  PDict [("Items", PList
    [ PDict [("Name", PStr "bob plays Film"); ("Type", PStr "PlaybackStart");
             ("Date", PStr "2024-05-01T10:00:00Z")];
      PDict [("Name", PStr "bob logs in"); ("Type", PStr "AuthenticationSucceeded");
             ("Date", PStr "2024-05-01T09:00:00Z")];
      PDict [("Name", PStr "eve plays Pilot"); ("Type", PStr "VideoPlayback");
             ("Date", PStr "2024-04-30T22:00:00Z")] ])].

(** The day of the log's first entry, for [ActivitySensors]. *)
Definition on_first_of_may (s : string) : result bool :=
  Ok (String.prefix "2024-05-01" s).

End Scenarios.

(** * Properties *)

(** ** The composite fetch *)

Section Overview.
Import Py Api Snapshot.

Lemma value_or_lookup (results : list (result PyVal)) (i : nat) (r : result PyVal) (fb : PyVal) :
  results !! i = Some r ->
  value_or results i fb = Ok (match r with Ok v => v | Raise _ => fb end).
Proof.
  intros Hi. unfold value_or, index. rewrite Hi. simpl. by destruct r.
Qed.

(** The overview is always the dict of the nine sections, in the order of
    the source, each holding what its own sub-fetch left. *)
Lemma get_dashboard_overview_sections (self : EmbyAPIClient) :
  get_dashboard_overview self =
    Ok (PDict (map (fun s => (key s, recover s (fetch s self))) Snapshot.all)).
Proof.
  unfold get_dashboard_overview, gather_return_exceptions. cbn [bind].
  repeat (erewrite value_or_lookup by reflexivity; cbn [bind]).
  reflexivity.
Qed.

Lemma lookup_section (self : EmbyAPIClient) (s : Section) :
  dict_lookup (map (fun s => (key s, recover s (fetch s self))) Snapshot.all) (key s)
    = Some (recover s (fetch s self)).
Proof. by destruct s. Qed.

(** Every section key is present in every overview. *)
Lemma section_present (self : EmbyAPIClient) (s : Section) :
  exists kvs v, get_dashboard_overview self = Ok (PDict kvs) /\ dict_lookup kvs (key s) = Some v.
Proof.
  eexists _, _. split; [apply get_dashboard_overview_sections | apply lookup_section].
Qed.

(** A sub-fetch that raised leaves the fallback of its section. *)
Lemma failed_section_falls_back (self : EmbyAPIClient) (s : Section) (err : PyExn) :
  fetch s self = Raise err ->
  exists kvs, get_dashboard_overview self = Ok (PDict kvs) /\
              dict_lookup kvs (key s) = Some (fallback s).
Proof.
  intros Hf. eexists. split; [apply get_dashboard_overview_sections |].
  rewrite lookup_section, Hf. reflexivity.
Qed.

(** When every sub-fetch that returns, returns a value of the shape of
    its section, every section of the overview has its shape. *)
Lemma sections_well_shaped (self : EmbyAPIClient) :
  (forall s v, fetch s self = Ok v -> well_shaped s v = true) ->
  exists kvs, get_dashboard_overview self = Ok (PDict kvs) /\
    forall s, exists v, dict_lookup kvs (key s) = Some v /\ well_shaped s v = true.
Proof.
  intros Hshape. eexists. split; [apply get_dashboard_overview_sections |].
  intros s. eexists. split; [apply lookup_section |].
  destruct (fetch s self) as [v | e] eqn:Hf; cbn; [by apply Hshape | by destruct s].
Qed.

End Overview.

Section OverviewClaims.
Import Py Api Snapshot Examples.

Lemma fetch_request (s : Section) (self : EmbyAPIClient) :
  fetch s self =
    match request_try (session self (request s self)) with
    | Ok v => Ok v
    | Raise err => request_except err
    end.
Proof. by destruct s. Qed.

Lemma fetch_not_found (s : Section) (self : EmbyAPIClient) (r : Response) :
  session self (request s self) = Responded r -> status r = 404 -> fetch s self = Ok PNone.
Proof.
  intros Hx Hs. rewrite fetch_request, Hx. unfold request_try. rewrite Hs. reflexivity.
Qed.

(** C1, where the code departs from the claim: when the server answers
    404 on the endpoint of a section, the sub-fetch returns [None] without
    raising, the composite fetch takes [None] for a fetched value, and the
    section of the overview is [None]: present as a key, but neither a
    mapping nor a sequence nor the empty fallback of the section. *)
Theorem not_found_leaves_null_section (self : EmbyAPIClient) (s : Section) (r : Response) :
  session self (request s self) = Responded r ->
  status r = 404 ->
  exists kvs,
    get_dashboard_overview self = Ok (PDict kvs) /\
    dict_lookup kvs (key s) = Some PNone /\
    well_shaped s PNone = false /\
    PNone <> fallback s.
Proof.
  intros Hx Hs. eexists. split; [apply get_dashboard_overview_sections |].
  rewrite lookup_section, (fetch_not_found s self r Hx Hs).
  repeat split; by destruct s.
Qed.

Lemma not_found_leaves_null_section_witness :
  exists kvs,
    get_dashboard_overview (client_of (override home_server API_ENDPOINT_SESSIONS (status_response 404)))
      = Ok (PDict kvs) /\
    dict_lookup kvs "sessions" = Some PNone /\
    well_shaped sessions PNone = false /\
    PNone <> fallback sessions.
Proof.
  apply (not_found_leaves_null_section
           (client_of (override home_server API_ENDPOINT_SESSIONS (status_response 404)))
           sessions
           {| status := 404; content_type := "text/plain";
              json := raise (OtherException "ContentTypeError") "unexpected mimetype";
              text := Ok "" |}); reflexivity.
Defined.

(** What the entities make of such a snapshot: they read the section with
    [data.get("sessions", [])] and iterate, or take its length. *)
Example null_sessions_break_the_entities :
  let server := override home_server API_ENDPOINT_SESSIONS (status_response 404) in
  let c := Sensor.refresh
             {| Sensor.client := client_of server; Sensor.data := PNone;
                Sensor.last_update_success := true; Sensor.last_exception := None;
                Sensor.notified := 0 |} in
  Sensor.last_update_success c = true /\
  Sensor.EmbyProgressPercentSensor.native_value c (Some "dev1")
    = Raise (Exn TypeError "object is not iterable" None) /\
  fst (MediaPlayerEntity._update_session_data c fresh_player)
    = Raise (Exn TypeError "object has no len()" None).
Proof. vm_compute. auto. Qed.

(** C2: when the sub-fetch of one section raises, whatever the kind of
    the failure, the composite fetch still returns normally with its nine
    keys; the section of the failed sub-fetch holds its empty fallback and
    the section of every sub-fetch that returned holds exactly the value
    returned. In particular this is so when the other eight all return. *)
Theorem one_failed_fetch_is_isolated (self : EmbyAPIClient) (s : Section) (err : PyExn) :
  fetch s self = Raise err ->
  exists kvs,
    get_dashboard_overview self = Ok (PDict kvs) /\
    map fst kvs = map key Snapshot.all /\
    dict_lookup kvs (key s) = Some (fallback s) /\
    forall s' v, fetch s' self = Ok v -> dict_lookup kvs (key s') = Some v.
Proof.
  intros Hs. eexists. split; [apply get_dashboard_overview_sections |].
  split; [reflexivity |]. split.
  - rewrite lookup_section, Hs. reflexivity.
  - intros s' v Hv. rewrite lookup_section, Hv. reflexivity.
Qed.

(** The sessions endpoint times out, the other eight answer. *)
Lemma one_failed_fetch_is_isolated_witness :
  let self := client_of (override home_server API_ENDPOINT_SESSIONS timed_out) in
  (forall s', s' <> sessions -> exists v, fetch s' self = Ok v) /\
  exists kvs,
    get_dashboard_overview self = Ok (PDict kvs) /\
    map fst kvs = map key Snapshot.all /\
    dict_lookup kvs "sessions" = Some (PList []) /\
    forall s' v, fetch s' self = Ok v -> dict_lookup kvs (key s') = Some v.
Proof.
  split.
  - intros s' Hne. destruct s'; try (eexists; reflexivity). by destruct Hne.
  - apply (one_failed_fetch_is_isolated _ sessions
             (Exn EmbyTimeoutError ERROR_TIMEOUT (Some (Exn AsyncioTimeoutError "" None)))).
    reflexivity.
Defined.

End OverviewClaims.

(** ** Single requests and the connectivity probe *)

Section Requests.
Import Py Api Examples.

Variable self : EmbyAPIClient.
Variables method endpoint : string.
Variable data : option PyVal.
Variable params : option (list (string * PyVal)).
Variable timeout : Z.

(** The exchange the request leads to, and what [_request] makes of it. *)
Let exchange : Exchange := session self (make_request self method endpoint data params timeout).
Let outcome : result PyVal := _request self method endpoint data params timeout.

Lemma request_unfold :
  outcome = match request_try exchange with Ok v => Ok v | Raise err => request_except err end.
Proof. reflexivity. Qed.

Lemma request_except_raises (err : PyExn) :
  exists e, request_except err = Raise e /\ is_EmbyAPIError (exn_class e) = true.
Proof.
  unfold request_except.
  destruct (is_asyncio_TimeoutError _); [by eexists |].
  destruct (is_aiohttp_ClientError _); [by eexists |].
  destruct (is_EmbyAuthError (exn_class err)) eqn:Ha; [| by eexists].
  exists err. split; [done |]. by destruct (exn_class err).
Qed.

(** A [None] out of the [try] block: the remote reported 404, or a
    response below 400 that is not a 401 carried the JSON body [null]. *)
Lemma request_try_none :
  request_try exchange = Ok PNone <->
  exists r, exchange = Responded r /\
    (status r = 404 \/
     (status r <> 401 /\ status r < 400 /\
      content_type r = "application/json" /\ json r = Ok PNone)).
Proof.
  unfold request_try. destruct exchange as [err | r]; [split; [done | by intros (? & ? & _)] |].
  split.
  - intros H. exists r. split; [done |].
    destruct (status r =? 401) eqn:H401; [done |].
    destruct (status r =? 404) eqn:H404; [left; lia |].
    right. unfold raise_for_status in H.
    destruct (400 <=? status r) eqn:H400; [done |]. cbn [bind] in H.
    destruct (String.eqb (content_type r) "application/json") eqn:Hct.
    + apply String.eqb_eq in Hct. repeat split; [lia | lia | done | done].
    + unfold fmap_result in H. by destruct (text r).
  - intros (r' & [= <-] & [H404 | (H401 & H400 & Hct & Hj)]).
    + rewrite H404. reflexivity.
    + replace (status r =? 401) with false by lia.
      destruct (status r =? 404) eqn:H404; [done |].
      unfold raise_for_status. replace (400 <=? status r) with false by lia.
      cbn [bind]. rewrite Hct. cbn. exact Hj.
Qed.

(** C8, amended: a 401 raises [EmbyAuthError]; a 404 returns [None]
    without raising; a timeout raises [EmbyTimeoutError], a client error
    that is not a timeout raises [EmbyConnectionError], and any other
    exception raises [EmbyAPIError], each with the original exception as its
    cause; nothing else can come out of a request than a value or one of
    these four. [None] is returned when the remote reports 404, and
    otherwise only when a response that passed the status checks carried
    the JSON body [null]. *)
Theorem request_outcome_classified :
  (forall r, exchange = Responded r -> status r = 401 ->
     outcome = Raise (Exn EmbyAuthError ERROR_AUTH None)) /\
  (forall r, exchange = Responded r -> status r = 404 -> outcome = Ok PNone) /\
  (forall err, request_try exchange = Raise err ->
     is_asyncio_TimeoutError (exn_class err) = true ->
     outcome = Raise (Exn EmbyTimeoutError ERROR_TIMEOUT (Some err))) /\
  (forall err, request_try exchange = Raise err ->
     is_asyncio_TimeoutError (exn_class err) = false ->
     is_aiohttp_ClientError (exn_class err) = true ->
     outcome = Raise (Exn EmbyConnectionError ERROR_CONNECT (Some err))) /\
  (forall err, request_try exchange = Raise err ->
     is_asyncio_TimeoutError (exn_class err) = false ->
     is_aiohttp_ClientError (exn_class err) = false ->
     is_EmbyAuthError (exn_class err) = false ->
     outcome = Raise (Exn EmbyAPIError ERROR_UNKNOWN (Some err))) /\
  ((exists v, outcome = Ok v) \/
   (exists e, outcome = Raise e /\ is_EmbyAPIError (exn_class e) = true)) /\
  (outcome = Ok PNone <->
   exists r, exchange = Responded r /\
     (status r = 404 \/
      (status r <> 401 /\ status r < 400 /\
       content_type r = "application/json" /\ json r = Ok PNone))).
Proof.
  rewrite request_unfold. repeat split.
  - intros r -> H. unfold request_try. rewrite H. reflexivity.
  - intros r -> H. unfold request_try. rewrite H. reflexivity.
  - intros err -> Ht. unfold request_except. by rewrite Ht.
  - intros err -> Ht Hc. unfold request_except. by rewrite Ht, Hc.
  - intros err -> Ht Hc Ha. unfold request_except. by rewrite Ht, Hc, Ha.
  - destruct (request_try exchange) as [v | err]; [left; by eexists |].
    right. apply request_except_raises.
  - intros H. apply request_try_none.
    destruct (request_try exchange) as [v | err]; [done |].
    destruct (request_except_raises err) as (e & He & _). congruence.
  - intros H. apply request_try_none in H. by rewrite H.
Qed.

End Requests.

Section Probe.
Import Py Api Examples Scenarios.

(** C8, as it is worded: the users endpoint of [null_body_server] answers
    200 with the JSON body [null]; the request returns [None] although the
    remote did not report 404. *)
Lemma request_returns_none_without_404 :
  get_users (client_of null_body_server) = Ok PNone /\
  ~ (exists r,
       null_body_server
         (make_request (client_of null_body_server) "GET" API_ENDPOINT_USERS None None DEFAULT_TIMEOUT)
         = Responded r /\
       status r = 404).
Proof.
  split; [reflexivity |]. intros (r & Hr & Hs). vm_compute in Hr.
  injection Hr as <-. discriminate Hs.
Qed.

(** The four failure kinds at work. *)
Example request_failure_kinds :
  get_users (client_of (override home_server API_ENDPOINT_USERS (status_response 401)))
    = Raise (Exn EmbyAuthError ERROR_AUTH None) /\
  get_users (client_of (override home_server API_ENDPOINT_USERS (status_response 404)))
    = Ok PNone /\
  get_users (client_of (override home_server API_ENDPOINT_USERS timed_out))
    = Raise (Exn EmbyTimeoutError ERROR_TIMEOUT (Some (Exn AsyncioTimeoutError "" None))) /\
  get_users (client_of (override home_server API_ENDPOINT_USERS
                          (Failed (Exn ServerTimeoutError "" None))))
    = Raise (Exn EmbyTimeoutError ERROR_TIMEOUT (Some (Exn ServerTimeoutError "" None))) /\
  get_users (client_of (override home_server API_ENDPOINT_USERS (status_response 500)))
    = Raise (Exn EmbyConnectionError ERROR_CONNECT
               (Some (Exn ClientResponseError "bad status" None))) /\
  get_users (client_of (override home_server API_ENDPOINT_USERS
                          (Failed (Exn (OtherException "RuntimeError") "boom" None))))
    = Raise (Exn EmbyAPIError ERROR_UNKNOWN
               (Some (Exn (OtherException "RuntimeError") "boom" None))).
Proof. repeat split. Qed.

Lemma has_server_name_true (info : PyVal) :
  has_server_name info = Ok true <-> info <> PNone /\ contains_str "ServerName" info = Ok true.
Proof.
  unfold has_server_name. destruct info; cbn; split; try done; by intros [_ ?].
Qed.

Lemma has_server_name_dict (kvs : list (string * PyVal)) (b : bool) :
  has_server_name (PDict kvs) = Ok b -> (b = true <-> is_Some (dict_lookup kvs "ServerName")).
Proof. intros [= <-]. apply bool_decide_eq_true. Qed.

Lemma test_connection_unfold (self : EmbyAPIClient) :
  test_connection self =
    Ok (match get_system_info_public self with
        | Ok info => match has_server_name info with Ok b => b | Raise _ => false end
        | Raise _ => false
        end).
Proof.
  unfold test_connection.
  destruct (get_system_info_public self) as [info |]; cbn [bind]; [| done].
  by destruct (has_server_name info).
Qed.

(** C7, as it is worded: a response can contain ["ServerName"] without
    having such a field. The public endpoint answers 200 with a page of
    text, or with the JSON list [["ServerName"]]: the response is no
    mapping, it has no field to read, and [test_connection] returns
    [True]. *)
Lemma test_connection_accepts_text :
  let page := client_of (override home_server API_ENDPOINT_SYSTEM_INFO_PUBLIC
                           (text_response 200 "<title>ServerName</title>")) in
  let listing := client_of (override home_server API_ENDPOINT_SYSTEM_INFO_PUBLIC
                              (json_response (PList [PStr "ServerName"]))) in
  get_system_info_public page = Ok (PStr "<title>ServerName</title>") /\
  test_connection page = Ok true /\
  get_system_info_public listing = Ok (PList [PStr "ServerName"]) /\
  test_connection listing = Ok true /\
  (forall v, get (PStr "<title>ServerName</title>") "ServerName" PNone <> Ok v) /\
  (forall v, get (PList [PStr "ServerName"]) "ServerName" PNone <> Ok v).
Proof. repeat split; done. Qed.

(** C7, amended: [test_connection] always returns a boolean and never
    raises. It returns [True] exactly when the public system-info call
    returns a response that is not [None] and for which
    ["ServerName" in response] holds: for a mapping, when it has the key;
    for a list, when the string is one of its elements; for a text body,
    when the text contains it. For [None], a number or a boolean it returns
    [False], and so it does whenever the call raises, in particular on an
    HTTP 401. *)
Theorem test_connection_total (self : EmbyAPIClient) :
  exists b, test_connection self = Ok b /\
    (b = true <->
     exists info, get_system_info_public self = Ok info /\ info <> PNone /\
                  contains_str "ServerName" info = Ok true) /\
    (forall kvs, get_system_info_public self = Ok (PDict kvs) ->
       (b = true <-> is_Some (dict_lookup kvs "ServerName"))) /\
    (forall xs, get_system_info_public self = Ok (PList xs) ->
       (b = true <-> In (PStr "ServerName") xs)) /\
    (forall body, get_system_info_public self = Ok (PStr body) ->
       (b = true <-> is_substring "ServerName" body = true)) /\
    (forall info, get_system_info_public self = Ok info ->
       info = PNone \/ (exists z, info = PInt z) \/ (exists t, info = PBool t) ->
       b = false) /\
    (forall err, get_system_info_public self = Raise err -> b = false) /\
    (forall r,
       session self (make_request self "GET" API_ENDPOINT_SYSTEM_INFO_PUBLIC None None DEFAULT_TIMEOUT)
         = Responded r ->
       status r = 401 -> b = false).
Proof.
  eexists. split; [apply test_connection_unfold |].
  assert (H401 : forall r,
            session self (make_request self "GET" API_ENDPOINT_SYSTEM_INFO_PUBLIC None None DEFAULT_TIMEOUT)
              = Responded r ->
            status r = 401 ->
            get_system_info_public self = Raise (Exn EmbyAuthError ERROR_AUTH None)).
  { intros r Hx Hs. unfold get_system_info_public, _request.
    rewrite Hx. unfold request_try. by rewrite Hs. }
  destruct (get_system_info_public self) as [info | err] eqn:Hcall.
  - split; [split |].
    + intros Hb. exists info. split; [done |]. apply has_server_name_true.
      by destruct (has_server_name info) as [[|] |].
    + intros (info' & [= <-] & Hn & Hc).
      by rewrite (proj2 (has_server_name_true info) (conj Hn Hc)).
    + split; [| split; [| split; [| split; [| split]]]].
      * intros kvs [= ->]. cbn. apply bool_decide_eq_true.
      * intros xs [= ->]. cbn [has_server_name is_none contains_str]. rewrite existsb_exists.
        split.
        -- intros (x & Hin & Hx). destruct x; try done. cbn in Hx.
           apply String.eqb_eq in Hx. by subst.
        -- intros Hin. exists (PStr "ServerName"). by split.
      * by intros body [= ->].
      * intros info' [= <-] [-> | [[z ->] | [t ->]]]; reflexivity.
      * done.
      * intros r Hx Hs. specialize (H401 r Hx Hs). congruence.
  - split; [split |].
    + done.
    + intros (info & ? & _). done.
    + repeat split; done.
Qed.

(** Scenario B of the spec. *)
Example test_connection_scenario :
  test_connection (client_of home_server) = Ok true /\
  test_connection
    (client_of (override home_server API_ENDPOINT_SYSTEM_INFO_PUBLIC (status_response 401)))
    = Ok false.
Proof. split; reflexivity. Qed.

End Probe.

(** ** The coordinator and the availability of the entities *)

Section CoordinatorClaims.
Import Py Api Sensor Views Examples.

Lemma update_data_raises (err : PyExn) :
  exists e, _async_update_data (Raise err) = Raise e /\
    (is_EmbyAPIError (exn_class err) = true ->
       e = Exn UpdateFailed ("Error fetching Emby data: " +:+ exn_msg err) (Some err)) /\
    (is_EmbyAPIError (exn_class err) = false -> e = err).
Proof.
  unfold _async_update_data. destruct (is_EmbyAPIError (exn_class err)); eexists; done.
Qed.

(** C3: a cycle in which the composite operation raises, whatever the
    exception, ends in a coordinator state, not in an exception: the
    snapshot read by [current_snapshot] is the one of the cycle before,
    [last_refresh_succeeded] is false, and the error is recorded (as
    [UpdateFailed] caused by the original error when that is an API
    error). *)
Theorem failed_cycle_keeps_snapshot (c : Coordinator) (err : PyExn) :
  let c' := refresh_cycle c (Raise err) in
  current_snapshot c' = current_snapshot c /\
  last_refresh_succeeded c' = false /\
  notified c' = S (notified c) /\
  exists e, last_exception c' = Some e /\
    (is_EmbyAPIError (exn_class err) = true ->
       e = Exn UpdateFailed ("Error fetching Emby data: " +:+ exn_msg err) (Some err)) /\
    (is_EmbyAPIError (exn_class err) = false -> e = err).
Proof.
  destruct (update_data_raises err) as (e & He & Hapi & Hother).
  unfold refresh_cycle. rewrite He. cbn. repeat split. exists e. done.
Qed.

(** Scenario D of the spec: cycle N-1 stores a snapshot, cycle N fails. *)
Example failed_cycle_scenario :
  let c1 := refresh (coordinator_with PNone true) in
  let c2 := refresh_cycle c1 (Raise (Exn EmbyConnectionError ERROR_CONNECT None)) in
  current_snapshot c2 = current_snapshot c1 /\
  is_none (current_snapshot c2) = false /\
  last_refresh_succeeded c1 = true /\
  last_refresh_succeeded c2 = false.
Proof. vm_compute. auto. Qed.


(** In a state with the success flag cleared the views part: the online
    binary sensor is available there. No cycle against this client leaves
    such a state ([refresh_succeeds]). *)
Lemma online_sensor_available_after_failure :
  available EmbyOnlineBinarySensor (coordinator_with (snapshot_of (PList [])) false) = true /\
  availability_contract (coordinator_with (snapshot_of (PList [])) false) = false.
Proof. split; reflexivity. Qed.

(** View by view, in any state of the coordinator: an entity that takes
    [available] from a sensor, device-sensor, binary-sensor or button base
    class is available exactly when the last cycle succeeded and a snapshot
    is stored; the online binary sensor is always available; the media
    player is available exactly when the last cycle succeeded. *)
Lemma availability_by_view (v : View) (c : Coordinator) :
  available v c =
    match v with
    | EmbyOnlineBinarySensor => true
    | EmbyMediaPlayer => last_refresh_succeeded c
    | _ => availability_contract c
    end.
Proof. by destruct v. Qed.

(** Where a snapshot is stored, the media player agrees with the contract. *)
Lemma media_player_available_with_snapshot (c : Coordinator) :
  is_none (data c) = false -> available EmbyMediaPlayer c = availability_contract c.
Proof.
  intros H. unfold availability_contract, current_snapshot. cbn.
  unfold MediaPlayerEntity.available, last_refresh_succeeded. rewrite H.
  by destruct (last_update_success c).
Qed.




End CoordinatorClaims.

(** ** Matching sessions to a device filter *)

Section SessionFilter.
Import Py Sensor SessionRecord Examples.

Lemma eq_str_true (v : PyVal) (s : string) : eq_str v s = true <-> v = PStr s.
Proof.
  destruct v; cbn; try (split; [done | by intros [=]]).
  rewrite String.eqb_eq. split; [by intros -> | by intros [=]].
Qed.

Lemma filter_matches_all_true (device_filter : option string) :
  filter_matches_all device_filter = true <->
  device_filter = None \/ device_filter = Some "" \/ device_filter = Some "all".
Proof.
  destruct device_filter as [f |]; cbn; [| by intuition].
  rewrite orb_true_iff, !String.eqb_eq. split.
  - intros [-> | ->]; auto.
  - intros [H | [[= ->] | [= ->]]]; [done | auto | auto].
Qed.

Lemma should_include_all (device_filter : option string) (session : PyVal) :
  filter_matches_all device_filter = true ->
  _should_include_session device_filter session = Ok true.
Proof.
  destruct device_filter as [f |]; cbn; [| done]. by intros ->.
Qed.

Lemma should_include_filtered (f : string) (kvs : list (string * PyVal)) :
  filter_matches_all (Some f) = false ->
  _should_include_session (Some f) (PDict kvs)
    = Ok (eq_str (DeviceId kvs) f || String.eqb (str (InternalDeviceId kvs)) f).
Proof. cbn. by intros ->. Qed.

(** C4: with a filter that is absent, empty or ["all"] the predicate is
    true of every session, whatever the session holds; with any other
    filter [f] it returns a boolean for every session record, true exactly
    when the record's [DeviceId] equals [f] or the string form of its
    [InternalDeviceId] equals [f]. *)
Theorem session_matching_rule (device_filter : option string) :
  (device_filter = None \/ device_filter = Some "" \/ device_filter = Some "all" ->
   forall session : PyVal, _should_include_session device_filter session = Ok true) /\
  (forall f, device_filter = Some f -> f <> "" -> f <> "all" ->
   forall kvs : list (string * PyVal),
   exists b, _should_include_session device_filter (PDict kvs) = Ok b /\
     (b = true <-> DeviceId kvs = PStr f \/ str (InternalDeviceId kvs) = f)).
Proof.
  split.
  - intros H session. by apply should_include_all, filter_matches_all_true.
  - intros f -> Hempty Hall kvs. eexists. split.
    + apply should_include_filtered. cbn.
      apply orb_false_iff. split; by apply String.eqb_neq.
    + by rewrite orb_true_iff, eq_str_true, String.eqb_eq.
Qed.

(** The media player tests the same two fields, without the case of a
    filter that matches all. *)
Lemma media_player_matching (device_id : string) (kvs : list (string * PyVal)) :
  exists b, MediaPlayerEntity.session_matches device_id (PDict kvs) = Ok b /\
    (b = true <-> DeviceId kvs = PStr device_id \/ str (InternalDeviceId kvs) = device_id).
Proof.
  eexists. split; [reflexivity |].
  by rewrite orb_true_iff, eq_str_true, String.eqb_eq.
Qed.

Example session_matching_examples :
  let session := playing_session 150000000 600000000 in
  _should_include_session (Some "dev1") session = Ok true /\
  _should_include_session (Some "7") session = Ok true /\
  _should_include_session (Some "dev2") session = Ok false /\
  _should_include_session (Some "all") session = Ok true /\
  _should_include_session None (PInt 0) = Ok true.
Proof. repeat split. Qed.

End SessionFilter.

(** ** Binary64 quotients of integers *)

Section Digits.
Import SpecFloat.

Lemma digits2_pos_bounds (p : positive) :
  2 ^ (Zpos (digits2_pos p) - 1) <= Zpos p < 2 ^ Zpos (digits2_pos p).
Proof.
  induction p as [p IH | p IH |]; cbn [digits2_pos].
  - rewrite Pos2Z.inj_succ. replace (Z.succ (Zpos (digits2_pos p)) - 1) with (Z.succ (Zpos (digits2_pos p) - 1)) by lia.
    rewrite !Z.pow_succ_r by lia. lia.
  - rewrite Pos2Z.inj_succ. replace (Z.succ (Zpos (digits2_pos p)) - 1) with (Z.succ (Zpos (digits2_pos p) - 1)) by lia.
    rewrite !Z.pow_succ_r by lia. lia.
  - cbn. lia.
Qed.

Lemma Zdigits2_unique (n k : Z) :
  0 < k -> 2 ^ (k - 1) <= n < 2 ^ k -> Zdigits2 n = k.
Proof.
  intros Hk [Hlo Hhi].
  assert (0 < n) by (pose proof (Z.pow_pos_nonneg 2 (k - 1)); lia).
  destruct n as [| p | p]; try lia. cbn [Zdigits2].
  pose proof (digits2_pos_bounds p) as [Hl Hh].
  assert (Zpos (digits2_pos p) - 1 < k).
  { apply (Z.pow_lt_mono_r_iff 2); lia. }
  assert (k - 1 < Zpos (digits2_pos p)).
  { apply (Z.pow_lt_mono_r_iff 2); lia. }
  lia.
Qed.

Lemma Zdigits2_bounds (n : Z) :
  0 < n -> 0 < Zdigits2 n /\ 2 ^ (Zdigits2 n - 1) <= n < 2 ^ Zdigits2 n.
Proof.
  destruct n as [| p | p]; try lia. intros _. cbn [Zdigits2].
  split; [lia | apply digits2_pos_bounds].
Qed.

End Digits.

(** The quotient of a dividend below [2 ^ 30 * D + D - 1] by a divisor [D]
    of 24 bits, rounded to binary64 and truncated, is the floor of the exact
    quotient. *)

Section Division.
Import SpecFloat Rounding.

Variable D : Z.
Hypothesis D_lo : 2 ^ 23 < D.
Hypothesis D_hi : D < 2 ^ 24.
Hypothesis D_even : Z.even D = true.

Lemma fexp_normal (e : Z) : -1021 <= e -> fexp 53 1024 e = e - 53.
Proof. unfold fexp, emin. lia. Qed.

Lemma div_eucl_div_mod (a b : Z) : Z.div_eucl a b = (a / b, a mod b).
Proof. unfold Z.div, Z.modulo. now destruct (Z.div_eucl a b). Qed.

Lemma div_core (t : Z) :
  0 < t < 2 ^ 54 ->
  let s := 77 - Zdigits2 t in
  SFdiv_core_binary 53 1024 t 0 D 0
    = (t * 2 ^ s / D, - s, new_location_even D ((t * 2 ^ s) mod D)).
Proof.
  intros Ht s.
  destruct (Zdigits2_bounds t) as (Hd & Hlo & Hhi); [lia |].
  assert (Zdigits2 t <= 54).
  { assert (Zdigits2 t - 1 < 54); [| lia]. apply (Z.pow_lt_mono_r_iff 2); lia. }
  unfold SFdiv_core_binary.
  rewrite (Zdigits2_unique D 24) by lia.
  rewrite fexp_normal by lia.
  replace (Z.min (Zdigits2 t + 0 - (24 + 0) - 53) (0 - 0)) with (- s) by lia.
  replace (0 - 0 - - s) with s by lia.
  destruct s as [| p | p] eqn:Hs; try lia.
  rewrite Z.shiftl_mul_pow2 by lia.
  rewrite div_eucl_div_mod. unfold new_location. now rewrite D_even.
Qed.

Lemma shr_fexp_short (m e : Z) (l : location) :
  2 ^ 52 <= m < 2 ^ 53 -> -1074 <= e ->
  shr_fexp 53 1024 m e l = (shr_record_of_loc m l, e).
Proof.
  intros Hm He. unfold shr_fexp.
  rewrite (Zdigits2_unique m 53) by lia.
  rewrite fexp_normal by lia.
  replace (53 + e - 53 - e) with 0 by lia. reflexivity.
Qed.

Lemma shr_fexp_long (m e : Z) (l : location) :
  2 ^ 53 <= m < 2 ^ 54 -> -1074 <= e ->
  shr_fexp 53 1024 m e l = (shr_1 (shr_record_of_loc m l), e + 1).
Proof.
  intros Hm He. unfold shr_fexp.
  rewrite (Zdigits2_unique m 54) by lia.
  rewrite fexp_normal by lia.
  replace (54 + e - 53 - e) with 1 by lia. reflexivity.
Qed.

Lemma loc_of_shr_record_of_loc (m : Z) (l : location) :
  loc_of_shr_record (shr_record_of_loc m l) = l /\ shr_m (shr_record_of_loc m l) = m.
Proof. destruct l as [| []]; split; reflexivity. Qed.

(** Dropping the last bit of the mantissa keeps the location right. *)
Lemma located_shr_1 (N u m : Z) (l : location) :
  0 < m -> located D N (2 * u) m l ->
  let mrs := shr_1 (shr_record_of_loc m l) in
  shr_m mrs = m / 2 /\ located D N u (m / 2) (loc_of_shr_record mrs).
Proof.
  intros Hm [HR Hl]. unfold located.
  assert (Hdiv : m = 2 * (m / 2) + m mod 2) by (apply Z.div_mod; lia).
  pose proof (Z.mod_pos_bound m 2 ltac:(lia)) as Hb.
  set (p := m / 2) in *. set (b := m mod 2) in *. clearbody p b.
  assert (H2 : 2 * (N * u - p * D) = N * (2 * u) - m * D + b * D) by lia.
  set (R := N * (2 * u) - m * D) in *. set (R' := N * u - p * D) in *.
  assert (Hshr : forall r s, shr_1 {| shr_m := m; shr_r := r; shr_s := s |}
                   = {| shr_m := p; shr_r := negb (b =? 0); shr_s := r || s |}).
  { intros r s. destruct m as [| [q | q |] |]; try lia; cbn [shr_1].
    - assert (Zpos q = p /\ b = 1) as [<- ->]; [lia | reflexivity].
    - assert (Zpos q = p /\ b = 0) as [<- ->]; [lia | reflexivity].
    - assert (0 = p /\ b = 1) as [<- ->]; [lia | reflexivity]. }
  assert (Hloc : forall l', 
            (l' = loc_Exact -> R' = 0) ->
            (l' = loc_Inexact Lt -> 0 < 2 * R' < D) ->
            (l' = loc_Inexact Eq -> 2 * R' = D) ->
            (l' = loc_Inexact Gt -> D < 2 * R') ->
            l' = if R' =? 0 then loc_Exact else loc_Inexact (2 * R' ?= D)).
  { intros l' H1 H3 H4 H5.
    destruct (Z.eqb_spec R' 0); destruct (Z.compare_spec (2 * R') D);
      destruct l' as [| []]; try reflexivity; exfalso;
      try specialize (H1 eq_refl); try specialize (H3 eq_refl);
      try specialize (H4 eq_refl); try specialize (H5 eq_refl); lia. }
  assert (Hrec : exists r s,
            shr_record_of_loc m l = {| shr_m := m; shr_r := r; shr_s := s |} /\
            r || s = negb (R =? 0)).
  { subst l. destruct (R =? 0); [cbn; eauto |].
    destruct (2 * R ?= D); cbn; eauto. }
  destruct Hrec as (r & s & -> & Hrs). rewrite Hshr, Hrs. cbn [shr_m].
  split; [reflexivity |].
  assert (Hb' : b = 0 \/ b = 1) by lia.
  destruct Hb' as [-> | ->]; (split; [lia |]);
    apply Hloc; destruct (Z.eqb_spec R 0); cbn [loc_of_shr_record negb Z.eqb]; intros [=]; lia.
Qed.

Lemma round_nearest_even_located (N u m : Z) (l : location) :
  located D N u m l ->
  m <= round_nearest_even m l <= m + 1 /\
  (round_nearest_even m l = m + 1 -> D <= 2 * (N * u - m * D)).
Proof.
  intros [HR ->]. set (R := N * u - m * D) in *.
  destruct (Z.eqb_spec R 0); [cbn; lia |].
  destruct (Z.compare_spec (2 * R) D); cbn [round_nearest_even];
    try destruct (Z.even m); lia.
Qed.

(** What [binary_round_aux] makes of a mantissa of 53 or 54 bits whose
    location is right: a finite number [p * 2 ^ e2] that equals
    [m1 * 2 ^ e1], where [m1] is the 53-bit mantissa [m0] of the quotient at
    exponent [e1] or its successor, the successor only when the remainder
    is at least half of [D]. *)
Lemma binary_round_aux_located (N m e : Z) (l : location) :
  2 ^ 52 <= m < 2 ^ 54 -> -1074 <= e <= -3 ->
  located D N (2 ^ (- e)) m l ->
  exists p e2 m1 e1 m0,
    binary_round_aux 53 1024 false m e l = S754_finite false p e2 /\
    e <= e1 <= e2 /\ e2 <= e1 + 1 /\ e2 < 0 /\
    Zpos p * 2 ^ (e2 - e1) = m1 /\
    2 ^ 52 <= m0 < 2 ^ 53 /\
    0 <= N * 2 ^ (- e1) - m0 * D < D /\
    m0 <= m1 <= m0 + 1 /\
    (m1 = m0 + 1 -> D <= 2 * (N * 2 ^ (- e1) - m0 * D)).
Proof.
  intros Hm He Hloc.
  (* the first normalisation *)
  assert (H1 : exists m0 e1 l0,
            shr_fexp 53 1024 m e l = (shr_record_of_loc m0 l0, e1) /\
            e <= e1 <= e + 1 /\ 2 ^ 52 <= m0 < 2 ^ 53 /\
            located D N (2 ^ (- e1)) m0 l0).
  { destruct (Z.lt_ge_cases m (2 ^ 53)) as [Hs | Hl].
    - exists m, e, l. rewrite shr_fexp_short by lia. repeat split; try lia; apply Hloc.
    - rewrite shr_fexp_long by lia.
      replace (2 ^ (- e)) with (2 * 2 ^ (- (e + 1))) in Hloc
        by (rewrite <- Z.pow_succ_r by lia; f_equal; lia).
      destruct (located_shr_1 N (2 ^ (- (e + 1))) m l ltac:(lia) Hloc) as [Hsm Hsl].
      exists (m / 2), (e + 1), (loc_of_shr_record (shr_1 (shr_record_of_loc m l))).
      split; [| split; [lia | split]].
      + f_equal. rewrite <- Hsm.
        destruct (shr_1 (shr_record_of_loc m l)) as [m' [] []]; reflexivity.
      + split; [apply Z.div_le_lower_bound | apply Z.div_lt_upper_bound]; lia.
      + exact Hsl. }
  destruct H1 as (m0 & e1 & l0 & Hshr1 & He1 & Hm0 & Hloc0).
  destruct (round_nearest_even_located N _ m0 l0 Hloc0) as [Hr1 Hr2].
  destruct Hloc0 as [HR0 _].
  unfold binary_round_aux. rewrite Hshr1.
  destruct (loc_of_shr_record_of_loc m0 l0) as [-> ->].
  set (m1 := round_nearest_even m0 l0) in *.
  destruct (Z.lt_ge_cases m1 (2 ^ 53)) as [Hs | Hl].
  - rewrite shr_fexp_short by lia. cbn [shr_record_of_loc shr_m].
    destruct m1 as [| p |] eqn:Hp; try lia.
    replace (e1 <=? 1024 - 53) with true by lia.
    exists p, e1, (Zpos p), e1, m0.
    replace (e1 - e1) with 0 by lia. repeat split; try lia.
  - assert (m1 = 2 ^ 53) as Hm1 by lia.
    rewrite shr_fexp_long by lia. rewrite Hm1.
    change (2 ^ 53) with 9007199254740992. cbn [shr_record_of_loc shr_1 shr_m].
    replace (e1 + 1 <=? 1024 - 53) with true by lia.
    exists 4503599627370496%positive, (e1 + 1), m1, e1, m0.
    replace (e1 + 1 - e1) with 1 by lia. repeat split; try lia.
Qed.

Lemma floor_of_rounded (t Q u m0 m1 : Z) :
  0 < u ->
  Q * D <= t < (Q + 1) * D ->
  D < 2 * u * ((Q + 1) * D - t) ->
  0 <= t * u - m0 * D < D ->
  m0 <= m1 <= m0 + 1 ->
  (m1 = m0 + 1 -> D <= 2 * (t * u - m0 * D)) ->
  Q * u <= m1 < (Q + 1) * u.
Proof.
  intros Hu Ht HD HR Hm Hup.
  assert (HD0 : 0 < D) by lia.
  assert (H1 : Q * D * u <= t * u) by (apply Z.mul_le_mono_nonneg_r; lia).
  assert (H2 : t * u <= ((Q + 1) * D - 1) * u) by (apply Z.mul_le_mono_nonneg_r; lia).
  assert (Hlow : Q * u <= m0).
  { assert (Q * u * D < (m0 + 1) * D) by lia.
    assert (Q * u < m0 + 1); [| lia].
    apply (Z.mul_lt_mono_pos_r D); lia. }
  assert (Hhigh : m0 < (Q + 1) * u).
  { apply (Z.mul_lt_mono_pos_r D); lia. }
  split; [lia |].
  destruct (Z.eq_dec m1 (m0 + 1)) as [Heq | Hne]; [| lia].
  specialize (Hup Heq).
  assert (m0 + 1 <> (Q + 1) * u); [| lia].
  intros Hc. assert (m0 * D = (Q + 1) * u * D - D) by lia. lia.
Qed.

Theorem quotient_truncates_to_floor (t : Z) :
  0 < t < 2 ^ 30 * D + D - 1 ->
  exists p e2,
    quotient D t = S754_finite false p e2 /\ e2 < 0 /\
    Z.shiftr (Zpos p) (- e2) = t / D.
Proof.
  intros Ht.
  assert (Ht54 : 0 < t < 2 ^ 54) by lia.
  destruct (Zdigits2_bounds t) as (Hd & Hlo & Hhi); [lia |].
  assert (Hd54 : Zdigits2 t <= 54).
  { assert (Zdigits2 t - 1 < 54); [| lia]. apply (Z.pow_lt_mono_r_iff 2); lia. }
  unfold quotient. rewrite (div_core t Ht54). cbv zeta.
  set (s := 77 - Zdigits2 t) in *.
  assert (Hs : 23 <= s <= 76) by lia.
  assert (H2s : 0 < 2 ^ s) by (apply Z.pow_pos_nonneg; lia).
  assert (Hpow : 2 ^ 76 <= t * 2 ^ s < 2 ^ 77).
  { replace 76 with (Zdigits2 t - 1 + s) by lia. replace 77 with (Zdigits2 t + s) by lia.
    rewrite !Z.pow_add_r by lia.
    split; [apply Z.mul_le_mono_nonneg_r | apply Z.mul_lt_mono_pos_r]; lia. }
  pose proof (Z.div_mod (t * 2 ^ s) D ltac:(lia)) as Hdm.
  pose proof (Z.mod_pos_bound (t * 2 ^ s) D ltac:(lia)) as Hmod.
  assert (Hq : 2 ^ 52 <= t * 2 ^ s / D < 2 ^ 54).
  { split; [apply Z.div_le_lower_bound | apply Z.div_lt_upper_bound]; lia. }
  set (q := t * 2 ^ s / D) in *. set (r := (t * 2 ^ s) mod D) in *.
  assert (Hloc : located D t (2 ^ (- - s)) q (new_location_even D r)).
  { rewrite Z.opp_involutive. unfold located, new_location_even.
    replace (t * 2 ^ s - q * D) with r by lia. split; [lia | reflexivity]. }
  destruct (binary_round_aux_located t q (- s) _ Hq ltac:(lia) Hloc)
    as (p & e2 & m1 & e1 & m0 & -> & He1 & He2 & Hneg & Hp & Hm0 & HR & Hm1 & Hup).
  exists p, e2. split; [reflexivity |]. split; [exact Hneg |].
  rewrite Z.shiftr_div_pow2 by lia.
  set (u := 2 ^ (- e1)) in *.
  assert (Hu : 0 < u) by (apply Z.pow_pos_nonneg; lia).
  assert (Hbig : forall k, 0 <= k -> t < 2 ^ (k + 1) * D -> 2 ^ (52 - k) <= u).
  { intros k Hk Htk.
    assert (H2k : 0 < 2 ^ (k + 1)) by (apply Z.pow_pos_nonneg; lia).
    assert (Ha : 2 ^ 52 * D <= m0 * D) by (apply Z.mul_le_mono_nonneg_r; lia).
    assert (Hb : t * u < 2 ^ (k + 1) * D * u) by (apply Z.mul_lt_mono_pos_r; lia).
    assert (Hc : 2 ^ 52 < 2 ^ (k + 1) * u).
    { apply (Z.mul_lt_mono_pos_r D); lia. }
    destruct (Z.le_gt_cases (52 - k) (- e1)) as [Hle | Hgt].
    - apply Z.pow_le_mono_r; lia.
    - exfalso.
      assert (Hpw : 2 ^ (k + 1) * u <= 2 ^ 52); [| lia].
      unfold u. rewrite <- Z.pow_add_r by lia. apply Z.pow_le_mono_r; lia. }
  pose proof (Z.div_mod t D ltac:(lia)) as HtD.
  pose proof (Z.mod_pos_bound t D ltac:(lia)) as HtM.
  set (Q := t / D) in *.
  assert (HQ : Q * u <= m1 < (Q + 1) * u).
  { apply (floor_of_rounded t Q u m0 m1); try lia.
    destruct (Z.lt_ge_cases t (2 ^ 30 * D)) as [Hsmall | Hlarge].
    - pose proof (Hbig 29 ltac:(lia) ltac:(lia)) as Hu23. change (52 - 29) with 23 in Hu23.
      assert (1 <= (Q + 1) * D - t) by lia.
      assert (2 ^ 23 * 1 <= u * ((Q + 1) * D - t)) by (apply Z.mul_le_mono_nonneg; lia).
      lia.
    - pose proof (Hbig 30 ltac:(lia) ltac:(lia)) as Hu22. change (52 - 30) with 22 in Hu22.
      assert (2 ^ 30 <= Q) by (apply Z.div_le_lower_bound; lia).
      assert (2 ^ 30 * D <= Q * D) by (apply Z.mul_le_mono_nonneg_r; lia).
      assert (2 <= (Q + 1) * D - t) by lia.
      assert (2 ^ 22 * 2 <= u * ((Q + 1) * D - t)) by (apply Z.mul_le_mono_nonneg; lia).
      lia. }
  set (v := 2 ^ (- e2)) in *.
  assert (Hv : 0 < v) by (apply Z.pow_pos_nonneg; lia).
  set (w := 2 ^ (e2 - e1)) in *.
  assert (Hw : 0 < w) by (apply Z.pow_pos_nonneg; lia).
  assert (Huvw : u = v * w).
  { unfold u, v, w. rewrite <- Z.pow_add_r by lia. f_equal. lia. }
  assert (Hpv : Q * v <= Zpos p < (Q + 1) * v).
  { rewrite Huvw, <- Hp in HQ. split.
    - apply (Z.mul_le_mono_pos_r _ _ w); lia.
    - apply (Z.mul_lt_mono_pos_r w); lia. }
  symmetry. apply (Z.div_unique_pos (Zpos p) v Q (Zpos p - Q * v)); lia.
Qed.
End Division.

(** ** Ticks, seconds and percentages *)

Section Ticks.
Import Py Float64 Sensor MediaPlayer Examples.

(** Scenario C of the spec, and the two conversions the spec lists. *)
Example playback_scenario :
  let c := coordinator_with (snapshot_of (PList [playing_session 150000000 600000000])) true in
  EmbyProgressPercentSensor.native_value c (Some "dev1") = Ok 25 /\
  MediaPlayerEntity.media_position (player_at 150000000 600000000) = Ok (PInt 15) /\
  MediaPlayerEntity.media_duration (player_at 150000000 600000000) = Ok (PInt 60) /\
  EmbyPlaybackRemainingSensor.extra_state_attributes c (Some "dev1")
    = Ok (PDict [("remaining_seconds", PInt 45); ("remaining_minutes", PInt 0)]) /\
  EmbyPlaybackRemainingSensor.native_value c (Some "dev1") = Ok "00:45" /\
  ticks_to_seconds (PInt 10000000) = Ok 1 /\
  ticks_to_seconds (PInt 25000000) = Ok 2.
Proof. vm_compute. repeat split. Qed.

(** With a runtime of zero the division is not reached and the progress is 0. *)
Example progress_without_runtime :
  EmbyProgressPercentSensor.native_value
    (coordinator_with (snapshot_of (PList [playing_session 150000000 0])) true) (Some "dev1")
    = Ok 0.
Proof. reflexivity. Qed.

(** C5, where the code departs from the claim: 29 seconds into a title of
    100 seconds the sensor reports 28, while floor(290000000 / 1000000000 *
    100) is 29. The quotient is rounded to binary64 before it is multiplied
    by 100, and the product lies just below 29. *)
Theorem progress_percent_below_floor :
  EmbyProgressPercentSensor.native_value
    (coordinator_with (snapshot_of (PList [playing_session 290000000 1000000000])) true)
    (Some "dev1")
    = Ok 28 /\
  290000000 * 100 / 1000000000 = 29 /\
  percent (PInt 29) (PInt 100) = Ok 28.
Proof. vm_compute. repeat split. Qed.

(** The quotient of two integers, rounded and truncated, under the bounds
    of [quotient_truncates_to_floor]. *)
Lemma int_truediv_floor (D t : Z) :
  2 ^ 23 < D < 2 ^ 24 -> Z.even D = true ->
  0 <= t < 2 ^ 30 * D + D - 1 ->
  (q <- int_truediv t D; to_int q) = Ok (t / D).
Proof.
  intros [Hlo Hhi] Heven Ht. unfold int_truediv.
  replace (D =? 0) with false by lia.
  destruct (Z.eqb_spec t 0) as [-> | Hne]; [reflexivity |].
  replace (t <? 0) with false by lia. replace (D <? 0) with false by lia.
  rewrite !Z.abs_eq by lia. cbn [xorb].
  destruct (quotient_truncates_to_floor D Hlo Hhi Heven t ltac:(lia)) as (p & e2 & Hq & He2 & Hfloor).
  unfold Rounding.quotient in Hq. unfold prec, emax.
  destruct (SpecFloat.SFdiv_core_binary 53 1024 t 0 D 0) as [[mz ez] lz].
  rewrite Hq. cbn [bind to_int].
  replace (0 <=? e2) with false by lia. by rewrite Hfloor.
Qed.

(** C6, as it is worded: at 10737418249999999 ticks the conversion yields
    1073741825 seconds, while the floor of the quotient by 10,000,000 is
    1073741824. The quotient 1073741824.9999999 is rounded to the nearest
    binary64 number, which is the next integer, before it is truncated. *)
Lemma ticks_to_seconds_above_floor :
  ticks_to_seconds (PInt 10737418249999999) = Ok 1073741825 /\
  10737418249999999 / 10000000 = 1073741824 /\
  MediaPlayerEntity.media_position (player_at 10737418249999999 20000000000000000)
    = Ok (PInt 1073741825).
Proof. vm_compute. repeat split. Qed.

Lemma ticks_to_seconds_in_range (ticks : Z) :
  0 <= ticks < 2 ^ 30 * 10000000 + 10000000 - 1 ->
  ticks_to_seconds (PInt ticks) = Ok (ticks / 10000000).
Proof.
  intros Ht. unfold ticks_to_seconds, truediv. cbn [as_int].
  apply int_truediv_floor; [lia | reflexivity | lia].
Qed.

(** C6, amended: for every tick value from 0 up to, and not including,
    10737418249999999, the conversion [int(ticks / 10000000)] is exact
    floor division by 10,000,000. *)
Theorem ticks_to_seconds_floor (ticks : Z) :
  0 <= ticks < 10737418249999999 ->
  ticks_to_seconds (PInt ticks) = Ok (ticks / 10000000).
Proof. intros Ht. apply ticks_to_seconds_in_range. lia. Qed.

Lemma ticks_to_seconds_floor_witness :
  0 <= 25000000 < 10737418249999999 /\
  ticks_to_seconds (PInt 25000000) = Ok 2.
Proof.
  split; [lia |]. exact (ticks_to_seconds_floor 25000000 ltac:(lia)).
Defined.

(** The position and the duration the media player reports, for tick
    values in that range; a tick value of 0 is reported as [None]. *)
Lemma media_position_floor (self : EmbyMediaPlayer) (session play_state : list (string * PyVal))
    (ticks : Z) :
  _session_data self = PDict session -> session <> [] ->
  dict_lookup session "PlayState" = Some (PDict play_state) ->
  dict_lookup play_state "PositionTicks" = Some (PInt ticks) ->
  0 <= ticks < 10737418249999999 ->
  MediaPlayerEntity.media_position self
    = Ok (if ticks =? 0 then PNone else PInt (ticks / 10000000)).
Proof.
  intros Hs Hne Hps Hticks Ht. unfold MediaPlayerEntity.media_position.
  rewrite Hs. destruct session as [| kv session']; [done |].
  cbn [truthy negb get]. rewrite Hps. cbn [from_option id bind get]. rewrite Hticks.
  cbn [from_option id bind truthy].
  destruct (Z.eqb_spec ticks 0) as [-> | Hz]; [reflexivity |]. cbn [negb].
  rewrite ticks_to_seconds_in_range by lia. reflexivity.
Qed.

Lemma media_duration_floor (self : EmbyMediaPlayer) (session now_playing : list (string * PyVal))
    (ticks : Z) :
  _session_data self = PDict session -> session <> [] ->
  dict_lookup session "NowPlayingItem" = Some (PDict now_playing) ->
  dict_lookup now_playing "RunTimeTicks" = Some (PInt ticks) ->
  0 <= ticks < 10737418249999999 ->
  MediaPlayerEntity.media_duration self
    = Ok (if ticks =? 0 then PNone else PInt (ticks / 10000000)).
Proof.
  intros Hs Hne Hnp Hticks Ht. unfold MediaPlayerEntity.media_duration.
  rewrite Hs. destruct session as [| kv session']; [done |].
  cbn [truthy negb get]. rewrite Hnp. cbn [from_option id bind get]. rewrite Hticks.
  cbn [from_option id bind truthy].
  destruct (Z.eqb_spec ticks 0) as [-> | Hz]; [reflexivity |]. cbn [negb].
  rewrite ticks_to_seconds_in_range by lia. reflexivity.
Qed.

End Ticks.

(** ** The guard of the progress sensor *)

Section NoDivisionByZero.
Import Py Float64 Sensor Examples.

Lemma get_raises (o : PyVal) (k : string) (d : PyVal) (e : PyExn) :
  get o k d = Raise e -> exn_class e = AttributeError.
Proof. destruct o; cbn; intros [= <-]; reflexivity. Qed.

Lemma should_include_raises (f : option string) (session : PyVal) (e : PyExn) :
  _should_include_session f session = Raise e -> exn_class e = AttributeError.
Proof.
  destruct f as [f |]; cbn; [| done].
  destruct (String.eqb f "" || String.eqb f "all"); [done |].
  destruct session; cbn; intros [= <-]; reflexivity.
Qed.

Lemma gt_int_positive (v : PyVal) :
  gt_int v 0 = Ok true -> exists z, as_int v = Some z /\ 0 < z.
Proof.
  unfold gt_int. destruct (as_int v) as [z |]; [| done].
  intros [= H]. exists z. split; [done | lia].
Qed.

Lemma gt_int_raises (v : PyVal) (n : Z) (e : PyExn) :
  gt_int v n = Raise e -> exn_class e = TypeError.
Proof. unfold gt_int. destruct (as_int v); [done |]. by intros [= <-]. Qed.

Lemma to_int_raises (x : float) (e : PyExn) :
  to_int x = Raise e -> exn_class e <> ZeroDivisionError.
Proof. destruct x as [| | | s m ex]; cbn; try done; by intros [= <-]. Qed.

(** Behind the guard [runtime_ticks > 0] the percentage can fail on a
    position that is not a number or on an overflow, not on a division by
    zero. *)
Lemma percent_raises (position_ticks runtime_ticks : PyVal) (e : PyExn) :
  gt_int runtime_ticks 0 = Ok true ->
  percent position_ticks runtime_ticks = Raise e ->
  exn_class e <> ZeroDivisionError.
Proof.
  intros Hpos. destruct (gt_int_positive _ Hpos) as (z & Hz & Hz0).
  unfold percent, truediv. rewrite Hz.
  destruct (as_int position_ticks) as [x |]; [| by intros [= <-]].
  unfold int_truediv. replace (z =? 0) with false by lia.
  destruct (x =? 0).
  - cbn [bind]. unfold mul_int.
    destruct (of_int 100) as [y |] eqn:Hy; [| by vm_compute in Hy].
    cbn [bind]. apply to_int_raises.
  - destruct (SpecFloat.SFdiv_core_binary prec emax (Z.abs x) 0 (Z.abs z) 0) as [[mz ez] lz].
    destruct (SpecFloat.binary_round_aux prec emax _ mz ez lz) as [| | | s m ex];
      cbn [bind]; try (by intros [= <-]); unfold mul_int;
      (destruct (of_int 100) as [y |] eqn:Hy; [| by vm_compute in Hy]);
      cbn [bind]; apply to_int_raises.
Qed.

Lemma native_value_loop_raises (f : option string) (sessions : list PyVal) (e : PyExn) :
  EmbyProgressPercentSensor.native_value_loop f sessions = Raise e ->
  exn_class e <> ZeroDivisionError.
Proof.
  induction sessions as [| session rest IH]; [done |].
  cbn [EmbyProgressPercentSensor.native_value_loop].
  destruct (_should_include_session f session) as [[|] | e0] eqn:Hinc; cbn [bind negb];
    [| exact IH | intros [= <-]; by rewrite (should_include_raises _ _ _ Hinc)].
  destruct (get session "NowPlayingItem" PNone) as [now_playing | e0] eqn:Hnp; cbn [bind];
    [| intros [= <-]; by rewrite (get_raises _ _ _ _ Hnp)].
  destruct (truthy now_playing); [| exact IH].
  destruct (get session "PlayState" (PDict [])) as [play_state | e0] eqn:Hps; cbn [bind];
    [| intros [= <-]; by rewrite (get_raises _ _ _ _ Hps)].
  destruct (get play_state "PositionTicks" (PInt 0)) as [position_ticks | e0] eqn:Hpt; cbn [bind];
    [| intros [= <-]; by rewrite (get_raises _ _ _ _ Hpt)].
  destruct (get now_playing "RunTimeTicks" (PInt 0)) as [runtime_ticks | e0] eqn:Hrt; cbn [bind];
    [| intros [= <-]; by rewrite (get_raises _ _ _ _ Hrt)].
  destruct (gt_int runtime_ticks 0) as [[|] | e0] eqn:Hgt; cbn [bind];
    [by apply percent_raises | exact IH | intros [= <-]; by rewrite (gt_int_raises _ _ _ Hgt)].
Qed.

(** Whatever the snapshot holds, the progress sensor does not raise a
    division error. *)
Lemma progress_never_divides_by_zero (c : Coordinator) (f : option string) (e : PyExn) :
  EmbyProgressPercentSensor.native_value c f = Raise e -> exn_class e <> ZeroDivisionError.
Proof.
  unfold EmbyProgressPercentSensor.native_value.
  destruct (get (data c) "sessions" (PList [])) as [sessions | e0] eqn:Hs; cbn [bind];
    [| intros [= <-]; by rewrite (get_raises _ _ _ _ Hs)].
  destruct (iter sessions) as [items | e0] eqn:Hit; cbn [bind].
  - apply native_value_loop_raises.
  - intros [= <-]. destruct sessions; cbn in Hit; try done; by injection Hit as <-.
Qed.

End NoDivisionByZero.

(** ** The cached identity of the media player *)

Section MediaPlayerFrame.
Import Py Sensor MediaPlayer MediaPlayerEntity SessionRecord Examples Scenarios.

Lemma session_matches_dict (device_id : string) (session : PyVal) (b : bool) :
  session_matches device_id session = Ok b -> exists kvs, session = PDict kvs.
Proof. destruct session; try done. by eexists. Qed.

(** One turn of the loop of [_update_session_data]. *)
Lemma update_loop_step (session : PyVal) (rest : list PyVal) (self : EmbyMediaPlayer) :
  update_loop (session :: rest) self =
    match session_matches (device_id self) session with
    | Raise e => (Raise e, self)
    | Ok false => update_loop rest self
    | Ok true =>
        (Ok tt,
         {| device_id := device_id self; device_name := device_name self;
            user_name := user_name self;
            _session_data := session;
            _cached_user :=
              match get session "UserName" (_cached_user self) with Ok v => v | Raise _ => PNone end;
            _cached_device :=
              match get session "DeviceName" (_cached_device self) with Ok v => v | Raise _ => PNone end;
            _cached_client :=
              match get session "Client" (_cached_client self) with Ok v => v | Raise _ => PNone end |})
    end.
Proof.
  cbn [update_loop]. unfold mbind at 1 2, read, lift.
  destruct (session_matches (device_id self) session) as [[|] | e] eqn:Hm; try reflexivity.
  destruct (session_matches_dict _ _ _ Hm) as [kvs ->]. reflexivity.
Qed.

Lemma update_loop_no_match (sessions : list PyVal) (self : EmbyMediaPlayer) :
  Forall (fun session => session_matches (device_id self) session = Ok false) sessions ->
  update_loop sessions self = set_session_data PNone self.
Proof.
  induction 1 as [| session rest Hm _ IH]; [reflexivity |].
  by rewrite update_loop_step, Hm.
Qed.

(** However the loop ends, the cached identity is the old one or was read
    off a session that matches. *)
Lemma update_loop_frame (sessions : list PyVal) (self : EmbyMediaPlayer) :
  same_identity self (snd (update_loop sessions self)) \/
  exists kvs,
    In (PDict kvs) sessions /\
    session_matches (device_id self) (PDict kvs) = Ok true /\
    update_loop sessions self = (Ok tt, snd (update_loop sessions self)) /\
    _session_data (snd (update_loop sessions self)) = PDict kvs /\
    identity_from kvs self (snd (update_loop sessions self)).
Proof.
  induction sessions as [| session rest IH]; [by left |].
  rewrite update_loop_step.
  destruct (session_matches (device_id self) session) as [[|] | e] eqn:Hm.
  - destruct (session_matches_dict _ _ _ Hm) as [kvs ->].
    right. exists kvs. split; [by left | by repeat split].
  - destruct IH as [IH | (kvs & Hin & IH)]; [by left |].
    right. exists kvs. split; [by right | done].
  - by left.
Qed.

Lemma update_session_data_unfold (self : EmbyMediaPlayer) (c : Coordinator) :
  _update_session_data c self =
    if truthy (data c) then
      match get (data c) "sessions" (PList []) with
      | Raise e => (Raise e, self)
      | Ok sessions =>
          match len sessions with
          | Raise e => (Raise e, self)
          | Ok _ =>
              match iter sessions with
              | Raise e => (Raise e, self)
              | Ok items => update_loop items self
              end
          end
      end
    else set_session_data PNone self.
Proof.
  unfold _update_session_data. destruct (truthy (data c)); [| reflexivity]. cbn [negb].
  unfold mbind, lift.
  destruct (get (data c) "sessions" (PList [])) as [sessions | e]; [| reflexivity].
  destruct (len sessions); [| reflexivity].
  by destruct (iter sessions).
Qed.

Lemma update_session_data_no_match (self : EmbyMediaPlayer) (c : Coordinator) :
  no_matching_session (device_id self) c ->
  _update_session_data c self = set_session_data PNone self.
Proof.
  unfold _update_session_data.
  intros [Hfalsy | (kvs & sessions & Hdata & Hsessions & Hnone)].
  - by rewrite Hfalsy.
  - destruct (truthy (data c)); [| done]. cbn [negb].
    rewrite Hdata. unfold mbind, lift. cbn [get]. rewrite Hsessions. cbn [len iter].
    by apply update_loop_no_match.
Qed.

Lemma name_of_cache (self : EmbyMediaPlayer) (session : list (string * PyVal)) :
  _session_data self = PDict session ->
  shows_cached session "UserName" (_cached_user self) ->
  shows_cached session "DeviceName" (_cached_device self) ->
  name self = Ok (cached_name self).
Proof.
  intros Hs Hu Hd. unfold name, cached_name. rewrite Hs.
  destruct session as [| kv session']; [done |]. cbn [truthy get bind].
  unfold shows_cached in Hu, Hd.
  destruct (dict_lookup (kv :: session') "UserName") as [u |];
    destruct (dict_lookup (kv :: session') "DeviceName") as [d |]; cbn [from_option id bind].
  - destruct Hu as [-> Hu], Hd as [-> Hd]. unfold py_or. by rewrite Hu, Hd.
  - destruct Hu as [-> Hu]. unfold py_or. by rewrite Hu.
  - destruct Hd as [-> Hd]. unfold py_or. by rewrite Hd.
  - done.
Qed.

(** C10, as it is worded: the entity's name does change when a session
    ends that had an empty [UserName]. While the session lasts the name
    shows the empty user of the session; once no session matches, the
    cached user is that empty string, and the name falls back on the
    configured user name. *)
Lemma session_end_changes_name :
  let during :=
    snd (_handle_coordinator_update
           (coordinator_with (snapshot_of (PList [anonymous_session])) true) fresh_player) in
  let c := coordinator_with (snapshot_of (PList [paused_session])) true in
  let after := snd (_handle_coordinator_update c during) in
  no_matching_session (device_id during) c /\
  same_identity during after /\
  name during = Ok "Emby  - Living room" /\
  name after = Ok "Emby alice - Living room".
Proof.
  split; [| by repeat split].
  right. eexists _, _. split; [reflexivity |]. split; [reflexivity |]. by repeat constructor.
Qed.

(** C10, amended: an update in which the new snapshot is absent, or its
    sessions are a list of session mappings none of which matches the
    device of the entity, completes without raising and leaves
    [_cached_user], [_cached_device] and [_cached_client] as they were
    (after [__init__] without a match: the configured user name, the
    configured device name and ["Unknown"]); the entity is idle and its name
    is the one computed from the cached fields, a configured name standing
    in for a cached field that is empty. That name is the name before the
    update when the entity held no session, and when it held a session
    whose [UserName] and [DeviceName] were each absent, or the cached value
    and truthy. Whatever the snapshot, an update leaves the three cached
    fields as they were, or it found a matching session, and then each
    cached field holds that session's [UserName], [DeviceName] or
    [Client], or its old value where the session lacks the key. *)
Theorem cached_identity_frame (self : EmbyMediaPlayer) (c : Coordinator) :
  let self' := snd (_handle_coordinator_update c self) in
  (no_matching_session (device_id self) c ->
     fst (_handle_coordinator_update c self) = Ok tt /\
     same_identity self self' /\
     _session_data self' = PNone /\
     state self' = Ok IDLE /\
     name self' = Ok (cached_name self) /\
     (truthy (_session_data self) = false -> name self' = name self) /\
     (forall session,
        _session_data self = PDict session ->
        shows_cached session "UserName" (_cached_user self) ->
        shows_cached session "DeviceName" (_cached_device self) ->
        name self' = name self)) /\
  (same_identity self self' \/
   exists kvs items,
     sessions_of c = Ok items /\
     In (PDict kvs) items /\
     session_matches (device_id self) (PDict kvs) = Ok true /\
     _session_data self' = PDict kvs /\
     identity_from kvs self self').
Proof.
  unfold _handle_coordinator_update. split.
  - intros Hnone. rewrite (update_session_data_no_match self c Hnone).
    split; [done |]. split; [done |]. split; [done |]. split; [done |]. split; [done |].
    split.
    + intros Hidle. unfold name at 2. by rewrite Hidle.
    + intros session Hs Hu Hd. by rewrite (name_of_cache self session Hs Hu Hd).
  - rewrite update_session_data_unfold. unfold sessions_of.
    destruct (truthy (data c)); [| by left].
    destruct (get (data c) "sessions" (PList [])) as [sessions | e]; [| by left].
    cbn [bind].
    destruct (len sessions) as [n | e]; [| by left].
    destruct (iter sessions) as [items | e]; [| by left].
    destruct (update_loop_frame items self) as [H | (kvs & Hin & Hm & _ & Hs & Hid)]; [by left |].
    right. by exists kvs, items.
Qed.

(** The entity holds a session of user [bob]; the session list of the new
    snapshot holds a session of another device. *)
Lemma cached_identity_frame_witness :
  let c := coordinator_with
             (snapshot_of (PList [PDict [("DeviceId", PStr "dev2"); ("UserName", PStr "eve")]])) true in
  let self := player_at 150000000 600000000 in
  let self' := snd (_handle_coordinator_update c self) in
  no_matching_session (device_id self) c /\
  fst (_handle_coordinator_update c self) = Ok tt /\
  same_identity self self' /\
  _session_data self' = PNone /\
  state self' = Ok IDLE /\
  name self' = Ok "Emby bob - Living room" /\
  name self = Ok "Emby bob - Living room" /\
  name self' = name self.
Proof.
  intros c self self'.
  assert (Hnone : no_matching_session (device_id self) c).
  { right. eexists _, _. split; [reflexivity |]. split; [reflexivity |].
    repeat constructor. }
  split; [exact Hnone |].
  destruct (proj1 (cached_identity_frame self c) Hnone) as (H1 & H2 & H3 & H4 & H5 & _ & H7).
  split; [exact H1 |]. split; [exact H2 |]. split; [exact H3 |]. split; [exact H4 |].
  split; [exact H5 |]. split; [reflexivity |].
  apply (H7 [ ("Id", PStr "s1"); ("DeviceId", PStr "dev1"); ("InternalDeviceId", PInt 7);
              ("UserName", PStr "bob"); ("DeviceName", PStr "Living room");
              ("Client", PStr "Infuse");
              ("NowPlayingItem", PDict [("Name", PStr "Film"); ("Type", PStr "Movie");
                                        ("RunTimeTicks", PInt 600000000)]);
              ("PlayState", PDict [("PositionTicks", PInt 150000000); ("IsPaused", PBool false)]) ]);
    [reflexivity | by split | by split].
Defined.

(** After [__init__] without a matching session the cache holds the
    configured names and ["Unknown"]. *)
Lemma init_without_match (c : Coordinator) (device_id device_name user_name : string) :
  no_matching_session device_id c ->
  exists self,
    init c device_id device_name user_name = (Ok tt, self) /\
    _cached_user self = PStr user_name /\
    _cached_device self = PStr device_name /\
    _cached_client self = PStr "Unknown" /\
    _session_data self = PNone.
Proof.
  intros Hnone. unfold init. rewrite update_session_data_no_match by done.
  by eexists.
Qed.

(** A session that matches overwrites the cache with its own fields. *)
Example matching_session_overwrites :
  let self := player_at 150000000 600000000 in
  _cached_user self = PStr "bob" /\
  _cached_device self = PStr "Living room" /\
  _cached_client self = PStr "Infuse" /\
  name self = Ok "Emby bob - Living room" /\
  state self = Ok PLAYING.
Proof. repeat split. Qed.

End MediaPlayerFrame.

(** ** Requests that the server turns down *)

Section RequestStatus.
Import Py Api Examples Scenarios.

(** X1: A response from 400 on that is neither a 401 nor a 404 never has its
    body read: [raise_for_status] raises, and the request ends in
    [EmbyConnectionError] caused by aiohttp's [ClientResponseError]. *)
Theorem error_status_is_connection_error (self : EmbyAPIClient) (method endpoint : string)
    (data : option PyVal) (params : option (list (string * PyVal))) (timeout : Z) (r : Response) :
  session self (make_request self method endpoint data params timeout) = Responded r ->
  400 <= status r -> status r <> 401 -> status r <> 404 ->
  exists cause,
    _request self method endpoint data params timeout
      = Raise (Exn EmbyConnectionError ERROR_CONNECT (Some cause)) /\
    exn_class cause = ClientResponseError.
Proof.
  intros Hx Hlo H401 H404. unfold _request. rewrite Hx. cbn [request_try].
  destruct (Z.eqb_spec (status r) 401) as [| _]; [done |].
  destruct (Z.eqb_spec (status r) 404) as [| _]; [done |].
  unfold raise_for_status. destruct (Z.leb_spec 400 (status r)) as [_ |]; [| lia].
  eexists. split; reflexivity.
Qed.

(** The users endpoint answers 503. *)
Lemma error_status_is_connection_error_witness :
  exists cause,
    get_users (client_of (override home_server API_ENDPOINT_USERS (status_response 503)))
      = Raise (Exn EmbyConnectionError ERROR_CONNECT (Some cause)) /\
    exn_class cause = ClientResponseError.
Proof.
  apply (error_status_is_connection_error
           (client_of (override home_server API_ENDPOINT_USERS (status_response 503)))
           "GET" API_ENDPOINT_USERS None None DEFAULT_TIMEOUT
           {| status := 503; content_type := "text/plain";
              json := raise (OtherException "ContentTypeError") "unexpected mimetype";
              text := Ok "" |}); [reflexivity | by vm_compute | done | done].
Defined.

(** X2: A response that passes the status checks with a content type other
    than JSON is returned as its text, and the connection test then is a
    substring test: a page that mentions [ServerName] passes it. *)
Theorem test_connection_text_body (self : EmbyAPIClient) (r : Response) (body : string) :
  session self (make_request self "GET" API_ENDPOINT_SYSTEM_INFO_PUBLIC None None DEFAULT_TIMEOUT)
    = Responded r ->
  status r < 400 ->
  content_type r <> "application/json" ->
  text r = Ok body ->
  get_system_info_public self = Ok (PStr body) /\
  test_connection self = Ok (is_substring "ServerName" body).
Proof.
  intros Hx Hs Hct Ht.
  assert (Hcall : get_system_info_public self = Ok (PStr body)).
  { unfold get_system_info_public, _request. rewrite Hx. cbn [request_try].
    destruct (Z.eqb_spec (status r) 401) as [| _]; [lia |].
    destruct (Z.eqb_spec (status r) 404) as [| _]; [lia |].
    unfold raise_for_status. destruct (Z.leb_spec 400 (status r)) as [| _]; [lia |].
    cbn [bind]. destruct (String.eqb_spec (content_type r) "application/json"); [done |].
    by rewrite Ht. }
  split; [done |]. unfold test_connection. by rewrite Hcall.
Qed.

Lemma test_connection_text_body_witness :
  let self := client_of (override home_server API_ENDPOINT_SYSTEM_INFO_PUBLIC
                           (text_response 200 "<b>ServerName</b>")) in
  get_system_info_public self = Ok (PStr "<b>ServerName</b>") /\
  test_connection self = Ok true.
Proof.
  apply (test_connection_text_body
           (client_of (override home_server API_ENDPOINT_SYSTEM_INFO_PUBLIC
                         (text_response 200 "<b>ServerName</b>")))
           {| status := 200; content_type := "text/html";
              json := raise (OtherException "ContentTypeError") "unexpected mimetype";
              text := Ok "<b>ServerName</b>" |}
           "<b>ServerName</b>"); [reflexivity | by vm_compute | done | reflexivity].
Defined.

End RequestStatus.

(** ** The update of the coordinator *)

Section Update.
Import Py Api Snapshot Sensor Examples Scenarios.

Lemma update_data_overview (self : EmbyAPIClient) :
  _async_update_data (get_dashboard_overview self)
    = Ok (PDict (map (fun s => (key s, recover s (fetch s self))) Snapshot.all)).
Proof. by rewrite get_dashboard_overview_sections. Qed.

(** X3: [_async_update_data] always returns a snapshot with the nine keys:
    its [except EmbyAPIError] clause, and with it [UpdateFailed], is never
    reached, whatever the server and the network do. *)
Theorem update_data_never_fails (self : EmbyAPIClient) :
  exists kvs,
    _async_update_data (get_dashboard_overview self) = Ok (PDict kvs) /\
    map fst kvs = map key Snapshot.all /\
    forall e, _async_update_data (get_dashboard_overview self) <> Raise e.
Proof.
  eexists. rewrite update_data_overview. split; [reflexivity |]. split; [reflexivity | done].
Qed.

(** With every request failing, the overview is the nine empty fallbacks. *)
Lemma unreachable_overview (self : EmbyAPIClient) :
  (forall s, exists err, fetch s self = Raise err) ->
  _async_update_data (get_dashboard_overview self)
    = Ok (PDict
        [ ("system_info", PDict []); ("endpoint_info", PDict []); ("items_counts", PDict []);
          ("library_folders", PDict []); ("sessions", PList []); ("users", PList []);
          ("activity_log", PDict []); ("scheduled_tasks", PList []); ("devices", PDict []) ]).
Proof.
  intros Hall. rewrite update_data_overview. cbn [map Snapshot.all key].
  destruct (Hall system_info) as [? ->], (Hall endpoint_info) as [? ->],
    (Hall items_counts) as [? ->], (Hall library_folders) as [? ->],
    (Hall sessions) as [? ->], (Hall users) as [? ->], (Hall activity_log) as [? ->],
    (Hall scheduled_tasks) as [? ->], (Hall devices) as [? ->].
  reflexivity.
Qed.

End Update.

(** ** What the entities read off an updated snapshot *)

Section Readings.
Import Py PyMore Api Snapshot Sensor ServerSensors SessionSensors ServerBinarySensors.
Import Examples Scenarios.

(** The coordinator holds what its update method returned. *)
Lemma updated_data (c : Coordinator) :
  _async_update_data (get_dashboard_overview (client c)) = Ok (data c) ->
  data c = PDict (map (fun s => (key s, recover s (fetch s (client c)))) Snapshot.all).
Proof. rewrite update_data_overview. congruence. Qed.

(** X4: With every request failing, the update still returns and no entity
    raises: the server shows as offline, every count as 0 and the playback
    as idle, for every device filter. *)
Theorem unreachable_server_readings (c : Coordinator) (device_filter : option string) :
  (forall s, exists err, fetch s (client c) = Raise err) ->
  _async_update_data (get_dashboard_overview (client c)) = Ok (data c) ->
  EmbyOnlineBinarySensor.is_on c = Ok false /\
  EmbyVersionSensor.native_value c = Ok PNone /\
  EmbyServerNameSensor.native_value c = Ok PNone /\
  EmbyMovieCountSensor.native_value c = Ok (PInt 0) /\
  EmbySeriesCountSensor.native_value c = Ok (PInt 0) /\
  EmbyEpisodeCountSensor.native_value c = Ok (PInt 0) /\
  EmbyTotalItemsSensor.native_value c = Ok (PInt 0) /\
  EmbyLibraryFoldersSensor.native_value c = Ok 0 /\
  EmbyTotalUsersSensor.native_value c = Ok 0 /\
  EmbyActiveSessionsSensor.native_value c = Ok 0 /\
  EmbyDeviceCountSensor.native_value c = Ok 0 /\
  EmbyRecentActivitiesSensor.native_value c = Ok 0 /\
  EmbyScheduledTasksSensor.native_value c = Ok 0 /\
  EmbyTasksRunningBinarySensor.is_on c = Ok false /\
  EmbyLibraryScanningBinarySensor.is_on c = Ok false /\
  EmbyActiveStreamsBinarySensor.is_on c device_filter = Ok false /\
  EmbyNowPlayingSensor.native_value c device_filter = Ok (PStr "无播放") /\
  EmbyPlaybackStateSensor.native_value c device_filter = Ok "空闲" /\
  EmbyProgressPercentSensor.native_value c device_filter = Ok 0 /\
  EmbyPlaybackPositionSensor.native_value c device_filter = Ok "00:00" /\
  EmbyPlaybackRemainingSensor.native_value c device_filter = Ok "00:00".
Proof.
  intros Hall Hd. rewrite (unreachable_overview _ Hall) in Hd.
  destruct c as [self d ok exn n]. cbn [data] in Hd. injection Hd as <-.
  repeat split.
Qed.

Lemma unreachable_server_readings_witness :
  let c := updated unreachable in
  EmbyOnlineBinarySensor.is_on c = Ok false /\
  EmbyVersionSensor.native_value c = Ok PNone /\
  EmbyServerNameSensor.native_value c = Ok PNone /\
  EmbyMovieCountSensor.native_value c = Ok (PInt 0) /\
  EmbySeriesCountSensor.native_value c = Ok (PInt 0) /\
  EmbyEpisodeCountSensor.native_value c = Ok (PInt 0) /\
  EmbyTotalItemsSensor.native_value c = Ok (PInt 0) /\
  EmbyLibraryFoldersSensor.native_value c = Ok 0 /\
  EmbyTotalUsersSensor.native_value c = Ok 0 /\
  EmbyActiveSessionsSensor.native_value c = Ok 0 /\
  EmbyDeviceCountSensor.native_value c = Ok 0 /\
  EmbyRecentActivitiesSensor.native_value c = Ok 0 /\
  EmbyScheduledTasksSensor.native_value c = Ok 0 /\
  EmbyTasksRunningBinarySensor.is_on c = Ok false /\
  EmbyLibraryScanningBinarySensor.is_on c = Ok false /\
  EmbyActiveStreamsBinarySensor.is_on c (Some "dev1") = Ok false /\
  EmbyNowPlayingSensor.native_value c (Some "dev1") = Ok (PStr "无播放") /\
  EmbyPlaybackStateSensor.native_value c (Some "dev1") = Ok "空闲" /\
  EmbyProgressPercentSensor.native_value c (Some "dev1") = Ok 0 /\
  EmbyPlaybackPositionSensor.native_value c (Some "dev1") = Ok "00:00" /\
  EmbyPlaybackRemainingSensor.native_value c (Some "dev1") = Ok "00:00".
Proof.
  apply (unreachable_server_readings (updated unreachable) (Some "dev1"));
    [intros s; eexists; destruct s; reflexivity | reflexivity].
Defined.

(** X5: The online sensor after an update: off when the system information
    could not be fetched; on for a mapping exactly when its [ServerName] is
    truthy; and for any other value the fetch returned, such as the [None]
    of a 404, the sensor raises [AttributeError] instead of showing off. *)
Theorem online_sensor_after_update (c : Coordinator) :
  _async_update_data (get_dashboard_overview (client c)) = Ok (data c) ->
  match get_system_info (client c) with
  | Raise _ => EmbyOnlineBinarySensor.is_on c = Ok false
  | Ok (PDict kvs) =>
      EmbyOnlineBinarySensor.is_on c = Ok (truthy (default PNone (dict_lookup kvs "ServerName")))
  | Ok _ => exists e, EmbyOnlineBinarySensor.is_on c = Raise e /\ exn_class e = AttributeError
  end.
Proof.
  intros Hd. apply updated_data in Hd. unfold EmbyOnlineBinarySensor.is_on. rewrite Hd.
  cbn [map Snapshot.all key get dict_lookup String.eqb Ascii.eqb Bool.eqb from_option id
       recover fetch bind].
  destruct (get_system_info (client c)) as [[] |]; cbn [get bind raise]; eauto.
Qed.

(** The system information endpoint answers 404. *)
Lemma online_sensor_after_update_witness :
  exists e,
    EmbyOnlineBinarySensor.is_on
      (updated (override home_server API_ENDPOINT_SYSTEM_INFO (status_response 404))) = Raise e /\
    exn_class e = AttributeError.
Proof.
  exact (online_sensor_after_update
           (updated (override home_server API_ENDPOINT_SYSTEM_INFO (status_response 404)))
           eq_refl).
Defined.

(** X6: The total of the media sensor is the sum of what the movie, series
    and episode sensors show, whenever these three show integers. *)
Theorem total_items_is_sum (c : Coordinator) (movies series episodes : Z) :
  EmbyMovieCountSensor.native_value c = Ok (PInt movies) ->
  EmbySeriesCountSensor.native_value c = Ok (PInt series) ->
  EmbyEpisodeCountSensor.native_value c = Ok (PInt episodes) ->
  EmbyTotalItemsSensor.native_value c = Ok (PInt (movies + series + episodes)).
Proof.
  unfold EmbyMovieCountSensor.native_value, EmbySeriesCountSensor.native_value,
    EmbyEpisodeCountSensor.native_value, EmbyTotalItemsSensor.native_value.
  destruct (get (data c) "items_counts" (PDict [])) as [counts | e]; cbn [bind]; [| done].
  intros -> -> ->. reflexivity.
Qed.

Lemma total_items_is_sum_witness :
  EmbyTotalItemsSensor.native_value (updated home_server) = Ok (PInt (3 + 1 + 0)).
Proof.
  apply (total_items_is_sum (updated home_server) 3 1 0); reflexivity.
Defined.

Lemma comprehension_length {A B : Type} (f : A -> result B) (xs : list A) (ys : list B) :
  comprehension f xs = Ok ys -> length ys = length xs.
Proof.
  revert ys. induction xs as [| x xs IH]; intros ys; cbn [comprehension bind].
  - by intros [= <-].
  - destruct (f x); cbn [bind]; [| done].
    destruct (comprehension f xs) as [ys' |]; cbn [bind]; [| done].
    intros [= <-]. cbn. f_equal. by apply IH.
Qed.

Lemma chars_length (s : string) : length (chars s) = length (code_points s).
Proof. apply length_map. Qed.

(** [len(v)] is the number of items a loop over [v] visits. *)
Lemma len_iter (v : PyVal) (xs : list PyVal) :
  iter v = Ok xs -> len v = Ok (Z.of_nat (length xs)).
Proof.
  destruct v; cbn; try done; intros [= <-]; f_equal; f_equal.
  - by rewrite chars_length.
  - by rewrite length_map.
Qed.

#[local] Ltac count_matches_list :=
  let Hi := fresh "Hi" in
  let Hc := fresh "Hc" in
  repeat (match goal with
          | |- context [get ?o ?k ?d] => destruct (get o k d); cbn [bind]; [| done]
          end);
  match goal with
  | |- context [iter ?v] => destruct (iter v) eqn:Hi; cbn [bind]; [| done]
  end;
  match goal with
  | |- context [comprehension ?f ?xs] => destruct (comprehension f xs) eqn:Hc; cbn [bind]; [| done]
  end;
  intros [= <-]; eexists; split; [reflexivity |];
  rewrite (len_iter _ _ Hi); by rewrite (comprehension_length _ _ _ Hc).

(** X7: Each of the six counting sensors lists, in its attribute, exactly as
    many entries as its state counts, whenever the attribute can be built. *)
Theorem list_attribute_has_state_many_entries (c : Coordinator) :
  (forall attrs, EmbyLibraryFoldersSensor.extra_state_attributes c = Ok attrs ->
     exists xs, attrs = PDict [(ATTR_FOLDERS, PList xs)] /\
       EmbyLibraryFoldersSensor.native_value c = Ok (Z.of_nat (length xs))) /\
  (forall attrs, EmbyTotalUsersSensor.extra_state_attributes c = Ok attrs ->
     exists xs, attrs = PDict [(ATTR_USERS, PList xs)] /\
       EmbyTotalUsersSensor.native_value c = Ok (Z.of_nat (length xs))) /\
  (forall attrs, EmbyActiveSessionsSensor.extra_state_attributes c = Ok attrs ->
     exists xs, attrs = PDict [(ATTR_SESSIONS, PList xs)] /\
       EmbyActiveSessionsSensor.native_value c = Ok (Z.of_nat (length xs))) /\
  (forall attrs, EmbyDeviceCountSensor.extra_state_attributes c = Ok attrs ->
     exists xs, attrs = PDict [(ATTR_DEVICES, PList xs)] /\
       EmbyDeviceCountSensor.native_value c = Ok (Z.of_nat (length xs))) /\
  (forall attrs, EmbyRecentActivitiesSensor.extra_state_attributes c = Ok attrs ->
     exists xs, attrs = PDict [(ATTR_ACTIVITIES, PList xs)] /\
       EmbyRecentActivitiesSensor.native_value c = Ok (Z.of_nat (length xs))) /\
  (forall attrs, EmbyScheduledTasksSensor.extra_state_attributes c = Ok attrs ->
     exists xs, attrs = PDict [(ATTR_TASKS, PList xs)] /\
       EmbyScheduledTasksSensor.native_value c = Ok (Z.of_nat (length xs))).
Proof.
  repeat split; intros attrs.
  - unfold EmbyLibraryFoldersSensor.extra_state_attributes, EmbyLibraryFoldersSensor.native_value.
    count_matches_list.
  - unfold EmbyTotalUsersSensor.extra_state_attributes, EmbyTotalUsersSensor.native_value.
    count_matches_list.
  - unfold EmbyActiveSessionsSensor.extra_state_attributes, EmbyActiveSessionsSensor.native_value.
    count_matches_list.
  - unfold EmbyDeviceCountSensor.extra_state_attributes, EmbyDeviceCountSensor.native_value.
    count_matches_list.
  - unfold EmbyRecentActivitiesSensor.extra_state_attributes, EmbyRecentActivitiesSensor.native_value.
    count_matches_list.
  - unfold EmbyScheduledTasksSensor.extra_state_attributes, EmbyScheduledTasksSensor.native_value.
    count_matches_list.
Qed.

End Readings.

(** ** Sensors that agree with each other *)

Section Agreement.
Import Py PyMore Api Sensor ServerSensors SessionSensors ServerBinarySensors.
Import MediaPlayer MediaPlayerEntity Examples Scenarios.

Lemma state_loop_active (f : option string) (sessions : list PyVal) (state : string) :
  EmbyPlaybackStateSensor.native_value_loop f sessions = Ok state ->
  EmbyActiveStreamsBinarySensor.is_on_loop f sessions = Ok (negb (String.eqb state "空闲")).
Proof.
  induction sessions as [| session rest IH];
    cbn [EmbyPlaybackStateSensor.native_value_loop EmbyActiveStreamsBinarySensor.is_on_loop].
  - by intros [= <-].
  - destruct (_should_include_session f session) as [[|] |]; cbn [bind negb]; [| done | done].
    destruct (get session "NowPlayingItem" PNone) as [now_playing |]; cbn [bind]; [| done].
    destruct (truthy now_playing); [| done].
    destruct (get session "PlayState" (PDict [])) as [play_state |]; cbn [bind]; [| done].
    destruct (get play_state "IsPaused" (PBool false)) as [is_paused |]; cbn [bind]; [| done].
    intros [= <-]. by destruct (truthy is_paused).
Qed.

Lemma active_loop_idle (f : option string) (sessions : list PyVal) :
  EmbyActiveStreamsBinarySensor.is_on_loop f sessions = Ok false ->
  EmbyPlaybackStateSensor.native_value_loop f sessions = Ok "空闲".
Proof.
  induction sessions as [| session rest IH];
    cbn [EmbyPlaybackStateSensor.native_value_loop EmbyActiveStreamsBinarySensor.is_on_loop].
  - done.
  - destruct (_should_include_session f session) as [[|] |]; cbn [bind negb]; [| done | done].
    destruct (get session "NowPlayingItem" PNone) as [now_playing |]; cbn [bind]; [| done].
    by destruct (truthy now_playing).
Qed.

(** X8: The playback state sensor and the active streams binary sensor of one
    device filter never contradict each other: whenever the state sensor
    has a state, the binary sensor is on exactly when that state is not
    idle; and when the binary sensor is off, the state sensor shows idle. *)
Theorem playback_state_matches_active_streams (c : Coordinator) (device_filter : option string) :
  (forall state, EmbyPlaybackStateSensor.native_value c device_filter = Ok state ->
     EmbyActiveStreamsBinarySensor.is_on c device_filter = Ok (negb (String.eqb state "空闲"))) /\
  (EmbyActiveStreamsBinarySensor.is_on c device_filter = Ok false ->
     EmbyPlaybackStateSensor.native_value c device_filter = Ok "空闲").
Proof.
  unfold EmbyPlaybackStateSensor.native_value, EmbyActiveStreamsBinarySensor.is_on.
  destruct (get (data c) "sessions" (PList [])) as [sessions |]; cbn [bind]; [| done].
  destruct (iter sessions) as [items |]; cbn [bind]; [| done].
  split; [intros state | ]; [apply state_loop_active | apply active_loop_idle].
Qed.

Lemma included_is_matched (d : string) (session : PyVal) :
  filter_matches_all (Some d) = false ->
  _should_include_session (Some d) session = session_matches d session.
Proof.
  unfold filter_matches_all, _should_include_session, session_matches. by intros ->.
Qed.

Lemma player_loop_state (sessions : list PyVal) (self : EmbyMediaPlayer) :
  filter_matches_all (Some (device_id self)) = false ->
  fst (update_loop sessions self) = Ok tt ->
  (state (snd (update_loop sessions self)) = Ok PLAYING ->
     EmbyPlaybackStateSensor.native_value_loop (Some (device_id self)) sessions = Ok "播放中") /\
  (state (snd (update_loop sessions self)) = Ok PAUSED ->
     EmbyPlaybackStateSensor.native_value_loop (Some (device_id self)) sessions = Ok "暂停").
Proof.
  intros Hf. induction sessions as [| session rest IH].
  - intros _. split; discriminate.
  - rewrite update_loop_step. cbn [EmbyPlaybackStateSensor.native_value_loop].
    rewrite (included_is_matched _ _ Hf).
    destruct (session_matches (device_id self) session) as [[|] |]; cbn [bind negb fst snd];
      [| exact IH | done].
    intros _. unfold state. cbn [_session_data].
    destruct (truthy session); cbn [negb]; [| split; discriminate].
    destruct (get session "NowPlayingItem" PNone) as [now_playing |]; cbn [bind];
      [| split; discriminate].
    destruct (truthy now_playing); cbn [negb]; [| split; discriminate].
    destruct (get session "PlayState" (PDict [])) as [play_state |]; cbn [bind];
      [| split; discriminate].
    destruct (get play_state "IsPaused" (PBool false)) as [is_paused |]; cbn [bind];
      [| split; discriminate].
    destruct (truthy is_paused); split; done.
Qed.

(** X9: The media player of a device and the playback state sensor filtered on
    the same device agree: after an update that went through, a player that
    is playing or paused has the sensor show the same. *)
Theorem player_state_matches_sensor (c : Coordinator) (self : EmbyMediaPlayer) :
  filter_matches_all (Some (device_id self)) = false ->
  fst (_handle_coordinator_update c self) = Ok tt ->
  let self' := snd (_handle_coordinator_update c self) in
  (state self' = Ok PLAYING ->
     EmbyPlaybackStateSensor.native_value c (Some (device_id self)) = Ok "播放中") /\
  (state self' = Ok PAUSED ->
     EmbyPlaybackStateSensor.native_value c (Some (device_id self)) = Ok "暂停").
Proof.
  intros Hf. unfold _handle_coordinator_update. rewrite update_session_data_unfold.
  unfold EmbyPlaybackStateSensor.native_value.
  destruct (truthy (data c)); [| intros _; split; discriminate].
  destruct (get (data c) "sessions" (PList [])) as [sessions |]; cbn [bind]; [| done].
  destruct (len sessions); [| done].
  destruct (iter sessions) as [items |]; cbn [bind]; [| done].
  by apply player_loop_state.
Qed.

(** Another device is paused; the player's own device plays. *)
Lemma player_state_matches_sensor_witness :
  let c := coordinator_with (snapshot_of (PList [paused_session; playing_session 150000000 600000000])) true in
  let self' := snd (_handle_coordinator_update c fresh_player) in
  state self' = Ok PLAYING /\
  EmbyPlaybackStateSensor.native_value c (Some "dev1") = Ok "播放中" /\
  EmbyPlaybackStateSensor.native_value c (Some "dev2") = Ok "暂停".
Proof.
  split; [reflexivity |]. split; [| reflexivity].
  apply (player_state_matches_sensor
           (coordinator_with
              (snapshot_of (PList [paused_session; playing_session 150000000 600000000])) true)
           fresh_player); reflexivity.
Defined.

Lemma running_loop_listed (tasks xs : list PyVal) :
  EmbyTasksRunningBinarySensor.running_tasks tasks = Ok xs ->
  EmbyTasksRunningBinarySensor.is_on_loop tasks = Ok (match xs with [] => false | _ => true end).
Proof.
  revert xs. induction tasks as [| task rest IH]; intros xs;
    cbn [EmbyTasksRunningBinarySensor.running_tasks EmbyTasksRunningBinarySensor.is_on_loop].
  - by intros [= <-].
  - destruct (get task "State" PNone) as [task_state |]; cbn [bind]; [| done].
    destruct (eq_str task_state TASK_STATE_RUNNING); [| apply IH].
    destruct (record_of _ task); cbn [bind]; [| done].
    destruct (EmbyTasksRunningBinarySensor.running_tasks rest); cbn [bind]; [| done].
    by intros [= <-].
Qed.

Lemma streams_loop_listed (f : option string) (sessions xs : list PyVal) :
  EmbyActiveStreamsBinarySensor.active_streams f sessions = Ok xs ->
  EmbyActiveStreamsBinarySensor.is_on_loop f sessions
    = Ok (match xs with [] => false | _ => true end).
Proof.
  revert xs. induction sessions as [| session rest IH]; intros xs;
    cbn [EmbyActiveStreamsBinarySensor.active_streams EmbyActiveStreamsBinarySensor.is_on_loop].
  - by intros [= <-].
  - destruct (_should_include_session f session) as [[|] |]; cbn [bind negb]; [| apply IH | done].
    destruct (get session "NowPlayingItem" PNone) as [now_playing |]; cbn [bind]; [| done].
    destruct (truthy now_playing); [| apply IH].
    repeat (match goal with
            | |- context [get ?o ?k ?d] => destruct (get o k d); cbn [bind]; [| done]
            end).
    destruct (EmbyActiveStreamsBinarySensor.active_streams f rest); cbn [bind]; [| done].
    by intros [= <-].
Qed.

(** X10: A binary sensor with a list attribute is on exactly when the list it
    shows is not empty: the running tasks for the tasks sensor, the active
    streams (with the device filter it reports) for the streams sensor. *)
Theorem binary_sensor_on_iff_listed (c : Coordinator) (device_filter : option string) :
  (forall attrs, EmbyTasksRunningBinarySensor.extra_state_attributes c = Ok attrs ->
     exists xs, attrs = PDict [("running_tasks", PList xs)] /\
       EmbyTasksRunningBinarySensor.is_on c = Ok (match xs with [] => false | _ => true end)) /\
  (forall attrs, EmbyActiveStreamsBinarySensor.extra_state_attributes c device_filter = Ok attrs ->
     exists xs shown,
       attrs = PDict [("active_streams", PList xs); ("device_filter", PStr shown);
                      ("device_filter_enabled", PBool (negb (filter_matches_all device_filter)))] /\
       EmbyActiveStreamsBinarySensor.is_on c device_filter
         = Ok (match xs with [] => false | _ => true end)).
Proof.
  split; intros attrs.
  - unfold EmbyTasksRunningBinarySensor.extra_state_attributes, EmbyTasksRunningBinarySensor.is_on.
    destruct (get (data c) "scheduled_tasks" (PList [])) as [tasks |]; cbn [bind]; [| done].
    destruct (iter tasks) as [items |]; cbn [bind]; [| done].
    destruct (EmbyTasksRunningBinarySensor.running_tasks items) as [xs |] eqn:Hxs; cbn [bind]; [| done].
    intros [= <-]. exists xs. split; [done |]. by apply running_loop_listed.
  - unfold EmbyActiveStreamsBinarySensor.extra_state_attributes, EmbyActiveStreamsBinarySensor.is_on.
    destruct (get (data c) "sessions" (PList [])) as [sessions |]; cbn [bind]; [| done].
    destruct (iter sessions) as [items |]; cbn [bind]; [| done].
    destruct (EmbyActiveStreamsBinarySensor.active_streams device_filter items) as [xs |] eqn:Hxs;
      cbn [bind]; [| done].
    pose proof (streams_loop_listed _ _ _ Hxs) as Hon.
    destruct device_filter as [f |]; cbn [filter_matches_all].
    + destruct (String.eqb f ""), (String.eqb f "all"); cbn [negb andb orb];
        intros [= <-]; eexists _, _; split; done.
    + intros [= <-]. eexists _, _. split; done.
Qed.

Lemma scanning_loop_running (tasks : list PyVal) :
  EmbyLibraryScanningBinarySensor.is_on_loop tasks = Ok true ->
  EmbyTasksRunningBinarySensor.is_on_loop tasks = Ok true.
Proof.
  induction tasks as [| task rest IH];
    cbn [EmbyLibraryScanningBinarySensor.is_on_loop EmbyTasksRunningBinarySensor.is_on_loop].
  - done.
  - destruct task as [| | | | | kvs]; try done. cbn [get bind].
    destruct (dict_lookup kvs "Name") as [task_name |]; cbn [from_option id].
    all: destruct (dict_lookup kvs "State") as [task_state |]; cbn [from_option id eq_str].
    all: try destruct (eq_str task_state TASK_STATE_RUNNING); try done.
    all: destruct (EmbyLibraryScanningBinarySensor.any_keyword_in _ _) as [[|] |]; cbn [bind]; done.
Qed.

(** X11: The library scan is one of the scheduled tasks: when the library
    scanning sensor is on, so is the tasks running sensor. *)
Theorem library_scanning_implies_tasks_running (c : Coordinator) :
  EmbyLibraryScanningBinarySensor.is_on c = Ok true ->
  EmbyTasksRunningBinarySensor.is_on c = Ok true.
Proof.
  unfold EmbyLibraryScanningBinarySensor.is_on, EmbyTasksRunningBinarySensor.is_on.
  destruct (get (data c) "scheduled_tasks" (PList [])) as [tasks |]; cbn [bind]; [| done].
  destruct (iter tasks) as [items |]; cbn [bind]; [| done].
  apply scanning_loop_running.
Qed.

Lemma library_scanning_implies_tasks_running_witness :
  let c := coordinator_with (PDict [("scheduled_tasks", scanning_tasks)]) true in
  EmbyLibraryScanningBinarySensor.is_on c = Ok true /\
  EmbyTasksRunningBinarySensor.is_on c = Ok true.
Proof.
  split; [reflexivity |].
  apply (library_scanning_implies_tasks_running
           (coordinator_with (PDict [("scheduled_tasks", scanning_tasks)]) true)).
  reflexivity.
Defined.

End Agreement.

(** ** The first step of the setup *)

Section Setup.
Import Py PyMore Api ConfigFlow Examples Scenarios.

Variable claim_unique_id : PyVal -> result unit.
Variable session : ClientSession.
Variable data : UserInput.

Let client : EmbyAPIClient :=
  Api.init (input_host data) (input_port data) (input_api_key data) session false.
Let exchange : Exchange :=
  session (make_request client "GET" API_ENDPOINT_SYSTEM_INFO_PUBLIC None None DEFAULT_TIMEOUT).

Lemma public_info_unfold :
  get_system_info_public client
    = match request_try exchange with Ok v => Ok v | Raise err => request_except err end.
Proof. reflexivity. Qed.

Lemma public_info_raises (err : PyExn) :
  get_system_info_public client = Raise err -> is_EmbyAPIError (exn_class err) = true.
Proof.
  rewrite public_info_unfold. destruct (request_try exchange) as [| e]; [done |].
  destruct (request_except_raises e) as (e' & -> & He'). by intros [= <-].
Qed.

Lemma validate_try_returns (info : PyVal) :
  validate_try client = Ok info ->
  get_system_info_public client = Ok info /\ truthy info = true /\
  contains_str "ServerName" info = Ok true.
Proof.
  unfold validate_try. destruct (get_system_info_public client) as [v |]; cbn [bind]; [| done].
  destruct (truthy v) eqn:Ht; cbn [negb]; [| done].
  destruct (contains_str "ServerName" v) as [[|] |] eqn:Hc; cbn [bind negb]; [| done | done].
  by intros [= <-].
Qed.

Lemma validate_try_raises (err : PyExn) :
  validate_try client = Raise err ->
  is_EmbyAPIError (exn_class err) = true \/ exn_class err = TypeError.
Proof.
  unfold validate_try.
  destruct (get_system_info_public client) as [v | e] eqn:Hcall; cbn [bind].
  - destruct (truthy v); cbn [negb]; [| intros [= <-]; by left].
    destruct v; cbn; try (intros [= <-]; by right).
    all: match goal with |- context [if ?b then _ else _] => destruct b end;
      cbn; intros [= <-]; by left.
  - intros [= <-]. left. by apply public_info_raises.
Qed.

Lemma validate_input_unfold :
  validate_input session data =
    match validate_try client with
    | Raise err =>
        if is_EmbyAuthError (exn_class err) then
          Raise (Exn ValueError "authentication_failed" (Some err))
        else if is_EmbyAPIError (exn_class err) then
          Raise (Exn ValueError "cannot_connect" (Some err))
        else Raise err
    | Ok info =>
        title <- get info "ServerName" (PStr DEFAULT_NAME);
        server_id <- get info "Id" PNone;
        version <- get info "Version" PNone;
        Ok (PDict [("title", title); ("server_id", server_id); ("version", version)])
    end.
Proof. reflexivity. Qed.

(** X12: Nothing but four kinds of exception comes out of [validate_input]:
    [ValueError("authentication_failed")] caused by an [EmbyAuthError],
    [ValueError("cannot_connect")] caused by another [EmbyAPIError], a
    [TypeError] of the membership test, or an [AttributeError] of a
    response that has [ServerName] in it without being a mapping. *)
Theorem validate_input_raises (e : PyExn) :
  validate_input session data = Raise e ->
  (exists cause, e = Exn ValueError "authentication_failed" (Some cause) /\
     exn_class cause = EmbyAuthError) \/
  (exists cause, e = Exn ValueError "cannot_connect" (Some cause) /\
     is_EmbyAPIError (exn_class cause) = true /\ exn_class cause <> EmbyAuthError) \/
  exn_class e = TypeError \/
  exn_class e = AttributeError.
Proof.
  rewrite validate_input_unfold.
  destruct (validate_try client) as [info | err] eqn:Hv.
  - intros He. right. right. right.
    destruct (get info "ServerName" (PStr DEFAULT_NAME)) eqn:H1; cbn [bind] in He;
      [| injection He as <-; by eapply get_raises].
    destruct (get info "Id" PNone) eqn:H2; cbn [bind] in He;
      [| injection He as <-; by eapply get_raises].
    destruct (get info "Version" PNone) eqn:H3; cbn [bind] in He;
      [done | injection He as <-; by eapply get_raises].
  - destruct (validate_try_raises _ Hv) as [Hapi | Hty].
    + rewrite Hapi. destruct (is_EmbyAuthError (exn_class err)) eqn:Hauth; intros [= <-].
      * left. exists err. split; [done |]. by destruct (exn_class err).
      * right. left. exists err. split; [done |]. split; [done |].
        intros Heq. by rewrite Heq in Hauth.
    + rewrite Hty. cbn. intros [= <-]. right. right. by left.
Qed.

(** X13: What [validate_input] returns, it read off a mapping that the server
    sent with a [ServerName]: the title is that name, never the default,
    and the connection test of the same client succeeds. The step then
    claims the server's [Id] ([None] when it sent none) as the unique id
    and, unless that aborts, creates the entry under the server's name. *)
Theorem validate_input_returns (info : PyVal) :
  validate_input session data = Ok info ->
  exists kvs name,
    get_system_info_public client = Ok (PDict kvs) /\
    dict_lookup kvs "ServerName" = Some name /\
    info = PDict [ ("title", name);
                   ("server_id", default PNone (dict_lookup kvs "Id"));
                   ("version", default PNone (dict_lookup kvs "Version")) ] /\
    test_connection client = Ok true /\
    async_step_user claim_unique_id session (Some data)
      = (_ <- claim_unique_id (default PNone (dict_lookup kvs "Id"));
         Ok (CreateEntry name data)).
Proof.
  intros Hinfo. unfold async_step_user. rewrite Hinfo. revert Hinfo.
  rewrite validate_input_unfold.
  destruct (validate_try client) as [v | err] eqn:Hv.
  - destruct (validate_try_returns _ Hv) as (Hcall & Ht & Hc).
    destruct v as [| | | | | kvs]; try done. cbn in Hc.
    injection Hc as Hc. apply bool_decide_eq_true in Hc. destruct Hc as [name Hname].
    cbn [get bind]. rewrite Hname. cbn [from_option id]. intros [= <-].
    exists kvs, name. split; [done |]. split; [done |]. split; [done |]. split; [| done].
    unfold test_connection. rewrite Hcall. cbn [bind has_server_name is_none contains_str].
    rewrite Hname. by rewrite bool_decide_eq_true_2.
  - destruct (is_EmbyAuthError (exn_class err)); [done |].
    by destruct (is_EmbyAPIError (exn_class err)).
Qed.

Lemma step_user_rejected (e : PyExn) :
  validate_input session data = Raise e ->
  async_step_user claim_unique_id session (Some data)
    = Ok (ShowForm "user" [("base", error_key e)]).
Proof. unfold async_step_user. by intros ->. Qed.

Lemma validate_by_probe :
  validate_input session data =
    match get_system_info_public client with
    | Raise err =>
        if is_EmbyAuthError (exn_class err) then
          Raise (Exn ValueError "authentication_failed" (Some err))
        else Raise (Exn ValueError "cannot_connect" (Some err))
    | Ok info => validate_input session data
    end.
Proof.
  destruct (get_system_info_public client) as [info | err] eqn:Hcall; [done |].
  rewrite validate_input_unfold. unfold validate_try. rewrite Hcall. cbn [bind].
  by rewrite (public_info_raises _ Hcall).
Qed.

(** X14: The form that [async_step_user] shows again never raises and files
    every rejection under one key: [invalid_auth] for a 401,
    [cannot_connect] for a 404, for any other status from 400 on and for a
    request that failed before a response; whatever else [validate_input]
    raises gives one of the three keys. Without input the form is shown
    with no error. *)
Theorem step_user_error_keys :
  (forall r, exchange = Responded r -> status r = 401 ->
     async_step_user claim_unique_id session (Some data)
       = Ok (ShowForm "user" [("base", "invalid_auth")])) /\
  (forall r, exchange = Responded r -> status r = 404 ->
     async_step_user claim_unique_id session (Some data)
       = Ok (ShowForm "user" [("base", "cannot_connect")])) /\
  (forall r, exchange = Responded r -> 400 <= status r -> status r <> 401 ->
     async_step_user claim_unique_id session (Some data)
       = Ok (ShowForm "user" [("base", "cannot_connect")])) /\
  (forall err, exchange = Failed err -> is_EmbyAuthError (exn_class err) = false ->
     async_step_user claim_unique_id session (Some data)
       = Ok (ShowForm "user" [("base", "cannot_connect")])) /\
  (forall e, validate_input session data = Raise e ->
     exists k, async_step_user claim_unique_id session (Some data)
                 = Ok (ShowForm "user" [("base", k)]) /\
               (k = "invalid_auth" \/ k = "cannot_connect" \/ k = "unknown")) /\
  async_step_user claim_unique_id session None = Ok (ShowForm "user" []).
Proof.
  split; [| split; [| split; [| split; [| split]]]].
  - intros r Hx Hs. apply (step_user_rejected
      (Exn ValueError "authentication_failed" (Some (Exn EmbyAuthError ERROR_AUTH None)))).
    rewrite validate_input_unfold. unfold validate_try. rewrite public_info_unfold, Hx.
    cbn [request_try]. by rewrite Hs.
  - intros r Hx Hs. apply (step_user_rejected
      (Exn ValueError "cannot_connect" (Some (Exn EmbyAPIError "Invalid response from server" None)))).
    rewrite validate_input_unfold. unfold validate_try. rewrite public_info_unfold, Hx.
    cbn [request_try]. by rewrite Hs.
  - intros r Hx Hlo H401.
    destruct (Z.eq_dec (status r) 404) as [H404 | H404].
    + apply (step_user_rejected
        (Exn ValueError "cannot_connect" (Some (Exn EmbyAPIError "Invalid response from server" None)))).
      rewrite validate_input_unfold. unfold validate_try. rewrite public_info_unfold, Hx.
      cbn [request_try]. by rewrite H404.
    + apply (step_user_rejected
        (Exn ValueError "cannot_connect"
           (Some (Exn EmbyConnectionError ERROR_CONNECT
                    (Some (Exn ClientResponseError "bad status" None)))))).
      rewrite validate_input_unfold. unfold validate_try. rewrite public_info_unfold, Hx.
      cbn [request_try].
      destruct (Z.eqb_spec (status r) 401) as [| _]; [done |].
      destruct (Z.eqb_spec (status r) 404) as [| _]; [done |].
      unfold raise_for_status. destruct (Z.leb_spec 400 (status r)) as [_ |]; [| lia].
      reflexivity.
  - intros err Hx Hauth.
    assert (Hv : exists e cause, validate_input session data = Raise e /\
                   e = Exn ValueError "cannot_connect" (Some cause)).
    { rewrite validate_by_probe, public_info_unfold, Hx. cbn [request_try].
      unfold request_except. rewrite Hauth.
      destruct (is_asyncio_TimeoutError (exn_class err)); [by eexists _, _ |].
      destruct (is_aiohttp_ClientError (exn_class err)); by eexists _, _. }
    destruct Hv as (e & cause & Hv & ->). by rewrite (step_user_rejected _ Hv).
  - intros e He. rewrite (step_user_rejected _ He). eexists. split; [done |].
    unfold error_key. destruct (exn_class e); auto.
    destruct (is_substring "authentication_failed" (exn_msg e)); [auto |].
    destruct (is_substring "cannot_connect" (exn_msg e)); auto.
  - reflexivity.
Qed.

End Setup.

Section SetupWitnesses.
Import Py PyMore Api ConfigFlow Examples Scenarios.

(** The server answers 401. *)
Lemma validate_input_raises_witness :
  let e := Exn ValueError "authentication_failed" (Some (Exn EmbyAuthError ERROR_AUTH None)) in
  validate_input (override home_server API_ENDPOINT_SYSTEM_INFO_PUBLIC (status_response 401)) input
    = Raise e /\
  ((exists cause, e = Exn ValueError "authentication_failed" (Some cause) /\
      exn_class cause = EmbyAuthError) \/
   (exists cause, e = Exn ValueError "cannot_connect" (Some cause) /\
      is_EmbyAPIError (exn_class cause) = true /\ exn_class cause <> EmbyAuthError) \/
   exn_class e = TypeError \/
   exn_class e = AttributeError).
Proof.
  split; [reflexivity |].
  apply (validate_input_raises
           (override home_server API_ENDPOINT_SYSTEM_INFO_PUBLIC (status_response 401)) input).
  reflexivity.
Defined.

Lemma validate_input_returns_witness :
  validate_input home_server input
    = Ok (PDict [("title", PStr "Home"); ("server_id", PStr "abc"); ("version", PNone)]) /\
  exists kvs name,
    get_system_info_public (client_of home_server) = Ok (PDict kvs) /\
    dict_lookup kvs "ServerName" = Some name /\
    PDict [("title", PStr "Home"); ("server_id", PStr "abc"); ("version", PNone)]
      = PDict [ ("title", name);
                ("server_id", default PNone (dict_lookup kvs "Id"));
                ("version", default PNone (dict_lookup kvs "Version")) ] /\
    test_connection (client_of home_server) = Ok true /\
    async_step_user (fun _ => Ok tt) home_server (Some input)
      = (_ <- Ok tt; Ok (CreateEntry name input)).
Proof.
  split; [reflexivity |].
  apply (validate_input_returns (fun _ => Ok tt) home_server input
           (PDict [("title", PStr "Home"); ("server_id", PStr "abc"); ("version", PNone)])).
  reflexivity.
Defined.

End SetupWitnesses.

(** ** Elapsed and remaining time *)

Section Clock.
Import Py PyMore Float64 Sensor SessionSensors Playback Examples Scenarios.

(** Below zero the conversion of ticks truncates towards zero. *)
Lemma ticks_to_seconds_negative (ticks : Z) :
  0 < ticks < 2 ^ 30 * 10000000 + 10000000 - 1 ->
  ticks_to_seconds (PInt (- ticks)) = Ok (- (ticks / 10000000)).
Proof.
  intros Ht. unfold ticks_to_seconds, truediv. cbn [as_int]. unfold int_truediv.
  change (10000000 =? 0) with false. cbv iota.
  replace (- ticks =? 0) with false by lia.
  replace (- ticks <? 0) with true by lia. change (10000000 <? 0) with false. cbn [xorb].
  rewrite Z.abs_neq by lia. rewrite Z.opp_involutive. change (Z.abs 10000000) with 10000000.
  destruct (quotient_truncates_to_floor 10000000 ltac:(lia) ltac:(lia) eq_refl ticks ltac:(lia))
    as (p & e2 & Hq & He2 & Hfloor).
  unfold Rounding.quotient in Hq. unfold prec, emax.
  destruct (SpecFloat.SFdiv_core_binary 53 1024 ticks 0 10000000 0) as [[mz ez] lz].
  unfold SpecFloat.binary_round_aux in *.
  destruct (SpecFloat.shr_fexp 53 1024 mz ez lz) as [mrs' e'].
  destruct (SpecFloat.shr_fexp 53 1024 _ e' SpecFloat.loc_Exact) as [mrs'' e''].
  destruct (SpecFloat.shr_m mrs'') as [| m | m]; [done | | done].
  destruct (e'' <=? 1024 - 53); [| done].
  injection Hq as -> ->. cbn [bind to_int].
  replace (0 <=? e2) with false by lia. by rewrite Hfloor.
Qed.

(** A negative number of seconds, less than an hour, is shown as the time
    that misses to the full hour. *)
Lemma clock_negative (k : Z) : 0 < k < 3600 -> clock (- k) = clock (3600 - k).
Proof.
  intros Hk. unfold clock.
  assert (H1 : - k / 3600 = -1) by (Z.div_mod_to_equations; lia).
  assert (H2 : (3600 - k) / 3600 = 0) by (Z.div_mod_to_equations; lia).
  assert (H3 : - k mod 3600 = (3600 - k) mod 3600) by (Z.div_mod_to_equations; lia).
  assert (H4 : - k mod 60 = (3600 - k) mod 60) by (Z.div_mod_to_equations; lia).
  by rewrite H1, H2, H3, H4.
Qed.

Lemma remaining_first (c : Coordinator) (f : option string) (p r : Z) :
  plays_first c f p r -> 0 < r -> 0 < p ->
  EmbyPlaybackRemainingSensor.native_value c f
    = (seconds <- ticks_to_seconds (PInt (r - p)); Ok (clock seconds)) /\
  EmbyPlaybackRemainingSensor.extra_state_attributes c f
    = (seconds <- ticks_to_seconds (PInt (r - p));
       Ok (PDict [("remaining_seconds", PInt seconds); ("remaining_minutes", PInt (seconds / 60))])).
Proof.
  intros (snapshot & session & rest & now_playing & play_state
          & Hd & Hs & Hinc & Hnp & Hps & Hp & Hr) Hr0 Hp0.
  unfold EmbyPlaybackRemainingSensor.native_value, EmbyPlaybackRemainingSensor.extra_state_attributes.
  rewrite Hd. cbn [get]. rewrite Hs. cbn [from_option id bind iter].
  cbn [EmbyPlaybackRemainingSensor.remaining_loop]. rewrite Hinc. cbn [bind negb get].
  rewrite Hnp, Hps. cbn [from_option id bind get]. rewrite Hp, Hr. cbn [from_option id bind].
  destruct now_playing as [| kv now_playing']; [done |]. cbn [truthy].
  unfold gt_int. cbn [as_int bind sub].
  replace (0 <? r) with true by lia. replace (0 <? p) with true by lia.
  by destruct (ticks_to_seconds (PInt (r - p))).
Qed.

Lemma position_first (c : Coordinator) (f : option string) (p r : Z) :
  plays_first c f p r -> 0 < p ->
  EmbyPlaybackPositionSensor.native_value c f
    = (seconds <- ticks_to_seconds (PInt p); Ok (clock seconds)).
Proof.
  intros (snapshot & session & rest & now_playing & play_state
          & Hd & Hs & Hinc & Hnp & Hps & Hp & Hr) Hp0.
  unfold EmbyPlaybackPositionSensor.native_value.
  rewrite Hd. cbn [get]. rewrite Hs. cbn [from_option id bind iter].
  cbn [EmbyPlaybackPositionSensor.native_value_loop]. rewrite Hinc. cbn [bind negb get].
  rewrite Hnp, Hps. cbn [from_option id bind get]. rewrite Hp. cbn [from_option id bind].
  destruct now_playing as [| kv now_playing']; [done |]. cbn [truthy].
  unfold gt_int. cbn [as_int bind]. by replace (0 <? p) with true by lia.
Qed.

(** X15: While the position lies within the runtime, the position sensor and
    the remaining sensor show the floors of the elapsed and of the
    remaining seconds; the two add up to the seconds of the runtime or to
    one second less. *)
Theorem elapsed_and_remaining (c : Coordinator) (device_filter : option string)
    (position_ticks runtime_ticks : Z) :
  plays_first c device_filter position_ticks runtime_ticks ->
  0 < position_ticks <= runtime_ticks ->
  runtime_ticks < 10737418249999999 ->
  let elapsed := position_ticks / 10000000 in
  let remaining := (runtime_ticks - position_ticks) / 10000000 in
  EmbyPlaybackPositionSensor.native_value c device_filter = Ok (clock elapsed) /\
  EmbyPlaybackRemainingSensor.native_value c device_filter = Ok (clock remaining) /\
  runtime_ticks / 10000000 - 1 <= elapsed + remaining <= runtime_ticks / 10000000.
Proof.
  intros Hfirst Hp Hr. cbv zeta.
  rewrite (position_first _ _ _ _ Hfirst) by lia.
  rewrite (proj1 (remaining_first _ _ _ _ Hfirst ltac:(lia) ltac:(lia))).
  rewrite !ticks_to_seconds_in_range by lia. cbn [bind].
  split; [done |]. split; [done |]. Z.div_mod_to_equations. lia.
Qed.

Lemma elapsed_and_remaining_witness :
  let c := coordinator_with (snapshot_of (PList [playing_session 155000000 600000000])) true in
  plays_first c (Some "dev1") 155000000 600000000 /\
  EmbyPlaybackPositionSensor.native_value c (Some "dev1") = Ok "00:15" /\
  EmbyPlaybackRemainingSensor.native_value c (Some "dev1") = Ok "00:44" /\
  600000000 / 10000000 - 1 <= 155000000 / 10000000 + (600000000 - 155000000) / 10000000
    <= 600000000 / 10000000.
Proof.
  assert (H : plays_first
                (coordinator_with (snapshot_of (PList [playing_session 155000000 600000000])) true)
                (Some "dev1") 155000000 600000000).
  { eexists _, _, _, _, _. repeat split; reflexivity. }
  split; [exact H |].
  exact (elapsed_and_remaining _ (Some "dev1") 155000000 600000000 H
           ltac:(lia) ltac:(lia)).
Defined.

(** X16: Once the position has passed the end of the item by a second or more
    (and by less than an hour), the remaining sensor does not show zero:
    the negative difference is truncated towards zero and then shown as
    the time that misses to a full hour, ["59:55"] five seconds past the
    end; its attribute holds the negative number of seconds. *)
Theorem remaining_past_the_end (c : Coordinator) (device_filter : option string)
    (position_ticks runtime_ticks : Z) :
  plays_first c device_filter position_ticks runtime_ticks ->
  0 < runtime_ticks ->
  runtime_ticks + 10000000 <= position_ticks < runtime_ticks + 36000000000 ->
  let over := (position_ticks - runtime_ticks) / 10000000 in
  0 < 3600 - over < 3600 /\
  EmbyPlaybackRemainingSensor.native_value c device_filter = Ok (clock (3600 - over)) /\
  EmbyPlaybackRemainingSensor.extra_state_attributes c device_filter
    = Ok (PDict [("remaining_seconds", PInt (- over)); ("remaining_minutes", PInt (- over / 60))]).
Proof.
  intros Hfirst Hr Hp. cbv zeta.
  destruct (remaining_first _ _ _ _ Hfirst ltac:(lia) ltac:(lia)) as [-> ->].
  replace (runtime_ticks - position_ticks) with (- (position_ticks - runtime_ticks)) by lia.
  rewrite ticks_to_seconds_negative by lia. cbn [bind].
  assert (Hover : 0 < (position_ticks - runtime_ticks) / 10000000 < 3600)
    by (Z.div_mod_to_equations; lia).
  split; [lia |]. split; [| done]. by rewrite clock_negative.
Qed.

(** Ten seconds past the end of a title of one minute. *)
Lemma remaining_past_the_end_witness :
  let c := coordinator_with (snapshot_of (PList [paused_session])) true in
  plays_first c (Some "dev2") 700000000 600000000 /\
  EmbyPlaybackRemainingSensor.native_value c (Some "dev2") = Ok "59:50" /\
  EmbyPlaybackRemainingSensor.extra_state_attributes c (Some "dev2")
    = Ok (PDict [("remaining_seconds", PInt (-10)); ("remaining_minutes", PInt (-1))]).
Proof.
  assert (H : plays_first (coordinator_with (snapshot_of (PList [paused_session])) true)
                (Some "dev2") 700000000 600000000).
  { eexists _, _, _, _, _. repeat split; reflexivity. }
  split; [exact H |].
  exact (proj2 (remaining_past_the_end _ (Some "dev2") 700000000 600000000 H
                  ltac:(lia) ltac:(lia))).
Defined.

End Clock.

(** ** Today's activity *)

Section Activity.
Import Py PyMore Sensor ServerSensors ActivitySensors Examples Scenarios.

Variable is_today : string -> result bool.

Lemma count_playbacks_bounds (items : list PyVal) (start count : Z) :
  count_playbacks is_today items start = Ok count ->
  start <= count <= start + Z.of_nat (length items).
Proof.
  revert start. induction items as [| item rest IH]; intros start; cbn [count_playbacks].
  - intros [= <-]. cbn. lia.
  - destruct (get item "Type" (PStr "")) as [item_type |]; cbn [bind]; [| done].
    destruct (is_playback item_type) as [[|] |]; cbn [bind]; [| | done].
    + destruct (get item "Date" (PStr "")) as [date_str |]; cbn [bind]; [| done].
      destruct (truthy date_str).
      * destruct (counts_today is_today date_str) as [[|] |]; cbn [bind]; [| | done];
          intros H; apply IH in H; cbn [length]; lia.
      * intros H; apply IH in H; cbn [length]; lia.
    + intros H; apply IH in H; cbn [length]; lia.
Qed.

(** X17: Whatever the day is and however the dates parse: today's play count
    lies between 0 and the number of entries the recent activities sensor
    counts, the watch time is 30 minutes for each of them, and the
    attributes split it into hours and a rest of 0 or 30 minutes. *)
Theorem today_counts (c : Coordinator) (plays : Z) :
  EmbyTodayPlayCountSensor.native_value is_today c = Ok plays ->
  exists entries attrs,
    EmbyRecentActivitiesSensor.native_value c = Ok entries /\
    0 <= plays <= entries /\
    EmbyTodayWatchTimeSensor.native_value is_today c = Ok (plays * 30) /\
    EmbyTodayWatchTimeSensor.extra_state_attributes is_today c = Ok (PDict attrs) /\
    dict_lookup attrs "playback_count" = Some (PInt plays) /\
    dict_lookup attrs "estimated_hours" = Some (PInt (plays / 2)) /\
    dict_lookup attrs "estimated_minutes" = Some (PInt (30 * (plays mod 2))).
Proof.
  unfold EmbyTodayPlayCountSensor.native_value, EmbyTodayWatchTimeSensor.native_value,
    EmbyTodayWatchTimeSensor.extra_state_attributes, EmbyRecentActivitiesSensor.native_value.
  destruct (get (data c) "activity_log" (PDict [])) as [activity_log |]; cbn [bind]; [| done].
  destruct (get activity_log "Items" (PList [])) as [items |]; cbn [bind]; [| done].
  destruct (iter items) as [elements |] eqn:Hiter; cbn [bind]; [| done].
  intros Hcount. rewrite Hcount. cbn [bind]. rewrite (len_iter _ _ Hiter).
  apply count_playbacks_bounds in Hcount.
  eexists _, _. split; [reflexivity |]. split; [lia |]. split; [reflexivity |].
  split; [reflexivity |]. cbn [dict_lookup String.eqb Ascii.eqb Bool.eqb].
  split; [reflexivity |]. split; do 2 f_equal; Z.div_mod_to_equations; lia.
Qed.

End Activity.

Section ActivityWitness.
Import Py PyMore Sensor ServerSensors ActivitySensors Examples Scenarios.

(** Three entries in the log, one of them a playback of the day. *)
Lemma today_counts_witness :
  let c := coordinator_with (PDict [("activity_log", sample_log)]) true in
  EmbyTodayPlayCountSensor.native_value on_first_of_may c = Ok 1 /\
  exists entries attrs,
    EmbyRecentActivitiesSensor.native_value c = Ok entries /\
    0 <= 1 <= entries /\
    EmbyTodayWatchTimeSensor.native_value on_first_of_may c = Ok (1 * 30) /\
    EmbyTodayWatchTimeSensor.extra_state_attributes on_first_of_may c = Ok (PDict attrs) /\
    dict_lookup attrs "playback_count" = Some (PInt 1) /\
    dict_lookup attrs "estimated_hours" = Some (PInt (1 / 2)) /\
    dict_lookup attrs "estimated_minutes" = Some (PInt (30 * (1 mod 2))).
Proof.
  split; [reflexivity |].
  apply (today_counts on_first_of_may
           (coordinator_with (PDict [("activity_log", sample_log)]) true) 1).
  reflexivity.
Defined.

End ActivityWitness.

(** ** The media player and its session *)

Section PlayerSession.
Import Py PyMore Sensor MediaPlayer MediaPlayerEntity MediaPlayerMedia SessionRecord.
Import Examples Scenarios.

Lemma session_matches_raises (d : string) (session : PyVal) (e : PyExn) :
  session_matches d session = Raise e -> exn_class e = AttributeError.
Proof. destruct session; cbn; try (by intros [= <-]). Qed.

Lemma update_loop_raises (sessions : list PyVal) (self : EmbyMediaPlayer) (e : PyExn) :
  fst (update_loop sessions self) = Raise e ->
  snd (update_loop sessions self) = self /\ exn_class e = AttributeError.
Proof.
  induction sessions as [| session rest IH]; [done |].
  rewrite update_loop_step.
  destruct (session_matches (device_id self) session) as [[|] | e'] eqn:Hm; [done | exact IH |].
  cbn [fst snd]. intros [= <-]. split; [done |]. by eapply session_matches_raises.
Qed.

(** X18: An update of the media player that raises leaves the entity as it
    was, session and cached identity included; what it raises is the
    [AttributeError] of a snapshot or a session that is no mapping, or the
    [TypeError] of sessions that have no length. *)
Theorem failed_update_leaves_entity (c : Coordinator) (self : EmbyMediaPlayer) (e : PyExn) :
  fst (_handle_coordinator_update c self) = Raise e ->
  snd (_handle_coordinator_update c self) = self /\
  (exn_class e = AttributeError \/ exn_class e = TypeError).
Proof.
  unfold _handle_coordinator_update. rewrite update_session_data_unfold.
  destruct (truthy (data c)); [| done].
  destruct (get (data c) "sessions" (PList [])) as [sessions | e1] eqn:Hget.
  - destruct sessions as [| | | s | xs | kvs]; cbn [len iter raise fst snd];
      try (intros [= <-]; split; [done | by right]).
    all: intros He; apply update_loop_raises in He; destruct He as [-> He]; split; [done | by left].
  - cbn [fst snd]. intros [= <-]. split; [done |]. left. by eapply get_raises.
Qed.

(** The sessions endpoint had answered 404: the section is [None]. *)
Lemma failed_update_leaves_entity_witness :
  let c := coordinator_with (snapshot_of PNone) true in
  let self := player_at 150000000 600000000 in
  fst (_handle_coordinator_update c self) = Raise (Exn TypeError "object has no len()" None) /\
  snd (_handle_coordinator_update c self) = self /\
  (exn_class (Exn TypeError "object has no len()" None) = AttributeError \/
   exn_class (Exn TypeError "object has no len()" None) = TypeError).
Proof.
  split; [reflexivity |].
  apply (failed_update_leaves_entity (coordinator_with (snapshot_of PNone) true)
           (player_at 150000000 600000000)).
  reflexivity.
Defined.

Lemma update_loop_first_match (before rest : list PyVal) (session : PyVal)
    (self : EmbyMediaPlayer) :
  Forall (fun s => session_matches (device_id self) s = Ok false) before ->
  update_loop (before ++ session :: rest) self = update_loop (session :: rest) self.
Proof.
  induction 1 as [| s before Hs _ IH]; [done |].
  cbn [app]. by rewrite update_loop_step, Hs.
Qed.

(** X19: The player takes the first session of its device: the sessions before
    it that do not match are passed over, the sessions after it are not
    looked at, whatever they hold. *)
Theorem first_matching_session_wins (c : Coordinator) (self : EmbyMediaPlayer)
    (snapshot session : list (string * PyVal)) (before rest : list PyVal) :
  data c = PDict snapshot ->
  dict_lookup snapshot "sessions" = Some (PList (before ++ PDict session :: rest)) ->
  Forall (fun s => session_matches (device_id self) s = Ok false) before ->
  session_matches (device_id self) (PDict session) = Ok true ->
  let self' := snd (_handle_coordinator_update c self) in
  fst (_handle_coordinator_update c self) = Ok tt /\
  _session_data self' = PDict session /\
  identity_from session self self'.
Proof.
  intros Hd Hs Hbefore Hm. cbv zeta. unfold _handle_coordinator_update.
  rewrite update_session_data_unfold, Hd.
  destruct snapshot as [| kv snapshot']; [done |]. cbn [truthy get]. rewrite Hs.
  cbn [from_option id len iter].
  rewrite (update_loop_first_match _ _ _ _ Hbefore), update_loop_step, Hm.
  by repeat split.
Qed.

(** Another device first, then two sessions of the player's device. *)
Lemma first_matching_session_wins_witness :
  let c := coordinator_with
             (snapshot_of (PList [paused_session; idle_session; playing_session 150000000 600000000]))
             true in
  let self' := snd (_handle_coordinator_update c fresh_player) in
  fst (_handle_coordinator_update c fresh_player) = Ok tt /\
  _session_data self' = idle_session /\
  state self' = Ok IDLE /\
  _cached_user self' = PStr "bob".
Proof.
  pose proof (first_matching_session_wins
                (coordinator_with
                   (snapshot_of (PList [paused_session; idle_session;
                                        playing_session 150000000 600000000])) true)
                fresh_player
                [("system_info", PDict [("ServerName", PStr "Home")]);
                 ("sessions", PList [paused_session; idle_session;
                                     playing_session 150000000 600000000])]
                [("Id", PStr "s0"); ("DeviceId", PStr "dev1"); ("UserName", PStr "bob")]
                [paused_session] [playing_session 150000000 600000000]
                eq_refl eq_refl ltac:(by repeat constructor) eq_refl) as (H1 & H2 & H3).
  split; [exact H1 |]. split; [exact H2 |]. split; reflexivity.
Defined.

(** X20: A player whose device has no session shows nothing of a medium: idle,
    no content type, title, series, season, episode, duration, position
    or image, and attributes made of its cached identity and the idle
    status. *)
Theorem unmatched_player_shows_nothing (c : Coordinator) (self : EmbyMediaPlayer) :
  no_matching_session (device_id self) c ->
  let self' := snd (_handle_coordinator_update c self) in
  state self' = Ok IDLE /\
  media_content_type self' = Ok PNone /\
  media_title self' = Ok PNone /\
  media_series_title self' = Ok PNone /\
  media_season self' = Ok PNone /\
  media_episode self' = Ok PNone /\
  media_duration self' = Ok PNone /\
  media_position self' = Ok PNone /\
  media_image_url self' c = Ok PNone /\
  extra_state_attributes self'
    = Ok (PDict [ ("device_id", PStr (device_id self));
                  ("client", _cached_client self);
                  ("device_name", _cached_device self);
                  ("user_name", _cached_user self);
                  ("status", PStr "空闲") ]).
Proof.
  intros Hnone. cbv zeta. unfold _handle_coordinator_update.
  rewrite update_session_data_no_match by done. by repeat split.
Qed.

(** The session of the player's device has ended; another device plays. *)
Lemma unmatched_player_shows_nothing_witness :
  let c := coordinator_with (snapshot_of (PList [paused_session])) true in
  let self := player_at 150000000 600000000 in
  let self' := snd (_handle_coordinator_update c self) in
  no_matching_session (device_id self) c /\
  state self' = Ok IDLE /\
  media_content_type self' = Ok PNone /\
  media_title self' = Ok PNone /\
  media_series_title self' = Ok PNone /\
  media_season self' = Ok PNone /\
  media_episode self' = Ok PNone /\
  media_duration self' = Ok PNone /\
  media_position self' = Ok PNone /\
  media_image_url self' c = Ok PNone /\
  extra_state_attributes self'
    = Ok (PDict [ ("device_id", PStr "dev1");
                  ("client", PStr "Infuse");
                  ("device_name", PStr "Living room");
                  ("user_name", PStr "bob");
                  ("status", PStr "空闲") ]).
Proof.
  assert (H : no_matching_session (device_id (player_at 150000000 600000000))
                (coordinator_with (snapshot_of (PList [paused_session])) true)).
  { right. eexists _, _. split; [reflexivity |]. split; [reflexivity |]. by repeat constructor. }
  split; [exact H |].
  exact (unmatched_player_shows_nothing
           (coordinator_with (snapshot_of (PList [paused_session])) true)
           (player_at 150000000 600000000) H).
Defined.

(** X21: The position and the duration of a player whose session plays within
    the runtime are the floors of the elapsed and of the total seconds, and
    the position never exceeds the duration. *)
Theorem player_position_within_duration (self : EmbyMediaPlayer)
    (session play_state now_playing : list (string * PyVal)) (position_ticks runtime_ticks : Z) :
  _session_data self = PDict session ->
  dict_lookup session "PlayState" = Some (PDict play_state) ->
  dict_lookup session "NowPlayingItem" = Some (PDict now_playing) ->
  dict_lookup play_state "PositionTicks" = Some (PInt position_ticks) ->
  dict_lookup now_playing "RunTimeTicks" = Some (PInt runtime_ticks) ->
  0 < position_ticks <= runtime_ticks ->
  runtime_ticks < 10737418249999999 ->
  media_position self = Ok (PInt (position_ticks / 10000000)) /\
  media_duration self = Ok (PInt (runtime_ticks / 10000000)) /\
  position_ticks / 10000000 <= runtime_ticks / 10000000.
Proof.
  intros Hs Hps Hnp Hp Hr Hrange Hbound.
  assert (Hne : session <> []) by (by destruct session).
  rewrite (media_position_floor self session play_state position_ticks) by (done || lia).
  rewrite (media_duration_floor self session now_playing runtime_ticks) by (done || lia).
  replace (position_ticks =? 0) with false by lia.
  replace (runtime_ticks =? 0) with false by lia.
  split; [done |]. split; [done |]. apply Z.div_le_mono; lia.
Qed.

Lemma player_position_within_duration_witness :
  media_position (player_at 155000000 600000000) = Ok (PInt (155000000 / 10000000)) /\
  media_duration (player_at 155000000 600000000) = Ok (PInt (600000000 / 10000000)) /\
  155000000 / 10000000 <= 600000000 / 10000000.
Proof.
  apply (player_position_within_duration (player_at 155000000 600000000)
           [ ("Id", PStr "s1"); ("DeviceId", PStr "dev1"); ("InternalDeviceId", PInt 7);
             ("UserName", PStr "bob"); ("DeviceName", PStr "Living room");
             ("Client", PStr "Infuse");
             ("NowPlayingItem", PDict [("Name", PStr "Film"); ("Type", PStr "Movie");
                                       ("RunTimeTicks", PInt 600000000)]);
             ("PlayState", PDict [("PositionTicks", PInt 155000000); ("IsPaused", PBool false)]) ]
           [("PositionTicks", PInt 155000000); ("IsPaused", PBool false)]
           [("Name", PStr "Film"); ("Type", PStr "Movie"); ("RunTimeTicks", PInt 600000000)]
           155000000 600000000); (reflexivity || lia).
Defined.

End PlayerSession.

(** ** Nothing is playing *)

Section Idle.
Import Py PyMore Sensor SessionSensors Examples Scenarios.

Lemma idle_loops (f : option string) (sessions : list PyVal) :
  EmbyActiveStreamsBinarySensor.is_on_loop f sessions = Ok false ->
  EmbyNowPlayingSensor.native_value_loop f sessions = Ok (PStr "无播放") /\
  EmbyPlaybackStateSensor.attributes_loop f sessions = Ok (PDict [("status", PStr "无活动播放")]) /\
  EmbyProgressPercentSensor.native_value_loop f sessions = Ok 0 /\
  EmbyPlaybackPositionSensor.native_value_loop f sessions = Ok "00:00" /\
  EmbyPlaybackPositionSensor.attributes_loop f sessions = Ok (PDict []) /\
  EmbyPlaybackRemainingSensor.remaining_loop f sessions = Ok None.
Proof.
  induction sessions as [| session rest IH];
    cbn [EmbyActiveStreamsBinarySensor.is_on_loop EmbyNowPlayingSensor.native_value_loop
         EmbyPlaybackStateSensor.attributes_loop EmbyProgressPercentSensor.native_value_loop
         EmbyPlaybackPositionSensor.native_value_loop EmbyPlaybackPositionSensor.attributes_loop
         EmbyPlaybackRemainingSensor.remaining_loop].
  - done.
  - destruct (_should_include_session f session) as [[|] |]; cbn [bind negb]; [| done | done].
    destruct (get session "NowPlayingItem" PNone) as [now_playing |]; cbn [bind]; [| done].
    by destruct (truthy now_playing).
Qed.

(** X22: While the active streams sensor of a device filter is off, every
    playback sensor of that filter shows its idle value and none raises:
    no title, no progress, zero position and zero remaining time. *)
Theorem idle_displays_without_stream (c : Coordinator) (device_filter : option string) :
  EmbyActiveStreamsBinarySensor.is_on c device_filter = Ok false ->
  EmbyNowPlayingSensor.native_value c device_filter = Ok (PStr "无播放") /\
  EmbyPlaybackStateSensor.extra_state_attributes c device_filter
    = Ok (PDict [("status", PStr "无活动播放")]) /\
  EmbyProgressPercentSensor.native_value c device_filter = Ok 0 /\
  EmbyPlaybackPositionSensor.native_value c device_filter = Ok "00:00" /\
  EmbyPlaybackPositionSensor.extra_state_attributes c device_filter = Ok (PDict []) /\
  EmbyPlaybackRemainingSensor.native_value c device_filter = Ok "00:00" /\
  EmbyPlaybackRemainingSensor.extra_state_attributes c device_filter = Ok (PDict []).
Proof.
  unfold EmbyActiveStreamsBinarySensor.is_on, EmbyNowPlayingSensor.native_value,
    EmbyPlaybackStateSensor.extra_state_attributes, EmbyProgressPercentSensor.native_value,
    EmbyPlaybackPositionSensor.native_value, EmbyPlaybackPositionSensor.extra_state_attributes,
    EmbyPlaybackRemainingSensor.native_value, EmbyPlaybackRemainingSensor.extra_state_attributes.
  destruct (get (data c) "sessions" (PList [])) as [sessions |]; cbn [bind]; [| done].
  destruct (iter sessions) as [items |]; cbn [bind]; [| done].
  intros Hoff. destruct (idle_loops _ _ Hoff) as (-> & -> & -> & -> & -> & ->). done.
Qed.

(** The only session plays on another device than the filter names. *)
Lemma idle_displays_without_stream_witness :
  let c := coordinator_with (snapshot_of (PList [paused_session])) true in
  EmbyActiveStreamsBinarySensor.is_on c (Some "dev1") = Ok false /\
  EmbyNowPlayingSensor.native_value c (Some "dev1") = Ok (PStr "无播放") /\
  EmbyPlaybackStateSensor.extra_state_attributes c (Some "dev1")
    = Ok (PDict [("status", PStr "无活动播放")]) /\
  EmbyProgressPercentSensor.native_value c (Some "dev1") = Ok 0 /\
  EmbyPlaybackPositionSensor.native_value c (Some "dev1") = Ok "00:00" /\
  EmbyPlaybackPositionSensor.extra_state_attributes c (Some "dev1") = Ok (PDict []) /\
  EmbyPlaybackRemainingSensor.native_value c (Some "dev1") = Ok "00:00" /\
  EmbyPlaybackRemainingSensor.extra_state_attributes c (Some "dev1") = Ok (PDict []).
Proof.
  split; [reflexivity |].
  apply (idle_displays_without_stream
           (coordinator_with (snapshot_of (PList [paused_session])) true) (Some "dev1")).
  reflexivity.
Defined.

End Idle.

(** ** Cases of earlier lemmas *)

Section Cases.
Import Py Api Snapshot Sensor MediaPlayer MediaPlayerEntity SessionRecord Examples Scenarios.

(** The sessions section is [None]: the loop of the progress sensor
    raises [TypeError]. *)
Lemma progress_never_divides_by_zero_witness :
  let c := coordinator_with (snapshot_of PNone) true in
  let e := Exn TypeError "object is not iterable" None in
  EmbyProgressPercentSensor.native_value c (Some "dev1") = Raise e /\
  exn_class e <> ZeroDivisionError.
Proof.
  split; [reflexivity |].
  apply (progress_never_divides_by_zero (coordinator_with (snapshot_of PNone) true) (Some "dev1")).
  reflexivity.
Defined.

(** Every endpoint of [home_server] answers with a body of its shape. *)
Lemma sections_well_shaped_witness :
  (forall s v, fetch s (client_of home_server) = Ok v -> well_shaped s v = true) /\
  exists kvs, get_dashboard_overview (client_of home_server) = Ok (PDict kvs) /\
    forall s, exists v, dict_lookup kvs (key s) = Some v /\ well_shaped s v = true.
Proof.
  assert (H : forall s v, fetch s (client_of home_server) = Ok v -> well_shaped s v = true).
  { intros s v. destruct s; intros [= <-]; reflexivity. }
  split; [exact H | exact (sections_well_shaped (client_of home_server) H)].
Defined.

(** The only session belongs to another device. *)
Lemma init_without_match_witness :
  let c := coordinator_with (snapshot_of (PList [paused_session])) true in
  no_matching_session "dev1" c /\
  exists self,
    init c "dev1" "TV" "alice" = (Ok tt, self) /\
    _cached_user self = PStr "alice" /\
    _cached_device self = PStr "TV" /\
    _cached_client self = PStr "Unknown" /\
    _session_data self = PNone.
Proof.
  assert (H : no_matching_session "dev1"
                (coordinator_with (snapshot_of (PList [paused_session])) true)).
  { right. eexists _, _. split; [reflexivity |]. split; [reflexivity |]. by repeat constructor. }
  split; [exact H |].
  exact (init_without_match (coordinator_with (snapshot_of (PList [paused_session])) true)
           "dev1" "TV" "alice" H).
Defined.

End Cases.

